(** * Session entrypoints of the OpenXR state tracker

    A shallow embedding of [src/xrt/state_trackers/oxr/oxr_api_session.c]:
    every entrypoint of that file is a function in a small state-and-error
    monad over the runtime state and the caller's output structures.

    Conventions.
    - Handles are pointers: a handle value is the address ([Z], 0 is NULL)
      of the runtime object it names.
    - A pointer to a caller structure is the structure itself wrapped in
      [option] ([None] is NULL); the structures a call may write are threaded
      through the monad as its output component.  One pointer is used both
      as a handle and as a structure, [facialExpressions] of
      [oxr_xrGetFacialExpressionsHTC]: its model reads both at one address.
    - Behaviour the C standard leaves undefined (NULL dereference, access
      outside an array, an out-of-range float to int conversion) is the
      outcome [Undefined].
    - All optional extensions are compiled in; the RenderDoc capture hooks
      are compiled out. *)

From Stdlib Require Import ZArith List Bool Lia.
From Stdlib Require Import Floats.SpecFloat.
From stdpp Require Import base option list gmap.

Open Scope Z_scope.

(** ** IEEE binary32, the C type [float]

    Arithmetic on [float] is evaluated in binary32 and rounds to nearest,
    ties to even. *)

Module F32.
Definition float := spec_float.
Definition prec : Z := 24.
Definition emax : Z := 128.

Definition mul (x y : float) : float := SFmul prec emax x y.
Definition of_Z (n : Z) : float := binary_normalize prec emax n 0 false.

(** The float nearest to n/d, for integers below 2^24 (a decimal literal). *)
Definition of_ratio (n : Z) (d : positive) : float :=
  SFdiv prec emax (of_Z n) (of_Z (Zpos d)).

Definition zero : float := S754_zero false.

(** C's [x == 0.0f]: true for both signed zeros. *)
Definition is_zero (x : float) : bool := SFeqb x zero.

(** The integral part, rounding toward zero, of a finite float. *)
Definition trunc (x : float) : option Z :=
  match x with
  | S754_zero _ => Some 0
  | S754_finite s m e =>
      let a := if 0 <=? e then Zpos m * 2 ^ e else Zpos m / 2 ^ (- e) in
      Some (if s then - a else a)
  | _ => None
  end.

Definition INT_MIN : Z := - 2 ^ 31.
Definition INT_MAX : Z := 2 ^ 31 - 1.

(** C's [(int)x]: undefined ([None]) when the integral part is not
    representable in [int]. *)
Definition to_int (x : float) : option Z :=
  match trunc x with
  | Some z => if (INT_MIN <=? z) && (z <=? INT_MAX) then Some z else None
  | None => None
  end.
End F32.

(** C's [(int)u] for a [uint32_t] value. *)
Definition int_of_uint32 (u : Z) : Z :=
  let w := u mod 2 ^ 32 in if w <? 2 ^ 31 then w else w - 2 ^ 32.

(** ** Result codes and enumerations *)

Inductive XrResult :=
| XR_SUCCESS
| XR_ERROR_VALIDATION_FAILURE
| XR_ERROR_RUNTIME_FAILURE
| XR_ERROR_OUT_OF_MEMORY
| XR_ERROR_FUNCTION_UNSUPPORTED
| XR_ERROR_FEATURE_UNSUPPORTED
| XR_ERROR_LIMIT_REACHED
| XR_ERROR_SIZE_INSUFFICIENT
| XR_ERROR_HANDLE_INVALID
| XR_ERROR_SESSION_RUNNING
| XR_ERROR_SESSION_NOT_RUNNING
| XR_ERROR_SESSION_LOST
| XR_ERROR_SESSION_NOT_READY
| XR_ERROR_TIME_INVALID
| XR_ERROR_VIEW_CONFIGURATION_TYPE_UNSUPPORTED
| XR_ERROR_DISPLAY_REFRESH_RATE_UNSUPPORTED_FB.

#[global] Instance XrResult_eq_dec : EqDecision XrResult.
Proof. solve_decision. Defined.

Inductive xrt_result_t := XRT_SUCCESS | XRT_ERROR (code : Z).

Definition xrt_is_success (r : xrt_result_t) : bool :=
  match r with XRT_SUCCESS => true | XRT_ERROR _ => false end.

(** The structure types this file tests for.  [XR_TYPE_OTHER v] is any
    other value [v] of a word that is read as a structure type. *)
Inductive XrStructureType :=
| XR_TYPE_UNKNOWN
| XR_TYPE_SESSION_BEGIN_INFO
| XR_TYPE_FRAME_WAIT_INFO
| XR_TYPE_FRAME_STATE
| XR_TYPE_FRAME_BEGIN_INFO
| XR_TYPE_FRAME_END_INFO
| XR_TYPE_VIEW_LOCATE_INFO
| XR_TYPE_VIEW_STATE
| XR_TYPE_VIEW
| XR_TYPE_VISIBILITY_MASK_KHR
| XR_TYPE_HAND_TRACKER_CREATE_INFO_EXT
| XR_TYPE_HAND_JOINTS_LOCATE_INFO_EXT
| XR_TYPE_HAND_JOINT_LOCATIONS_EXT
| XR_TYPE_HAND_JOINT_VELOCITIES_EXT
| XR_TYPE_FORCE_FEEDBACK_CURL_APPLY_LOCATIONS_MNDX
| XR_TYPE_FACIAL_TRACKER_CREATE_INFO_HTC
| XR_TYPE_FACIAL_EXPRESSIONS_HTC
| XR_TYPE_BODY_TRACKER_CREATE_INFO_FB
| XR_TYPE_BODY_SKELETON_FB
| XR_TYPE_BODY_JOINTS_LOCATE_INFO_FB
| XR_TYPE_BODY_JOINT_LOCATIONS_FB
| XR_TYPE_BODY_TRACKING_FIDELITY_STATUS_META
| XR_TYPE_OTHER (v : Z).

#[global] Instance XrStructureType_eq_dec : EqDecision XrStructureType.
Proof. solve_decision. Defined.

(** Each C enumeration carries one extra constructor for the values an
    application can pass that the enumeration does not name. *)

Inductive XrViewConfigurationType :=
| XR_VIEW_CONFIGURATION_TYPE_PRIMARY_MONO
| XR_VIEW_CONFIGURATION_TYPE_PRIMARY_STEREO
| XR_VIEW_CONFIGURATION_TYPE_OTHER (v : Z).

#[global] Instance XrViewConfigurationType_eq_dec : EqDecision XrViewConfigurationType.
Proof. solve_decision. Defined.

Inductive XrVisibilityMaskTypeKHR :=
| XR_VISIBILITY_MASK_TYPE_HIDDEN_TRIANGLE_MESH_KHR
| XR_VISIBILITY_MASK_TYPE_VISIBLE_TRIANGLE_MESH_KHR
| XR_VISIBILITY_MASK_TYPE_LINE_LOOP_KHR
| XR_VISIBILITY_MASK_TYPE_OTHER (v : Z).

Inductive XrPerfSettingsDomainEXT :=
| XR_PERF_SETTINGS_DOMAIN_CPU_EXT
| XR_PERF_SETTINGS_DOMAIN_GPU_EXT
| XR_PERF_SETTINGS_DOMAIN_OTHER (v : Z).

Inductive XrPerfSettingsLevelEXT :=
| XR_PERF_SETTINGS_LEVEL_POWER_SAVINGS_EXT
| XR_PERF_SETTINGS_LEVEL_SUSTAINED_LOW_EXT
| XR_PERF_SETTINGS_LEVEL_SUSTAINED_HIGH_EXT
| XR_PERF_SETTINGS_LEVEL_BOOST_EXT
| XR_PERF_SETTINGS_LEVEL_OTHER (v : Z).

Inductive XrAndroidThreadTypeKHR :=
| XR_ANDROID_THREAD_TYPE_APPLICATION_MAIN_KHR
| XR_ANDROID_THREAD_TYPE_APPLICATION_WORKER_KHR
| XR_ANDROID_THREAD_TYPE_RENDERER_MAIN_KHR
| XR_ANDROID_THREAD_TYPE_RENDERER_WORKER_KHR
| XR_ANDROID_THREAD_TYPE_OTHER (v : Z).

Inductive XrHandEXT :=
| XR_HAND_LEFT_EXT
| XR_HAND_RIGHT_EXT
| XR_HAND_OTHER (v : Z).

Inductive XrHandJointSetEXT :=
| XR_HAND_JOINT_SET_DEFAULT_EXT
| XR_HAND_JOINT_SET_OTHER (v : Z).

Inductive XrFacialTrackingTypeHTC :=
| XR_FACIAL_TRACKING_TYPE_EYE_DEFAULT_HTC
| XR_FACIAL_TRACKING_TYPE_LIP_DEFAULT_HTC
| XR_FACIAL_TRACKING_TYPE_OTHER (v : Z).

Inductive xrt_facial_tracking_type_htc :=
| XRT_FACIAL_TRACKING_TYPE_EYE_DEFAULT_HTC
| XRT_FACIAL_TRACKING_TYPE_LIP_DEFAULT_HTC
| XRT_FACIAL_TRACKING_TYPE_OTHER (v : Z).

Inductive XrBodyJointSetFB :=
| XR_BODY_JOINT_SET_DEFAULT_FB
| XR_BODY_JOINT_SET_FULL_BODY_META
| XR_BODY_JOINT_SET_OTHER (v : Z).

Inductive xrt_body_joint_set_type_fb :=
| XRT_BODY_JOINT_SET_UNKNOWN
| XRT_BODY_JOINT_SET_DEFAULT_FB
| XRT_BODY_JOINT_SET_FULL_BODY_META.

Inductive xrt_input_name :=
| XRT_INPUT_GENERIC_HAND_TRACKING_LEFT
| XRT_INPUT_GENERIC_HAND_TRACKING_RIGHT
| XRT_INPUT_HTC_EYE_FACE_TRACKING
| XRT_INPUT_HTC_LIP_FACE_TRACKING
| XRT_INPUT_FB_BODY_TRACKING
| XRT_INPUT_META_FULL_BODY_TRACKING
| XRT_INPUT_OTHER (v : Z).

Inductive XrSessionState :=
| XR_SESSION_STATE_IDLE
| XR_SESSION_STATE_READY
| XR_SESSION_STATE_SYNCHRONIZED
| XR_SESSION_STATE_VISIBLE
| XR_SESSION_STATE_FOCUSED
| XR_SESSION_STATE_STOPPING
| XR_SESSION_STATE_LOSS_PENDING
| XR_SESSION_STATE_EXITING
| XR_SESSION_STATE_LOST.

Inductive oxr_extension :=
| KHR_visibility_mask
| EXT_performance_settings
| EXT_hand_tracking
| KHR_android_thread_settings
| HTC_facial_tracking
| FB_body_tracking
| META_body_tracking_full_body
| META_body_tracking_fidelity.

#[global] Instance oxr_extension_eq_dec : EqDecision oxr_extension.
Proof. solve_decision. Defined.

(** ** Devices and the data they report *)

Record xrt_pose := {
  orientation : F32.float * F32.float * F32.float * F32.float;
  position : F32.float * F32.float * F32.float }.

(** [XrPosef] has the fields of [xrt_pose]; [OXR_XRT_POSE_TO_XRPOSEF]
    copies them one by one. *)
Definition XrPosef := xrt_pose.
Definition OXR_XRT_POSE_TO_XRPOSEF (p : xrt_pose) : XrPosef := p.

Definition float0 : F32.float := F32.zero.
Definition pose0 : xrt_pose :=
  {| orientation := (float0, float0, float0, float0);
     position := (float0, float0, float0) |}.

Record xrt_space_relation := {
  relation_flags : Z;
  pose : xrt_pose }.

(** Modelled from the spec: the constant of xrt_defines.h (not under
    src/) for "zeroed location flags". *)
Definition XRT_SPACE_RELATION_BITMASK_NONE : Z := 0.

Definition relation0 : xrt_space_relation :=
  {| relation_flags := 0; pose := pose0 |}.

Record xrt_body_joint_location_fb := { relation : xrt_space_relation }.

(** [struct xrt_body_joint_set]: the members of the union share the base
    fields; the joint array is zero-initialised by the caller ([= {0}]). *)
Record xrt_body_joint_set := {
  sample_time_ns : Z;
  bjs_confidence : F32.float;
  skeleton_changed_count : Z;
  is_active : bool;
  fidelity_status : Z;
  body_pose : xrt_space_relation;
  joint_locations : list xrt_body_joint_location_fb }.

Record xrt_body_skeleton_joint_fb := {
  skj_pose : xrt_pose;
  skj_joint : Z;
  parent_joint : Z }.

Definition skeleton_joint0 : xrt_body_skeleton_joint_fb :=
  {| skj_pose := pose0; skj_joint := 0; parent_joint := 0 |}.

Record xrt_body_skeleton := { skeleton_joints : list xrt_body_skeleton_joint_fb }.

Record xrt_facial_expression_set := {
  fes_is_active : bool;
  fes_sample_time_ns : Z;
  expression_weights : list F32.float }.

(** [struct xrt_device]: the capability flags, the input names and the
    function pointers this file calls.  A device is referred to by value;
    [option xrt_device] is a pointer that may be NULL. *)
Record xrt_device := {
  hand_tracking_supported : bool;
  face_tracking_supported : bool;
  body_tracking_supported : bool;
  body_tracking_fidelity_supported : bool;
  inputs : list xrt_input_name;
  get_face_tracking : xrt_input_name -> xrt_result_t * xrt_facial_expression_set;
  get_body_skeleton : xrt_input_name -> xrt_result_t * xrt_body_skeleton;
  get_body_joints : xrt_input_name -> Z -> xrt_result_t * xrt_body_joint_set;
  (* the C code returns the device's integer result as the XrResult *)
  set_body_tracking_fidelity_meta : Z -> XrResult }.

(** ** System, instance and handles *)

Record xrt_system_compositor_info := {
  refresh_rate_count : Z;
  refresh_rates_hz : list F32.float }.

Record oxr_system := {
  view_config_type : XrViewConfigurationType;
  (* NULL on a headless system *)
  xsysc : option xrt_system_compositor_info;
  role_hand_tracking_left : option xrt_device;
  role_hand_tracking_right : option xrt_device;
  role_face : option xrt_device;
  role_body : option xrt_device }.

Inductive xdev_role := hand_tracking_left | hand_tracking_right | face | body.

(** Modelled from the spec: the macro [GET_XDEV_BY_ROLE] of oxr_objects.h
    (not under src/), "resolve the device bound to the corresponding role
    from the system's role table". *)
Definition GET_XDEV_BY_ROLE (sys : oxr_system) (r : xdev_role) : option xrt_device :=
  match r with
  | hand_tracking_left => role_hand_tracking_left sys
  | hand_tracking_right => role_hand_tracking_right sys
  | face => role_face sys
  | body => role_body sys
  end.

(** The instance owns its one system ([sess->sys->inst] is always this
    instance) and the session list, linked through [sess->next] in C and
    kept here as the list of session addresses in link order. *)
Record oxr_instance := {
  extensions : oxr_extension -> bool;
  sessions : list Z;
  system : oxr_system }.

Inductive oxr_handle_state :=
| OXR_HANDLE_STATE_UNINITIALIZED
| OXR_HANDLE_STATE_LIVE
| OXR_HANDLE_STATE_DESTROYED.

Record oxr_handle_base := {
  hb_state : oxr_handle_state;
  hb_parent : Z;
  hb_children : list Z }.

Record oxr_session := {
  sess_handle : oxr_handle_base;
  sess_state : XrSessionState;
  has_begun : bool }.

Record oxr_hand_tracker := {
  ht_handle : oxr_handle_base;
  ht_sess : Z;
  ht_xdev : option xrt_device;
  ht_input_name : xrt_input_name;
  ht_hand : XrHandEXT;
  ht_hand_joint_set : XrHandJointSetEXT }.

Record oxr_facial_tracker_htc := {
  ft_handle : oxr_handle_base;
  ft_sess : Z;
  ft_xdev : option xrt_device;
  facial_tracking_type : xrt_facial_tracking_type_htc }.

Record oxr_body_tracker_fb := {
  bt_handle : oxr_handle_base;
  bt_sess : Z;
  bt_xdev : option xrt_device;
  joint_set_type : xrt_body_joint_set_type_fb }.

(** What an address holds; the constructor plays the role of the debug
    tag ([OXR_XR_DEBUG_SESSION], [OXR_XR_DEBUG_HTRACKER], ...) stored in the
    handle base. *)
Inductive oxr_object :=
| ObjSession (s : oxr_session)
| ObjHandTracker (t : oxr_hand_tracker)
| ObjFaceTracker (t : oxr_facial_tracker_htc)
| ObjBodyTracker (t : oxr_body_tracker_fb)
| ObjSpace (h : oxr_handle_base).

Definition handle_of (o : oxr_object) : oxr_handle_base :=
  match o with
  | ObjSession s => sess_handle s
  | ObjHandTracker t => ht_handle t
  | ObjFaceTracker t => ft_handle t
  | ObjBodyTracker t => bt_handle t
  | ObjSpace h => h
  end.

Definition is_live (h : oxr_handle_base) : bool :=
  match hb_state h with OXR_HANDLE_STATE_LIVE => true | _ => false end.

(** The runtime state: the instance, the objects behind the handles, and
    the addresses [calloc] will hand out next (empty: out of memory). *)
Record oxr_state := {
  inst : oxr_instance;
  heap : gmap Z oxr_object;
  free_list : list Z }.

Definition set_heap (st : oxr_state) (h : gmap Z oxr_object) : oxr_state :=
  {| inst := inst st; heap := h; free_list := free_list st |}.

Definition set_sessions (st : oxr_state) (l : list Z) : oxr_state :=
  {| inst := {| extensions := extensions (inst st); sessions := l;
                system := system (inst st) |};
     heap := heap st; free_list := free_list st |}.

Definition with_children (h : oxr_handle_base) (c : list Z) : oxr_handle_base :=
  {| hb_state := hb_state h; hb_parent := hb_parent h; hb_children := c |}.

Definition with_handle (o : oxr_object) (h : oxr_handle_base) : oxr_object :=
  match o with
  | ObjSession s =>
      ObjSession {| sess_handle := h; sess_state := sess_state s; has_begun := has_begun s |}
  | ObjHandTracker t =>
      ObjHandTracker {| ht_handle := h; ht_sess := ht_sess t; ht_xdev := ht_xdev t;
                        ht_input_name := ht_input_name t; ht_hand := ht_hand t;
                        ht_hand_joint_set := ht_hand_joint_set t |}
  | ObjFaceTracker t =>
      ObjFaceTracker {| ft_handle := h; ft_sess := ft_sess t; ft_xdev := ft_xdev t;
                        facial_tracking_type := facial_tracking_type t |}
  | ObjBodyTracker t =>
      ObjBodyTracker {| bt_handle := h; bt_sess := bt_sess t; bt_xdev := bt_xdev t;
                        joint_set_type := joint_set_type t |}
  | ObjSpace _ => ObjSpace h
  end.

(** ** Structures of the application *)

Record XrSessionBeginInfo := {
  sbi_type : XrStructureType;
  primaryViewConfigurationType : XrViewConfigurationType }.

Record XrFrameWaitInfo := { fwi_type : XrStructureType }.

Record XrFrameState := {
  fs_type : XrStructureType;
  predictedDisplayTime : Z;
  predictedDisplayPeriod : Z;
  shouldRender : bool }.

Record XrFrameBeginInfo := { fbi_type : XrStructureType }.

Record XrFrameEndInfo := {
  fei_type : XrStructureType;
  fei_displayTime : Z;
  layerCount : Z }.

Record XrViewLocateInfo := {
  vli_type : XrStructureType;
  vli_viewConfigurationType : XrViewConfigurationType;
  vli_displayTime : Z;
  vli_space : Z }.

Record XrViewState := { vs_type : XrStructureType; viewStateFlags : Z }.

Record XrView := { view_type : XrStructureType; view_pose : XrPosef }.

Record XrVisibilityMaskKHR := {
  vm_type : XrStructureType;
  vertexCapacityInput : Z;
  vertexCountOutput : Z;
  vertices : option (list (F32.float * F32.float));
  indexCapacityInput : Z;
  indexCountOutput : Z;
  indices : option (list Z) }.

Record XrHandTrackerCreateInfoEXT := {
  htci_type : XrStructureType;
  hand : XrHandEXT;
  handJointSet : XrHandJointSetEXT }.

Record XrHandJointsLocateInfoEXT := {
  hjli_type : XrStructureType;
  hjli_baseSpace : Z;
  hjli_time : Z }.

Record XrHandJointLocationEXT := {
  hj_locationFlags : Z;
  hj_pose : XrPosef;
  hj_radius : F32.float }.

Record XrHandJointVelocitiesEXT := {
  hjv_type : XrStructureType;
  hjv_jointCount : Z }.

(** [hjl_velocities] is the structure of type
    [XR_TYPE_HAND_JOINT_VELOCITIES_EXT] on the [next] chain, if there is
    one: what [OXR_GET_OUTPUT_FROM_CHAIN] finds. *)
Record XrHandJointLocationsEXT := {
  hjl_type : XrStructureType;
  hjl_velocities : option XrHandJointVelocitiesEXT;
  hjl_isActive : bool;
  hjl_jointCount : Z;
  hjl_jointLocations : option (list XrHandJointLocationEXT) }.

Record XrForceFeedbackCurlApplyLocationsMNDX := {
  ffc_type : XrStructureType;
  ffc_locationCount : Z }.

Record XrFacialTrackerCreateInfoHTC := {
  ftci_type : XrStructureType;
  facialTrackingType : XrFacialTrackingTypeHTC }.

Record XrFacialExpressionsHTC := {
  fe_type : XrStructureType;
  fe_isActive : bool;
  fe_sampleTime : Z;
  expressionCount : Z;
  expressionWeightings : option (list F32.float) }.

Record XrBodyTrackerCreateInfoFB := {
  btci_type : XrStructureType;
  bodyJointSet : XrBodyJointSetFB }.

Record XrBodySkeletonJointFB := {
  joint : Z;
  parentJoint : Z;
  sj_pose : XrPosef }.

Record XrBodySkeletonFB := {
  bsk_type : XrStructureType;
  bsk_jointCount : Z;
  bsk_joints : option (list XrBodySkeletonJointFB) }.

Record XrBodyJointsLocateInfoFB := {
  bjli_type : XrStructureType;
  bjli_baseSpace : Z;
  bjli_time : Z }.

Record XrBodyJointLocationFB := {
  locationFlags : Z;
  bj_pose : XrPosef }.

Record XrBodyTrackingFidelityStatusMETA := {
  bfs_type : XrStructureType;
  fidelity : Z }.

(** [bjl_fidelity] is the structure of type
    [XR_TYPE_BODY_TRACKING_FIDELITY_STATUS_META] on the [next] chain, if any. *)
Record XrBodyJointLocationsFB := {
  bjl_type : XrStructureType;
  bjl_fidelity : option XrBodyTrackingFidelityStatusMETA;
  bjl_isActive : bool;
  confidence : F32.float;
  bjl_jointCount : Z;
  skeletonChangedCount : Z;
  bjl_time : Z;
  bjl_jointLocations : option (list XrBodyJointLocationFB) }.

(** ** The monad of an entrypoint

    A computation runs on the runtime state and on the caller's output
    structures [Out].  It either goes on with a value ([Next]), leaves the
    function through a failed check, that is through one of the
    [XR_ERROR_*] constants this file names, by [return oxr_error(...)], a
    verify macro or a plain [return] ([Error]), or has no defined
    behaviour.  The value of an entrypoint's [Next] is the code it returns
    otherwise: [XR_SUCCESS] or whatever the function it ends in returned. *)

Inductive res (Out A : Type) :=
| Next (a : A) (st : oxr_state) (out : Out)
| Error (r : XrResult) (st : oxr_state) (out : Out)
| Undefined.
Arguments Next {Out A} a st out.
Arguments Error {Out A} r st out.
Arguments Undefined {Out A}.

Definition M (Out A : Type) : Type := oxr_state -> Out -> res Out A.

Definition ret {Out A} (a : A) : M Out A := fun st o => Next a st o.

Definition bind {Out A B} (m : M Out A) (k : A -> M Out B) : M Out B :=
  fun st o =>
    match m st o with
    | Next a st' o' => k a st' o'
    | Error r st' o' => Error r st' o'
    | Undefined => Undefined
    end.

Notation "'do' x <- m ; k" := (bind m (fun x => k))
  (at level 10, x name, m at level 100, k at level 200).

Definition oxr_error {Out A} (r : XrResult) : M Out A := fun st o => Error r st o.
Definition undefined {Out A} : M Out A := fun _ _ => Undefined.
Definition get_state {Out} : M Out oxr_state := fun st o => Next st st o.
Definition put_state {Out} (st : oxr_state) : M Out unit := fun _ o => Next tt st o.
Definition get_out {Out} : M Out Out := fun st o => Next o st o.
Definition put_out {Out} (o : Out) : M Out unit := fun st _ => Next tt st o.

(** [if (!ok) return oxr_error(log, r, ...)]. *)
Definition check {Out} (ok : bool) (r : XrResult) : M Out unit :=
  if ok then ret tt else oxr_error r.

(** Reading through a pointer: undefined when it is NULL or dangling. *)
Definition deref {Out A} (p : option A) : M Out A :=
  match p with Some a => ret a | None => undefined end.

(** [for (i = 0; i < n; i++) body(i)], counting from [i]. *)
Fixpoint for_each {Out} (i : nat) (n : nat) (body : nat -> M Out unit) : M Out unit :=
  match n with
  | O => ret tt
  | S n' => do _ <- body i; for_each (S i) n' body
  end.

(** [a[i] = f(a[i])]; [None] outside the array. *)
Definition update_at {A} (i : nat) (f : A -> A) (l : list A) : option (list A) :=
  match l !! i with
  | Some x => Some (<[i := f x]> l)
  | None => None
  end.

(** ** Objects behind handles *)

Section Objects.
Context {Out : Type}.

Definition deref_session (sess : Z) : M Out oxr_session :=
  do st <- get_state;
  match heap st !! sess with
  | Some (ObjSession s) => ret s
  | _ => undefined
  end.

Definition deref_hand_tracker (p : Z) : M Out oxr_hand_tracker :=
  do st <- get_state;
  match heap st !! p with
  | Some (ObjHandTracker t) => ret t
  | _ => undefined
  end.

Definition deref_facial_tracker (p : Z) : M Out oxr_facial_tracker_htc :=
  do st <- get_state;
  match heap st !! p with
  | Some (ObjFaceTracker t) => ret t
  | _ => undefined
  end.

Definition deref_body_tracker (p : Z) : M Out oxr_body_tracker_fb :=
  do st <- get_state;
  match heap st !! p with
  | Some (ObjBodyTracker t) => ret t
  | _ => undefined
  end.

Definition store (p : Z) (o : oxr_object) : M Out unit :=
  do st <- get_state; put_state (set_heap st (<[p := o]> (heap st))).

(** *** The handle registry *)

(** Modelled from the spec: [OXR_ALLOCATE_HANDLE_OR_RETURN] and the
    allocator behind it (oxr_handle.h, not under src/).  "Inserts into the
    parent's child set; fails with OutOfMemory-class error if allocation
    fails; never partially constructs (an allocation failure leaves the
    parent's child set unchanged)".  The new object is the zeroed [mk]
    around a live handle base; [calloc] hands out the head of
    [free_list], and fails when there is none or it is not a fresh
    non-NULL address. *)
Definition OXR_ALLOCATE_HANDLE_OR_RETURN
    (mk : oxr_handle_base -> oxr_object) (parent : Z) : M Out Z :=
  do st <- get_state;
  match free_list st with
  | [] => oxr_error XR_ERROR_OUT_OF_MEMORY
  | a :: rest =>
      match heap st !! a, heap st !! parent with
      | None, Some p =>
          if bool_decide (a = 0) then oxr_error XR_ERROR_OUT_OF_MEMORY else
          let hb := {| hb_state := OXR_HANDLE_STATE_LIVE; hb_parent := parent;
                       hb_children := [] |} in
          let p' := with_handle p (with_children (handle_of p)
                                     (hb_children (handle_of p) ++ [a])) in
          do _ <- put_state {| inst := inst st;
                               heap := <[a := mk hb]> (<[parent := p']> (heap st));
                               free_list := rest |};
          ret a
      | _, _ => oxr_error XR_ERROR_OUT_OF_MEMORY
      end
  end.

(** Modelled from the spec: the cascade of [oxr_handle_destroy], "children
    before parent".  The destroy callbacks of this file
    ([oxr_hand_tracker_destroy_cb], [oxr_facial_tracker_htc_destroy_cb],
    [oxr_body_tracker_fb_destroy_cb]) free the object and return
    [XR_SUCCESS]; freed memory is an address the heap no longer maps. *)
Fixpoint destroy_tree (depth : nat) (h : Z) (hp : gmap Z oxr_object)
    : gmap Z oxr_object :=
  match depth with
  | O => hp
  | S d =>
      match hp !! h with
      | None => hp
      | Some o =>
          delete h (fold_left (fun acc c => destroy_tree d c acc)
                              (hb_children (handle_of o)) hp)
      end
  end.

(** Modelled from the spec: [oxr_handle_destroy] (oxr_handle.c, not under
    src/).  "Invokes the type-specific destroy callback, then removes the
    handle from its parent's child set, then marks the handle dead";
    "destroying a parent must destroy all children first"; "destroying a
    session always succeeds". *)
Definition oxr_handle_destroy (h : Z) : M Out XrResult :=
  do st <- get_state;
  match heap st !! h with
  | None => undefined
  | Some o =>
      let hp := destroy_tree (S (size (heap st))) h (heap st) in
      let parent := hb_parent (handle_of o) in
      let hp' :=
        match hp !! parent with
        | Some p =>
            <[parent := with_handle p
                (with_children (handle_of p)
                   (filter (fun c => c <> h) (hb_children (handle_of p))))]> hp
        | None => hp
        end in
      do _ <- put_state (set_heap st hp');
      ret XR_SUCCESS
  end.

(** *** The verify macros

    Modelled from the spec: the macros of oxr_api_verify.h (not under
    src/), after the validation contract: "(a) the primary handle argument
    is non-null and of the expected type and currently alive, else
    HandleInvalid; (b) the session is not in the Lost state, else
    SessionLost; (c) each structured input argument has the expected
    discriminant tag and is non-null when required, or explicitly nullable
    per call, else ValidationFailure; (d) any extension-gated call requires
    that extension to be enabled on the instance, else
    FunctionUnsupported".  A handle macro yields the object pointer, which
    is the handle value. *)

(** Modelled from the spec: the test the handle macros share, rule (a).
    An address the heap does not map is a handle that was destroyed or
    never made ("all query paths must reject it as invalid"). *)
Definition verify_handle (p : Z) (tag_ok : oxr_object -> bool) : M Out Z :=
  do st <- get_state;
  if bool_decide (p = 0) then oxr_error XR_ERROR_HANDLE_INVALID else
  match heap st !! p with
  | Some o =>
      if tag_ok o && is_live (handle_of o) then ret p
      else oxr_error XR_ERROR_HANDLE_INVALID
  | None => oxr_error XR_ERROR_HANDLE_INVALID
  end.

(** Modelled from the spec: [OXR_VERIFY_SESSION_AND_INIT_LOG], rule (a)
    for a session handle. *)
Definition OXR_VERIFY_SESSION_AND_INIT_LOG (session : Z) : M Out Z :=
  verify_handle session (fun o => match o with ObjSession _ => true | _ => false end).

(** Modelled from the spec: [OXR_VERIFY_HAND_TRACKER_AND_INIT_LOG], rule
    (a) for a hand-tracker handle. *)
Definition OXR_VERIFY_HAND_TRACKER_AND_INIT_LOG (handTracker : Z) : M Out Z :=
  verify_handle handTracker
    (fun o => match o with ObjHandTracker _ => true | _ => false end).

(** Modelled from the spec: [OXR_VERIFY_FACE_TRACKER_HTC_AND_INIT_LOG],
    rule (a) for a facial-tracker handle. *)
Definition OXR_VERIFY_FACE_TRACKER_HTC_AND_INIT_LOG (thing : Z) : M Out Z :=
  verify_handle thing
    (fun o => match o with ObjFaceTracker _ => true | _ => false end).

(** Modelled from the spec: [OXR_VERIFY_BODY_TRACKER_FB_AND_INIT_LOG],
    rule (a) for a body-tracker handle. *)
Definition OXR_VERIFY_BODY_TRACKER_FB_AND_INIT_LOG (bodyTracker : Z) : M Out Z :=
  verify_handle bodyTracker
    (fun o => match o with ObjBodyTracker _ => true | _ => false end).

(** Modelled from the spec: [OXR_VERIFY_SPACE_NOT_NULL], rule (a) for a
    space handle ("validate any referenced base space"). *)
Definition OXR_VERIFY_SPACE_NOT_NULL (space : Z) : M Out Z :=
  verify_handle space (fun o => match o with ObjSpace _ => true | _ => false end).

(** Modelled from the spec: the session "is in the Lost state", the
    terminal state of its life cycle. *)
Definition is_lost (s : oxr_session) : bool :=
  match sess_state s with XR_SESSION_STATE_LOST => true | _ => false end.

(** Modelled from the spec: [OXR_VERIFY_SESSION_NOT_LOST], rule (b). *)
Definition OXR_VERIFY_SESSION_NOT_LOST (sess : Z) : M Out unit :=
  do s <- deref_session sess;
  check (negb (is_lost s)) XR_ERROR_SESSION_LOST.

(** Modelled from the spec: [OXR_VERIFY_SESSION_RUNNING], "require the
    session to be begun", else SessionNotRunning. *)
Definition OXR_VERIFY_SESSION_RUNNING (sess : Z) : M Out unit :=
  do s <- deref_session sess;
  check (has_begun s) XR_ERROR_SESSION_NOT_RUNNING.

(** Modelled from the spec: [OXR_VERIFY_ARG_NOT_NULL], rule (c) for a
    pointer that must not be NULL. *)
Definition OXR_VERIFY_ARG_NOT_NULL {A} (arg : option A) : M Out unit :=
  check (bool_decide (is_Some arg)) XR_ERROR_VALIDATION_FAILURE.

(** Modelled from the spec: [OXR_VERIFY_ARG_TYPE_AND_NOT_NULL], rule (c)
    for a structure that is required; it yields the structure. *)
Definition OXR_VERIFY_ARG_TYPE_AND_NOT_NULL {A}
    (arg : option A) (type_of : A -> XrStructureType) (type_enum : XrStructureType)
    : M Out A :=
  match arg with
  | None => oxr_error XR_ERROR_VALIDATION_FAILURE
  | Some a =>
      do _ <- check (bool_decide (type_of a = type_enum)) XR_ERROR_VALIDATION_FAILURE;
      ret a
  end.

(** Modelled from the spec: [OXR_VERIFY_ARG_TYPE_CAN_BE_NULL], rule (c)
    for a structure that is "explicitly nullable". *)
Definition OXR_VERIFY_ARG_TYPE_CAN_BE_NULL {A}
    (arg : option A) (type_of : A -> XrStructureType) (type_enum : XrStructureType)
    : M Out unit :=
  match arg with
  | None => ret tt
  | Some a => check (bool_decide (type_of a = type_enum)) XR_ERROR_VALIDATION_FAILURE
  end.

(** Modelled from the spec: [OXR_VERIFY_ARG_ARRAY_ELEMENT_TYPE], rule (c)
    for the element [index] of an array of structures. *)
Definition OXR_VERIFY_ARG_ARRAY_ELEMENT_TYPE {A}
    (array : option (list A)) (index : nat) (type_of : A -> XrStructureType)
    (type_enum : XrStructureType) : M Out unit :=
  do l <- deref array;
  do a <- deref (l !! index);
  check (bool_decide (type_of a = type_enum)) XR_ERROR_VALIDATION_FAILURE.

(** Modelled from the spec: [OXR_VERIFY_EXTENSION], rule (d). *)
Definition OXR_VERIFY_EXTENSION (ext : oxr_extension) : M Out unit :=
  do st <- get_state;
  check (extensions (inst st) ext) XR_ERROR_FUNCTION_UNSUPPORTED.

(** Modelled from the spec: the conversions [oxr_hand_tracker_to_openxr],
    [oxr_facial_tracker_htc_to_openxr] and [oxr_body_tracker_fb_to_openxr]
    (oxr_objects.h, not under src/); a handle is "an opaque reference to a
    runtime-owned stateful object", here the object's address itself. *)
Definition to_openxr (p : Z) : Z := p.
End Objects.

(** ** What this file takes from the rest of the runtime

    The functions below are called by the entrypoints and defined in files
    that are not under src/ (oxr_session.c, oxr_system.c, oxr_verify.c,
    the math and time-keeping helpers).  They are parameters of the
    development: an entrypoint is verified for every behaviour they can
    have.  A function that writes through a pointer takes the old content
    and returns the new one. *)

Class oxr_backend := {
  oxr_verify_view_config_type : oxr_instance -> XrViewConfigurationType -> XrResult;
  (* the test of OXR_VERIFY_VIEW_INDEX *)
  view_index_valid : Z -> bool;
  oxr_session_end : Z -> oxr_state -> XrResult * oxr_state;
  oxr_session_frame_wait :
    Z -> oxr_state -> XrFrameState -> XrResult * oxr_state * XrFrameState;
  oxr_session_frame_begin : Z -> oxr_state -> XrResult * oxr_state;
  oxr_session_frame_end : Z -> XrFrameEndInfo -> oxr_state -> XrResult * oxr_state;
  oxr_session_request_exit : Z -> oxr_state -> XrResult * oxr_state;
  oxr_session_locate_views :
    Z -> XrViewLocateInfo -> Z -> oxr_state ->
    option XrViewState * option Z * option (list XrView) ->
    XrResult * oxr_state * (option XrViewState * option Z * option (list XrView));
  oxr_session_get_visibility_mask :
    Z -> XrVisibilityMaskTypeKHR -> Z -> oxr_state -> XrVisibilityMaskKHR ->
    XrResult * oxr_state * XrVisibilityMaskKHR;
  oxr_session_set_perf_level :
    Z -> XrPerfSettingsDomainEXT -> XrPerfSettingsLevelEXT -> oxr_state ->
    XrResult * oxr_state;
  oxr_session_hand_joints :
    Z -> XrHandJointsLocateInfoEXT -> oxr_state -> XrHandJointLocationsEXT ->
    XrResult * oxr_state * XrHandJointLocationsEXT;
  oxr_session_apply_force_feedback :
    Z -> XrForceFeedbackCurlApplyLocationsMNDX -> oxr_state -> XrResult * oxr_state;
  oxr_session_get_display_refresh_rate :
    Z -> oxr_state -> option F32.float -> XrResult * oxr_state * option F32.float;
  oxr_session_request_display_refresh_rate :
    Z -> F32.float -> oxr_state -> XrResult * oxr_state;
  oxr_session_android_thread_settings :
    Z -> XrAndroidThreadTypeKHR -> Z -> oxr_state -> XrResult * oxr_state;
  oxr_system_get_hand_tracking_support : oxr_instance -> bool;
  (* (supports_eye, supports_lip) *)
  oxr_system_get_face_tracking_htc_support : oxr_instance -> bool * bool;
  oxr_system_get_body_tracking_fb_support : oxr_instance -> bool;
  oxr_system_get_full_body_tracking_meta_support : oxr_instance -> bool;
  oxr_get_base_body_pose :
    oxr_state -> xrt_body_joint_set -> Z -> xrt_device -> Z ->
    XrResult * xrt_space_relation;
  m_relation_chain_resolve : list xrt_space_relation -> xrt_space_relation;
  xrt_to_xr_space_location_flags : Z -> Z;
  time_state_monotonic_to_ts_ns : Z -> Z;
  time_state_ts_to_monotonic_ns : Z -> Z }.

(** The array sizes of xrt_defines.h and openxr.h (not under src/). *)
Class oxr_limits := {
  XR_HAND_JOINT_COUNT_EXT : Z;
  XRT_BODY_JOINT_COUNT_FB : Z;
  XRT_FULL_BODY_JOINT_COUNT_META : Z;
  XRT_FACIAL_EXPRESSION_EYE_COUNT_HTC : Z;
  XRT_FACIAL_EXPRESSION_LIP_COUNT_HTC : Z }.

Definition call {Out} (f : oxr_state -> XrResult * oxr_state) : M Out XrResult :=
  fun st o => let '(r, st') := f st in Next r st' o.

Definition call_out {Out} (f : oxr_state -> Out -> XrResult * oxr_state * Out)
    : M Out XrResult :=
  fun st o => let '(r, st', o') := f st o in Next r st' o'.

(** A call that writes through the non-NULL pointer whose target is [x]. *)
Definition call_on {X} (x : X) (f : oxr_state -> X -> XrResult * oxr_state * X)
    : M (option X) XrResult :=
  fun st _ => let '(r, st', x') := f st x in Next r st' (Some x').

Definition is_success (r : XrResult) : bool := bool_decide (r = XR_SUCCESS).

(** ** The entrypoints *)

Section Entrypoints.
Context `{B : oxr_backend} `{L : oxr_limits}.

(** Modelled from the spec: [OXR_VERIFY_VIEW_CONFIG_TYPE] (oxr_api_verify.h,
    not under src/) returns what [oxr_verify_view_config_type] answers when
    that is not a success, a "call-specific range check" of rule (e). *)
Definition OXR_VERIFY_VIEW_CONFIG_TYPE {Out} (view_conf : XrViewConfigurationType)
    : M Out unit :=
  do st <- get_state;
  let r := oxr_verify_view_config_type (inst st) view_conf in
  if is_success r then ret tt else oxr_error r.

(** Modelled from the spec: [OXR_VERIFY_VIEW_INDEX] (oxr_api_verify.h, not
    under src/), a "call-specific range check" of rule (e) on the view
    index, failing as an argument check does. *)
Definition OXR_VERIFY_VIEW_INDEX {Out} (index : Z) : M Out unit :=
  check (view_index_valid index) XR_ERROR_VALIDATION_FAILURE.

(** *** Session life cycle *)

(** The walk along the session list: follow the [next] links until the
    link that points at [sess], then let it point at [sess->next].
    Walking off the end dereferences NULL. *)
Fixpoint unlink (sess : Z) (l : list Z) : option (list Z) :=
  match l with
  | [] => None
  | x :: rest =>
      if bool_decide (x = sess) then Some rest
      else match unlink sess rest with
           | Some rest' => Some (x :: rest')
           | None => None
           end
  end.

Definition oxr_xrDestroySession (session : Z) : M unit XrResult :=
  do sess <- OXR_VERIFY_SESSION_AND_INIT_LOG session;
  (* Remove from session list *)
  do st <- get_state;
  do l <- deref (unlink sess (sessions (inst st)));
  do _ <- put_state (set_sessions st l);
  oxr_handle_destroy sess.

Definition set_has_begun (s : oxr_session) (b : bool) : oxr_session :=
  {| sess_handle := sess_handle s; sess_state := sess_state s; has_begun := b |}.

(** Modelled from the spec: [oxr_session_begin] (oxr_session.c, not under
    src/).  "Requires the requested primary view-configuration type to
    match one supported by the system; on success sets has_begun = true
    and advances the runtime toward Synchronized" (the life-cycle state
    itself moves with later events). *)
Definition oxr_session_begin {Out} (sess : Z) (beginInfo : XrSessionBeginInfo)
    : M Out XrResult :=
  do st <- get_state;
  do s <- deref_session sess;
  if bool_decide (primaryViewConfigurationType beginInfo
                  = view_config_type (system (inst st)))
  then do _ <- store sess (ObjSession (set_has_begun s true)); ret XR_SUCCESS
  else ret XR_ERROR_VIEW_CONFIGURATION_TYPE_UNSUPPORTED.

Definition oxr_xrBeginSession (session : Z) (beginInfo : option XrSessionBeginInfo)
    : M unit XrResult :=
  do sess <- OXR_VERIFY_SESSION_AND_INIT_LOG session;
  do _ <- OXR_VERIFY_SESSION_NOT_LOST sess;
  do bi <- OXR_VERIFY_ARG_TYPE_AND_NOT_NULL beginInfo sbi_type XR_TYPE_SESSION_BEGIN_INFO;
  do _ <- OXR_VERIFY_VIEW_CONFIG_TYPE (primaryViewConfigurationType bi);
  do s <- deref_session sess;
  if has_begun s then oxr_error XR_ERROR_SESSION_RUNNING
  else oxr_session_begin sess bi.

Definition oxr_xrEndSession (session : Z) : M unit XrResult :=
  do sess <- OXR_VERIFY_SESSION_AND_INIT_LOG session;
  do _ <- OXR_VERIFY_SESSION_NOT_LOST sess;
  do _ <- OXR_VERIFY_SESSION_RUNNING sess;
  call (oxr_session_end sess).

Definition oxr_xrWaitFrame (session : Z) (frameWaitInfo : option XrFrameWaitInfo)
    : M (option XrFrameState) XrResult :=
  do sess <- OXR_VERIFY_SESSION_AND_INIT_LOG session;
  do _ <- OXR_VERIFY_SESSION_NOT_LOST sess;
  do _ <- OXR_VERIFY_SESSION_RUNNING sess;
  do _ <- OXR_VERIFY_ARG_TYPE_CAN_BE_NULL frameWaitInfo fwi_type XR_TYPE_FRAME_WAIT_INFO;
  do frameState <- get_out;
  do fs <- OXR_VERIFY_ARG_TYPE_AND_NOT_NULL frameState fs_type XR_TYPE_FRAME_STATE;
  do _ <- OXR_VERIFY_ARG_NOT_NULL frameState;
  call_on fs (oxr_session_frame_wait sess).

Definition oxr_xrBeginFrame (session : Z) (frameBeginInfo : option XrFrameBeginInfo)
    : M unit XrResult :=
  do sess <- OXR_VERIFY_SESSION_AND_INIT_LOG session;
  do _ <- OXR_VERIFY_SESSION_NOT_LOST sess;
  do _ <- OXR_VERIFY_SESSION_RUNNING sess;
  (* NULL explicitly allowed here because it's a basically empty struct. *)
  do _ <- OXR_VERIFY_ARG_TYPE_CAN_BE_NULL frameBeginInfo fbi_type XR_TYPE_FRAME_BEGIN_INFO;
  do res <- call (oxr_session_frame_begin sess);
  ret res.

Definition oxr_xrEndFrame (session : Z) (frameEndInfo : option XrFrameEndInfo)
    : M unit XrResult :=
  do sess <- OXR_VERIFY_SESSION_AND_INIT_LOG session;
  do _ <- OXR_VERIFY_SESSION_NOT_LOST sess;
  do _ <- OXR_VERIFY_SESSION_RUNNING sess;
  do fei <- OXR_VERIFY_ARG_TYPE_AND_NOT_NULL frameEndInfo fei_type XR_TYPE_FRAME_END_INFO;
  do res <- call (oxr_session_frame_end sess fei);
  ret res.

Definition oxr_xrRequestExitSession (session : Z) : M unit XrResult :=
  do sess <- OXR_VERIFY_SESSION_AND_INIT_LOG session;
  do _ <- OXR_VERIFY_SESSION_NOT_LOST sess;
  do _ <- OXR_VERIFY_SESSION_RUNNING sess;
  call (oxr_session_request_exit sess).

(** The outputs of [xrLocateViews]: [viewState], [viewCountOutput], [views]. *)
Definition locate_views_out : Type :=
  option XrViewState * option Z * option (list XrView).

Definition oxr_xrLocateViews (session : Z) (viewLocateInfo : option XrViewLocateInfo)
    (viewCapacityInput : Z) : M locate_views_out XrResult :=
  do sess <- OXR_VERIFY_SESSION_AND_INIT_LOG session;
  do _ <- OXR_VERIFY_SESSION_NOT_LOST sess;
  do vli <- OXR_VERIFY_ARG_TYPE_AND_NOT_NULL viewLocateInfo vli_type XR_TYPE_VIEW_LOCATE_INFO;
  do spc <- OXR_VERIFY_SPACE_NOT_NULL (vli_space vli);
  do out <- get_out;
  let '(viewState, viewCountOutput, views) := out in
  do _ <- OXR_VERIFY_ARG_TYPE_AND_NOT_NULL viewState vs_type XR_TYPE_VIEW_STATE;
  do _ <- OXR_VERIFY_VIEW_CONFIG_TYPE (vli_viewConfigurationType vli);
  do _ <- (if viewCapacityInput =? 0
           then OXR_VERIFY_ARG_NOT_NULL viewCountOutput
           else OXR_VERIFY_ARG_NOT_NULL views);
  do _ <- for_each 0 (Z.to_nat viewCapacityInput)
            (fun i => OXR_VERIFY_ARG_ARRAY_ELEMENT_TYPE views i view_type XR_TYPE_VIEW);
  do _ <- check (negb (vli_displayTime vli <=? 0)) XR_ERROR_TIME_INVALID;
  do st <- get_state;
  do _ <- check (bool_decide (vli_viewConfigurationType vli
                              = view_config_type (system (inst st))))
            XR_ERROR_VIEW_CONFIGURATION_TYPE_UNSUPPORTED;
  call_out (oxr_session_locate_views sess vli viewCapacityInput).

(** *** XR_KHR_visibility_mask *)

Definition zero_counts (m : XrVisibilityMaskKHR) : XrVisibilityMaskKHR :=
  {| vm_type := vm_type m;
     vertexCapacityInput := vertexCapacityInput m;
     vertexCountOutput := 0;
     vertices := vertices m;
     indexCapacityInput := indexCapacityInput m;
     indexCountOutput := 0;
     indices := indices m |}.

Definition oxr_xrGetVisibilityMaskKHR (session : Z)
    (viewConfigurationType : XrViewConfigurationType) (viewIndex : Z)
    (visibilityMaskType : XrVisibilityMaskTypeKHR)
    : M (option XrVisibilityMaskKHR) XrResult :=
  do sess <- OXR_VERIFY_SESSION_AND_INIT_LOG session;
  do _ <- OXR_VERIFY_SESSION_NOT_LOST sess;
  do _ <- OXR_VERIFY_EXTENSION KHR_visibility_mask;
  (* visibilityMask->vertexCountOutput = 0; visibilityMask->indexCountOutput = 0; *)
  do visibilityMask <- get_out;
  do m <- deref visibilityMask;
  do _ <- put_out (Some (zero_counts m));
  do _ <- OXR_VERIFY_VIEW_CONFIG_TYPE viewConfigurationType;
  do st <- get_state;
  do _ <- check (bool_decide (viewConfigurationType = view_config_type (system (inst st))))
            XR_ERROR_VIEW_CONFIGURATION_TYPE_UNSUPPORTED;
  do _ <- OXR_VERIFY_VIEW_INDEX viewIndex;
  do _ <- check (match visibilityMaskType with
                 | XR_VISIBILITY_MASK_TYPE_OTHER _ => false
                 | _ => true
                 end) XR_ERROR_VALIDATION_FAILURE;
  do visibilityMask <- get_out;
  do m <- OXR_VERIFY_ARG_TYPE_AND_NOT_NULL visibilityMask vm_type XR_TYPE_VISIBILITY_MASK_KHR;
  do _ <- (if negb (vertexCapacityInput m =? 0)
           then OXR_VERIFY_ARG_NOT_NULL (vertices m) else ret tt);
  do _ <- (if negb (indexCapacityInput m =? 0)
           then OXR_VERIFY_ARG_NOT_NULL (indices m) else ret tt);
  call_on m (oxr_session_get_visibility_mask sess visibilityMaskType viewIndex).

(** *** XR_EXT_performance_settings and XR_EXT_thermal_query *)

Definition oxr_xrPerfSettingsSetPerformanceLevelEXT (session : Z)
    (domain : XrPerfSettingsDomainEXT) (level : XrPerfSettingsLevelEXT)
    : M unit XrResult :=
  do sess <- OXR_VERIFY_SESSION_AND_INIT_LOG session;
  do _ <- OXR_VERIFY_SESSION_NOT_LOST sess;
  do _ <- OXR_VERIFY_EXTENSION EXT_performance_settings;
  (* check parameters *)
  do _ <- check (match domain with
                 | XR_PERF_SETTINGS_DOMAIN_OTHER _ => false
                 | _ => true
                 end) XR_ERROR_VALIDATION_FAILURE;
  do _ <- check (match level with
                 | XR_PERF_SETTINGS_LEVEL_OTHER _ => false
                 | _ => true
                 end) XR_ERROR_VALIDATION_FAILURE;
  call (oxr_session_set_perf_level sess domain level).

(** The three output pointers of this call are never written. *)
Definition oxr_xrThermalGetTemperatureTrendEXT (session : Z)
    (domain : XrPerfSettingsDomainEXT) : M unit XrResult :=
  do sess <- OXR_VERIFY_SESSION_AND_INIT_LOG session;
  do _ <- OXR_VERIFY_SESSION_NOT_LOST sess;
  oxr_error XR_ERROR_HANDLE_INVALID.

(** *** XR_EXT_hand_tracking *)

(** The object [calloc] returns: all fields zero. *)
Definition hand_tracker0 (hb : oxr_handle_base) : oxr_object :=
  ObjHandTracker {| ht_handle := hb; ht_sess := 0; ht_xdev := None;
                    ht_input_name := XRT_INPUT_OTHER 0; ht_hand := XR_HAND_OTHER 0;
                    ht_hand_joint_set := XR_HAND_JOINT_SET_DEFAULT_EXT |}.

Definition hand_input_matches (hand : XrHandEXT) (name : xrt_input_name) : bool :=
  match name, hand with
  | XRT_INPUT_GENERIC_HAND_TRACKING_LEFT, XR_HAND_LEFT_EXT => true
  | XRT_INPUT_GENERIC_HAND_TRACKING_RIGHT, XR_HAND_RIGHT_EXT => true
  | _, _ => false
  end.

Definition oxr_hand_tracker_create {Out} (sess : Z)
    (createInfo : XrHandTrackerCreateInfoEXT) : M Out Z :=
  do st <- get_state;
  do _ <- check (oxr_system_get_hand_tracking_support (inst st))
            XR_ERROR_FEATURE_UNSUPPORTED;
  do hand_tracker <- OXR_ALLOCATE_HANDLE_OR_RETURN hand_tracker0 sess;
  do t <- deref_hand_tracker hand_tracker;
  (* Find the assigned device. *)
  let xdev :=
    match hand createInfo with
    | XR_HAND_LEFT_EXT => GET_XDEV_BY_ROLE (system (inst st)) hand_tracking_left
    | XR_HAND_RIGHT_EXT => GET_XDEV_BY_ROLE (system (inst st)) hand_tracking_right
    | XR_HAND_OTHER _ => None
    end in
  (* Find the correct input on the device. *)
  let found :=
    match xdev with
    | Some d =>
        if hand_tracking_supported d
        then match List.find (hand_input_matches (hand createInfo)) (inputs d) with
             | Some name => Some (d, name)
             | None => None
             end
        else None
    | None => None
    end in
  do _ <- store hand_tracker
            (ObjHandTracker
               {| ht_handle := ht_handle t;
                  ht_sess := sess;
                  ht_xdev := match found with Some (d, _) => Some d | None => ht_xdev t end;
                  ht_input_name :=
                    match found with Some (_, name) => name | None => ht_input_name t end;
                  ht_hand := hand createInfo;
                  ht_hand_joint_set := handJointSet createInfo |});
  ret hand_tracker.

Definition oxr_xrCreateHandTrackerEXT (session : Z)
    (createInfo : option XrHandTrackerCreateInfoEXT) : M (option Z) XrResult :=
  do sess <- OXR_VERIFY_SESSION_AND_INIT_LOG session;
  do _ <- OXR_VERIFY_SESSION_NOT_LOST sess;
  do ci <- OXR_VERIFY_ARG_TYPE_AND_NOT_NULL createInfo htci_type
             XR_TYPE_HAND_TRACKER_CREATE_INFO_EXT;
  do handTracker <- get_out;
  do _ <- OXR_VERIFY_ARG_NOT_NULL handTracker;
  do _ <- OXR_VERIFY_EXTENSION EXT_hand_tracking;
  do _ <- check (match hand ci with XR_HAND_OTHER _ => false | _ => true end)
            XR_ERROR_VALIDATION_FAILURE;
  do hand_tracker <- oxr_hand_tracker_create sess ci;
  do _ <- put_out (Some (to_openxr hand_tracker));
  ret XR_SUCCESS.

Definition oxr_xrDestroyHandTrackerEXT (handTracker : Z) : M unit XrResult :=
  do hand_tracker <- OXR_VERIFY_HAND_TRACKER_AND_INIT_LOG handTracker;
  oxr_handle_destroy hand_tracker.

Definition is_default_joint_set (s : XrHandJointSetEXT) : bool :=
  match s with XR_HAND_JOINT_SET_DEFAULT_EXT => true | _ => false end.

Definition oxr_xrLocateHandJointsEXT (handTracker : Z)
    (locateInfo : option XrHandJointsLocateInfoEXT)
    : M (option XrHandJointLocationsEXT) XrResult :=
  do hand_tracker <- OXR_VERIFY_HAND_TRACKER_AND_INIT_LOG handTracker;
  do t <- deref_hand_tracker hand_tracker;
  do _ <- OXR_VERIFY_SESSION_NOT_LOST (ht_sess t);
  do li <- OXR_VERIFY_ARG_TYPE_AND_NOT_NULL locateInfo hjli_type
             XR_TYPE_HAND_JOINTS_LOCATE_INFO_EXT;
  do locations <- get_out;
  do loc <- OXR_VERIFY_ARG_TYPE_AND_NOT_NULL locations hjl_type
              XR_TYPE_HAND_JOINT_LOCATIONS_EXT;
  do _ <- OXR_VERIFY_ARG_NOT_NULL (hjl_jointLocations loc);
  do spc <- OXR_VERIFY_SPACE_NOT_NULL (hjli_baseSpace li);
  do _ <- check (negb (hjli_time li <=? 0)) XR_ERROR_TIME_INVALID;
  do _ <- (if is_default_joint_set (ht_hand_joint_set t)
           then check (hjl_jointCount loc =? XR_HAND_JOINT_COUNT_EXT)
                  XR_ERROR_VALIDATION_FAILURE
           else ret tt);
  do _ <- match hjl_velocities loc with
          | Some vel =>
              do _ <- check (negb (hjv_jointCount vel <=? 0)) XR_ERROR_VALIDATION_FAILURE;
              if is_default_joint_set (ht_hand_joint_set t)
              then check (hjv_jointCount vel =? XR_HAND_JOINT_COUNT_EXT)
                     XR_ERROR_VALIDATION_FAILURE
              else ret tt
          | None => ret tt
          end;
  call_on loc (oxr_session_hand_joints hand_tracker li).

(** *** XR_MNDX_force_feedback_curl *)

Definition oxr_xrApplyForceFeedbackCurlMNDX (handTracker : Z)
    (locations : option XrForceFeedbackCurlApplyLocationsMNDX) : M unit XrResult :=
  do hand_tracker <- OXR_VERIFY_HAND_TRACKER_AND_INIT_LOG handTracker;
  do loc <- OXR_VERIFY_ARG_TYPE_AND_NOT_NULL locations ffc_type
              XR_TYPE_FORCE_FEEDBACK_CURL_APPLY_LOCATIONS_MNDX;
  call (oxr_session_apply_force_feedback hand_tracker loc).

(** *** XR_FB_display_refresh_rate *)

(** Modelled from the spec: [OXR_TWO_CALL_HELPER] (oxr_two_call.h, not
    under src/).  "A call with output-buffer capacity 0 returns only the
    total available count; a call with nonzero capacity writes up to that
    many elements and returns the count actually written; capacity less
    than available count is not an error, it is a partial read". *)
Definition OXR_TWO_CALL_HELPER {A} (cnt_input : Z) (count : Z) (data : list A)
    (sval : XrResult) : M (option Z * option (list A)) XrResult :=
  do out <- get_out;
  let '(cnt_output, output) := out in
  do _ <- deref cnt_output;
  if cnt_input =? 0 then
    do _ <- put_out (Some count, output);
    ret sval
  else
    let n := Z.to_nat (Z.min cnt_input count) in
    do buf <- deref output;
    if bool_decide (n <= length buf)%nat && bool_decide (n <= length data)%nat then
      do _ <- put_out (Some (Z.of_nat n), Some (take n data ++ drop n buf));
      ret sval
    else undefined.

(** The outputs: [displayRefreshRateCountOutput], [displayRefreshRates]. *)
Definition oxr_xrEnumerateDisplayRefreshRatesFB (session : Z)
    (displayRefreshRateCapacityInput : Z)
    : M (option Z * option (list F32.float)) XrResult :=
  do sess <- OXR_VERIFY_SESSION_AND_INIT_LOG session;
  do _ <- OXR_VERIFY_SESSION_NOT_LOST sess;
  do st <- get_state;
  match xsysc (system (inst st)) with
  | None =>
      (* headless *)
      do out <- get_out;
      do _ <- deref (fst out);
      do _ <- put_out (Some 0, snd out);
      ret XR_SUCCESS
  | Some info =>
      OXR_TWO_CALL_HELPER displayRefreshRateCapacityInput
        (refresh_rate_count info) (refresh_rates_hz info) XR_SUCCESS
  end.

Definition oxr_xrGetDisplayRefreshRateFB (session : Z)
    : M (option F32.float) XrResult :=
  do sess <- OXR_VERIFY_SESSION_AND_INIT_LOG session;
  do _ <- OXR_VERIFY_SESSION_NOT_LOST sess;
  do st <- get_state;
  match xsysc (system (inst st)) with
  | None =>
      (* headless *)
      do displayRefreshRate <- get_out;
      do _ <- deref displayRefreshRate;
      do _ <- put_out (Some F32.zero);
      ret XR_SUCCESS
  | Some info =>
      do _ <- check (negb (refresh_rate_count info <? 1)) XR_ERROR_RUNTIME_FAILURE;
      call_out (oxr_session_get_display_refresh_rate sess)
  end.

Definition hundred : F32.float := F32.of_Z 100.

(** The search loop of [xrRequestDisplayRefreshRateFB], [n] iterations
    from index [i]: [Some found], or [None] when an iteration has no
    defined behaviour. *)
Fixpoint find_refresh_rate (n : nat) (i : nat) (displayRefreshRate : F32.float)
    (refresh_rates_hz : list F32.float) : option bool :=
  match n with
  | O => Some false
  | S n' =>
      match refresh_rates_hz !! i with
      | None => None
      | Some r =>
          match F32.to_int (F32.mul displayRefreshRate hundred),
                F32.to_int (F32.mul r hundred) with
          | Some a, Some b =>
              if a =? b then Some true
              else find_refresh_rate n' (S i) displayRefreshRate refresh_rates_hz
          | _, _ => None
          end
      end
  end.

Definition oxr_xrRequestDisplayRefreshRateFB (session : Z)
    (displayRefreshRate : F32.float) : M unit XrResult :=
  do sess <- OXR_VERIFY_SESSION_AND_INIT_LOG session;
  do _ <- OXR_VERIFY_SESSION_NOT_LOST sess;
  if F32.is_zero displayRefreshRate then ret XR_SUCCESS else
  (* truncating to two decimal places and checking if it's in the
     supported refresh rates *)
  do st <- get_state;
  do info <- deref (xsysc (system (inst st)));
  do found <- deref (find_refresh_rate
                       (Z.to_nat (int_of_uint32 (refresh_rate_count info))) 0
                       displayRefreshRate (refresh_rates_hz info));
  if negb found then oxr_error XR_ERROR_DISPLAY_REFRESH_RATE_UNSUPPORTED_FB
  else call (oxr_session_request_display_refresh_rate sess displayRefreshRate).

(** *** XR_KHR_android_thread_settings *)

Definition oxr_xrSetAndroidApplicationThreadKHR (session : Z)
    (threadType : XrAndroidThreadTypeKHR) (threadId : Z) : M unit XrResult :=
  do sess <- OXR_VERIFY_SESSION_AND_INIT_LOG session;
  do _ <- OXR_VERIFY_SESSION_NOT_LOST sess;
  do _ <- check (match threadType with
                 | XR_ANDROID_THREAD_TYPE_OTHER _ => false
                 | _ => true
                 end) XR_ERROR_VALIDATION_FAILURE;
  do _ <- OXR_VERIFY_EXTENSION KHR_android_thread_settings;
  call (oxr_session_android_thread_settings sess threadType threadId).

(** *** XR_HTC_facial_tracking *)

Definition oxr_to_xrt_facial_tracking_type_htc (ft_type : XrFacialTrackingTypeHTC)
    : xrt_facial_tracking_type_htc :=
  match ft_type with
  | XR_FACIAL_TRACKING_TYPE_EYE_DEFAULT_HTC => XRT_FACIAL_TRACKING_TYPE_EYE_DEFAULT_HTC
  | XR_FACIAL_TRACKING_TYPE_LIP_DEFAULT_HTC => XRT_FACIAL_TRACKING_TYPE_LIP_DEFAULT_HTC
  | XR_FACIAL_TRACKING_TYPE_OTHER v => XRT_FACIAL_TRACKING_TYPE_OTHER v
  end.

Definition oxr_facial_tracking_type_htc_to_input_name
    (ft_type : xrt_facial_tracking_type_htc) : xrt_input_name :=
  match ft_type with
  | XRT_FACIAL_TRACKING_TYPE_LIP_DEFAULT_HTC => XRT_INPUT_HTC_LIP_FACE_TRACKING
  | _ => XRT_INPUT_HTC_EYE_FACE_TRACKING
  end.

Definition is_eye (t : xrt_facial_tracking_type_htc) : bool :=
  match t with XRT_FACIAL_TRACKING_TYPE_EYE_DEFAULT_HTC => true | _ => false end.

Definition is_lip (t : xrt_facial_tracking_type_htc) : bool :=
  match t with XRT_FACIAL_TRACKING_TYPE_LIP_DEFAULT_HTC => true | _ => false end.

Definition facial_tracker0 (hb : oxr_handle_base) : oxr_object :=
  ObjFaceTracker {| ft_handle := hb; ft_sess := 0; ft_xdev := None;
                    facial_tracking_type := XRT_FACIAL_TRACKING_TYPE_OTHER 0 |}.

Definition oxr_facial_tracker_htc_create {Out} (sess : Z)
    (createInfo : XrFacialTrackerCreateInfoHTC) : M Out Z :=
  do st <- get_state;
  let '(supports_eye, supports_lip) :=
    oxr_system_get_face_tracking_htc_support (inst st) in
  let ftt := oxr_to_xrt_facial_tracking_type_htc (facialTrackingType createInfo) in
  do _ <- check (negb (is_eye ftt && negb supports_eye)) XR_ERROR_FEATURE_UNSUPPORTED;
  do _ <- check (negb (is_lip ftt && negb supports_lip)) XR_ERROR_FEATURE_UNSUPPORTED;
  match GET_XDEV_BY_ROLE (system (inst st)) face with
  | None => oxr_error XR_ERROR_FEATURE_UNSUPPORTED
  | Some xdev =>
      do _ <- check (face_tracking_supported xdev) XR_ERROR_FEATURE_UNSUPPORTED;
      do face_tracker_htc <- OXR_ALLOCATE_HANDLE_OR_RETURN facial_tracker0 sess;
      do t <- deref_facial_tracker face_tracker_htc;
      do _ <- store face_tracker_htc
                (ObjFaceTracker {| ft_handle := ft_handle t; ft_sess := sess;
                                   ft_xdev := Some xdev;
                                   facial_tracking_type := ftt |});
      ret face_tracker_htc
  end.

Definition nonnull (p : Z) : option Z := if bool_decide (p = 0) then None else Some p.

Definition oxr_xrCreateFacialTrackerHTC (session : Z)
    (createInfo : option XrFacialTrackerCreateInfoHTC) : M (option Z) XrResult :=
  do sess <- OXR_VERIFY_SESSION_AND_INIT_LOG session;
  do _ <- OXR_VERIFY_SESSION_NOT_LOST sess;
  do ci <- OXR_VERIFY_ARG_TYPE_AND_NOT_NULL createInfo ftci_type
             XR_TYPE_FACIAL_TRACKER_CREATE_INFO_HTC;
  do _ <- OXR_VERIFY_EXTENSION HTC_facial_tracking;
  do facial_tracker_htc <- oxr_facial_tracker_htc_create sess ci;
  do _ <- OXR_VERIFY_ARG_NOT_NULL (nonnull facial_tracker_htc);
  do facialTracker <- get_out;
  do _ <- deref facialTracker;
  do _ <- put_out (Some (to_openxr facial_tracker_htc));
  ret XR_SUCCESS.

Definition oxr_xrDestroyFacialTrackerHTC (facialTracker : Z) : M unit XrResult :=
  do facial_tracker_htc <- OXR_VERIFY_FACE_TRACKER_HTC_AND_INIT_LOG facialTracker;
  oxr_handle_destroy facial_tracker_htc.

(** [memcpy(dst, src, n * sizeof(float))] from an array that was zeroed
    before the device filled it. *)
Definition memcpy_floats (dst src : list F32.float) (n : nat)
    : option (list F32.float) :=
  if bool_decide (n <= length dst)%nat
  then Some (take n (src ++ repeat float0 n) ++ drop n dst)
  else None.

Definition set_fe_isActive (b : bool) (e : XrFacialExpressionsHTC) :=
  {| fe_type := fe_type e; fe_isActive := b; fe_sampleTime := fe_sampleTime e;
     expressionCount := expressionCount e;
     expressionWeightings := expressionWeightings e |}.

Definition set_fe_sample (t : Z) (w : list F32.float) (e : XrFacialExpressionsHTC) :=
  {| fe_type := fe_type e; fe_isActive := fe_isActive e; fe_sampleTime := t;
     expressionCount := expressionCount e;
     expressionWeightings := Some w |}.

Definition set_fe_type (ty : XrStructureType) (e : XrFacialExpressionsHTC) :=
  {| fe_type := ty; fe_isActive := fe_isActive e; fe_sampleTime := fe_sampleTime e;
     expressionCount := expressionCount e;
     expressionWeightings := expressionWeightings e |}.

(** Modelled from the spec: every object of the registry is a handle "with
    a type tag", which the handle macros compare; it is the first member
    of the handle base, and its values are declared in oxr_objects.h (not
    under src/).  For a facial tracker it is [OXR_XR_DEBUG_FTRACKER], the
    eight bytes of the string oxrftra and its NUL.  A read of [->type] at
    the address of a facial tracker finds the first four of them,
    0x6672786f on a little-endian machine: the value of no structure
    type, so never [XR_TYPE_FACIAL_EXPRESSIONS_HTC]. *)
Definition OXR_XR_DEBUG_FTRACKER_type : XrStructureType := XR_TYPE_OTHER 1718777967.

(** The structure that is read at the address of a live facial tracker:
    its bytes are the tracker's.  The word read as [type] is the tag of
    the tracker; the members after it are bytes of the tracker that the
    model does not interpret, they stay as the output component has
    them. *)
Definition facial_expressions_at_tracker (target : XrFacialExpressionsHTC)
    : XrFacialExpressionsHTC :=
  set_fe_type OXR_XR_DEBUG_FTRACKER_type target.

(** The pointer [facialExpressions] is used twice: as the value handed to
    the handle check, and as the address of the structure that is read and
    written.  Both uses are of the same bytes: past the handle check the
    address is that of a live facial tracker, so the structure the later
    lines read is [facial_expressions_at_tracker]. *)
Definition oxr_xrGetFacialExpressionsHTC (facialTracker : Z) (facialExpressions : Z)
    : M XrFacialExpressionsHTC XrResult :=
  do facial_tracker_htc <- OXR_VERIFY_FACE_TRACKER_HTC_AND_INIT_LOG facialExpressions;
  do t <- deref_facial_tracker facial_tracker_htc;
  do _ <- OXR_VERIFY_SESSION_NOT_LOST (ft_sess t);
  do _ <- OXR_VERIFY_ARG_NOT_NULL (ft_xdev t);
  do target <- get_out;
  do fe <- OXR_VERIFY_ARG_TYPE_AND_NOT_NULL
             (if bool_decide (facialExpressions = 0) then None
              else Some (facial_expressions_at_tracker target))
             fe_type XR_TYPE_FACIAL_EXPRESSIONS_HTC;
  do _ <- OXR_VERIFY_ARG_NOT_NULL (expressionWeightings fe);
  do _ <- check (negb (is_eye (facial_tracking_type t) &&
                       (expressionCount fe <? XRT_FACIAL_EXPRESSION_EYE_COUNT_HTC)))
            XR_ERROR_SIZE_INSUFFICIENT;
  do _ <- check (negb (is_lip (facial_tracking_type t) &&
                       (expressionCount fe <? XRT_FACIAL_EXPRESSION_LIP_COUNT_HTC)))
            XR_ERROR_SIZE_INSUFFICIENT;
  let is_eye_tracking := is_eye (facial_tracking_type t) in
  let expression_count :=
    if is_eye_tracking then XRT_FACIAL_EXPRESSION_EYE_COUNT_HTC
    else XRT_FACIAL_EXPRESSION_LIP_COUNT_HTC in
  let ft_input_name := oxr_facial_tracking_type_htc_to_input_name (facial_tracking_type t) in
  do xdev <- deref (ft_xdev t);
  let facial_expression_set_result := snd (get_face_tracking xdev ft_input_name) in
  do _ <- put_out (set_fe_isActive (fes_is_active facial_expression_set_result) fe);
  if negb (fes_is_active facial_expression_set_result) then ret XR_SUCCESS else
  do fe <- get_out;
  do dst <- deref (expressionWeightings fe);
  do w <- deref (memcpy_floats dst (expression_weights facial_expression_set_result)
                   (Z.to_nat expression_count));
  do _ <- put_out (set_fe_sample
                     (time_state_monotonic_to_ts_ns
                        (fes_sample_time_ns facial_expression_set_result)) w fe);
  ret XR_SUCCESS.

(** *** XR_FB_body_tracking *)

Definition oxr_to_xrt_body_joint_set_type_fb (joint_set_type : XrBodyJointSetFB)
    : xrt_body_joint_set_type_fb :=
  match joint_set_type with
  | XR_BODY_JOINT_SET_FULL_BODY_META => XRT_BODY_JOINT_SET_FULL_BODY_META
  | XR_BODY_JOINT_SET_DEFAULT_FB => XRT_BODY_JOINT_SET_DEFAULT_FB
  | XR_BODY_JOINT_SET_OTHER _ => XRT_BODY_JOINT_SET_UNKNOWN
  end.

Definition is_full_body (t : xrt_body_joint_set_type_fb) : bool :=
  match t with XRT_BODY_JOINT_SET_FULL_BODY_META => true | _ => false end.

Definition body_tracker0 (hb : oxr_handle_base) : oxr_object :=
  ObjBodyTracker {| bt_handle := hb; bt_sess := 0; bt_xdev := None;
                    joint_set_type := XRT_BODY_JOINT_SET_UNKNOWN |}.

Definition supports_body (xdev : option xrt_device) : bool :=
  match xdev with Some d => body_tracking_supported d | None => false end.

Definition oxr_xrCreateBodyTrackerFB (session : Z)
    (createInfo : option XrBodyTrackerCreateInfoFB) : M (option Z) XrResult :=
  do sess <- OXR_VERIFY_SESSION_AND_INIT_LOG session;
  do _ <- OXR_VERIFY_SESSION_NOT_LOST sess;
  do ci <- OXR_VERIFY_ARG_TYPE_AND_NOT_NULL createInfo btci_type
             XR_TYPE_BODY_TRACKER_CREATE_INFO_FB;
  do _ <- OXR_VERIFY_EXTENSION FB_body_tracking;
  do _ <- match bodyJointSet ci with
          | XR_BODY_JOINT_SET_FULL_BODY_META =>
              OXR_VERIFY_EXTENSION META_body_tracking_full_body
          | _ => ret tt
          end;
  do st <- get_state;
  do _ <- check (oxr_system_get_body_tracking_fb_support (inst st))
            XR_ERROR_FEATURE_UNSUPPORTED;
  let jst := oxr_to_xrt_body_joint_set_type_fb (bodyJointSet ci) in
  do _ <- check (match jst with XRT_BODY_JOINT_SET_UNKNOWN => false | _ => true end)
            XR_ERROR_FEATURE_UNSUPPORTED;
  do _ <- (if is_full_body jst
           then check (oxr_system_get_full_body_tracking_meta_support (inst st))
                  XR_ERROR_FEATURE_UNSUPPORTED
           else ret tt);
  let xdev := GET_XDEV_BY_ROLE (system (inst st)) body in
  do _ <- check (supports_body xdev) XR_ERROR_FEATURE_UNSUPPORTED;
  do body_tracker_fb <- OXR_ALLOCATE_HANDLE_OR_RETURN body_tracker0 sess;
  do t <- deref_body_tracker body_tracker_fb;
  do _ <- store body_tracker_fb
            (ObjBodyTracker {| bt_handle := bt_handle t; bt_sess := sess;
                               bt_xdev := xdev; joint_set_type := jst |});
  do _ <- OXR_VERIFY_ARG_NOT_NULL (nonnull body_tracker_fb);
  do bodyTracker <- get_out;
  do _ <- deref bodyTracker;
  do _ <- put_out (Some (to_openxr body_tracker_fb));
  ret XR_SUCCESS.

Definition oxr_xrDestroyBodyTrackerFB (bodyTracker : Z) : M unit XrResult :=
  do body_tracker_fb <- OXR_VERIFY_BODY_TRACKER_FB_AND_INIT_LOG bodyTracker;
  oxr_handle_destroy body_tracker_fb.

(** [*p = f( *p )] on the output structure; [p] must not be NULL. *)
Definition modify_out {X} (f : X -> X) : M (option X) unit :=
  do o <- get_out;
  do x <- deref o;
  put_out (Some (f x)).

Definition body_joint_count_of (t : oxr_body_tracker_fb) : Z :=
  if is_full_body (joint_set_type t)
  then XRT_FULL_BODY_JOINT_COUNT_META else XRT_BODY_JOINT_COUNT_FB.

Definition body_input_name_of (t : oxr_body_tracker_fb) : xrt_input_name :=
  if is_full_body (joint_set_type t)
  then XRT_INPUT_META_FULL_BODY_TRACKING else XRT_INPUT_FB_BODY_TRACKING.

Definition set_bsk_joints (js : list XrBodySkeletonJointFB) (k : XrBodySkeletonFB) :=
  {| bsk_type := bsk_type k; bsk_jointCount := bsk_jointCount k; bsk_joints := Some js |}.

(** [skeleton->joints[i] = v]. *)
Definition write_skeleton_joint (i : nat) (v : XrBodySkeletonJointFB)
    : M (option XrBodySkeletonFB) unit :=
  do o <- get_out;
  do k <- deref o;
  do js <- deref (bsk_joints k);
  do js' <- deref (update_at i (fun _ => v) js);
  put_out (Some (set_bsk_joints js' k)).

Definition oxr_xrGetBodySkeletonFB (bodyTracker : Z)
    : M (option XrBodySkeletonFB) XrResult :=
  do body_tracker_fb <- OXR_VERIFY_BODY_TRACKER_FB_AND_INIT_LOG bodyTracker;
  do t <- deref_body_tracker body_tracker_fb;
  do _ <- OXR_VERIFY_SESSION_NOT_LOST (bt_sess t);
  do _ <- OXR_VERIFY_ARG_NOT_NULL (bt_xdev t);
  do skeleton <- get_out;
  do sk <- OXR_VERIFY_ARG_TYPE_AND_NOT_NULL skeleton bsk_type XR_TYPE_BODY_SKELETON_FB;
  do _ <- check (supports_body (bt_xdev t)) XR_ERROR_FUNCTION_UNSUPPORTED;
  let body_joint_count := body_joint_count_of t in
  do _ <- check (negb (bsk_jointCount sk <? body_joint_count)) XR_ERROR_VALIDATION_FAILURE;
  do xdev <- deref (bt_xdev t);
  let '(xret, body_skeleton_result) := get_body_skeleton xdev (body_input_name_of t) in
  do _ <- check (xrt_is_success xret) XR_ERROR_RUNTIME_FAILURE;
  do _ <- for_each 0 (Z.to_nat body_joint_count)
            (fun joint_index =>
               let src := nth joint_index (skeleton_joints body_skeleton_result)
                              skeleton_joint0 in
               write_skeleton_joint joint_index
                 {| joint := skj_joint src;
                    parentJoint := parent_joint src;
                    sj_pose := OXR_XRT_POSE_TO_XRPOSEF (skj_pose src) |});
  ret XR_SUCCESS.

Definition set_bjl_isActive (b : bool) (l : XrBodyJointLocationsFB) :=
  {| bjl_type := bjl_type l; bjl_fidelity := bjl_fidelity l; bjl_isActive := b;
     confidence := confidence l; bjl_jointCount := bjl_jointCount l;
     skeletonChangedCount := skeletonChangedCount l; bjl_time := bjl_time l;
     bjl_jointLocations := bjl_jointLocations l |}.

Definition set_bjl_sample (t : Z) (c : F32.float) (n : Z) (l : XrBodyJointLocationsFB) :=
  {| bjl_type := bjl_type l; bjl_fidelity := bjl_fidelity l;
     bjl_isActive := bjl_isActive l;
     confidence := c; bjl_jointCount := bjl_jointCount l;
     skeletonChangedCount := n; bjl_time := t;
     bjl_jointLocations := bjl_jointLocations l |}.

Definition set_bjl_jointLocations (js : list XrBodyJointLocationFB)
    (l : XrBodyJointLocationsFB) :=
  {| bjl_type := bjl_type l; bjl_fidelity := bjl_fidelity l;
     bjl_isActive := bjl_isActive l;
     confidence := confidence l; bjl_jointCount := bjl_jointCount l;
     skeletonChangedCount := skeletonChangedCount l; bjl_time := bjl_time l;
     bjl_jointLocations := Some js |}.

Definition set_bjl_fidelity (v : Z) (l : XrBodyJointLocationsFB) :=
  {| bjl_type := bjl_type l;
     bjl_fidelity :=
       match bjl_fidelity l with
       | Some s => Some {| bfs_type := bfs_type s; fidelity := v |}
       | None => None
       end;
     bjl_isActive := bjl_isActive l;
     confidence := confidence l; bjl_jointCount := bjl_jointCount l;
     skeletonChangedCount := skeletonChangedCount l; bjl_time := bjl_time l;
     bjl_jointLocations := bjl_jointLocations l |}.

(** [locations->jointLocations[i] = f(locations->jointLocations[i])]. *)
Definition update_body_joint (i : nat) (f : XrBodyJointLocationFB -> XrBodyJointLocationFB)
    : M (option XrBodyJointLocationsFB) unit :=
  do o <- get_out;
  do l <- deref o;
  do js <- deref (bjl_jointLocations l);
  do js' <- deref (update_at i f js);
  put_out (Some (set_bjl_jointLocations js' l)).

Definition set_locationFlags (v : Z) (j : XrBodyJointLocationFB) :=
  {| locationFlags := v; bj_pose := bj_pose j |}.

Definition oxr_xrLocateBodyJointsFB (bodyTracker : Z)
    (locateInfo : option XrBodyJointsLocateInfoFB)
    : M (option XrBodyJointLocationsFB) XrResult :=
  do body_tracker_fb <- OXR_VERIFY_BODY_TRACKER_FB_AND_INIT_LOG bodyTracker;
  do li <- OXR_VERIFY_ARG_TYPE_AND_NOT_NULL locateInfo bjli_type
             XR_TYPE_BODY_JOINTS_LOCATE_INFO_FB;
  do locations <- get_out;
  do loc <- OXR_VERIFY_ARG_TYPE_AND_NOT_NULL locations bjl_type
              XR_TYPE_BODY_JOINT_LOCATIONS_FB;
  do t <- deref_body_tracker body_tracker_fb;
  do _ <- OXR_VERIFY_SESSION_NOT_LOST (bt_sess t);
  do _ <- OXR_VERIFY_ARG_NOT_NULL (bt_xdev t);
  do _ <- OXR_VERIFY_ARG_NOT_NULL (bjl_jointLocations loc);
  do base_spc <- OXR_VERIFY_SPACE_NOT_NULL (bjli_baseSpace li);
  do _ <- check (supports_body (bt_xdev t)) XR_ERROR_FUNCTION_UNSUPPORTED;
  let body_joint_count := body_joint_count_of t in
  do _ <- check (negb (bjl_jointCount loc <? body_joint_count)) XR_ERROR_VALIDATION_FAILURE;
  do _ <- check (negb (bjli_time li <=? 0)) XR_ERROR_TIME_INVALID;
  let at_timestamp_ns := time_state_ts_to_monotonic_ns (bjli_time li) in
  do xdev <- deref (bt_xdev t);
  let '(xret, body_joint_set_result) :=
    get_body_joints xdev (body_input_name_of t) at_timestamp_ns in
  do _ <- check (xrt_is_success xret) XR_ERROR_RUNTIME_FAILURE;
  (* Get the body pose in the base space. *)
  do st <- get_state;
  let '(r, T_base_body) :=
    oxr_get_base_body_pose st body_joint_set_result base_spc xdev (bjli_time li) in
  if negb (is_success r) then
    do _ <- modify_out (set_bjl_isActive false);
    ret r
  else
  do _ <- modify_out (set_bjl_isActive (is_active body_joint_set_result));
  if negb (is_active body_joint_set_result) || (relation_flags T_base_body =? 0) then
    do _ <- modify_out (set_bjl_isActive false);
    do _ <- for_each 0 (Z.to_nat XRT_BODY_JOINT_COUNT_FB)
              (fun joint_index =>
                 update_body_joint joint_index
                   (set_locationFlags XRT_SPACE_RELATION_BITMASK_NONE));
    ret XR_SUCCESS
  else
  do _ <- modify_out
            (set_bjl_sample
               (time_state_monotonic_to_ts_ns (sample_time_ns body_joint_set_result))
               (bjs_confidence body_joint_set_result)
               (skeleton_changed_count body_joint_set_result));
  do _ <- for_each 0 (Z.to_nat body_joint_count)
            (fun joint_index =>
               let src_joint :=
                 nth joint_index (joint_locations body_joint_set_result)
                     {| relation := relation0 |} in
               let result :=
                 m_relation_chain_resolve [relation src_joint; T_base_body] in
               update_body_joint joint_index
                 (fun _ =>
                    {| locationFlags :=
                         xrt_to_xr_space_location_flags
                           (relation_flags (relation src_joint));
                       bj_pose := OXR_XRT_POSE_TO_XRPOSEF (pose result) |}));
  do _ <- match bjl_fidelity loc with
          | Some _ =>
              do _ <- OXR_VERIFY_EXTENSION META_body_tracking_fidelity;
              do _ <- check (body_tracking_fidelity_supported xdev)
                        XR_ERROR_FEATURE_UNSUPPORTED;
              modify_out (set_bjl_fidelity (fidelity_status body_joint_set_result))
          | None => ret tt
          end;
  ret XR_SUCCESS.

Definition oxr_xrRequestBodyTrackingFidelityMETA (bodyTracker : Z) (fidelity : Z)
    : M unit XrResult :=
  do body_tracker_fb <- OXR_VERIFY_BODY_TRACKER_FB_AND_INIT_LOG bodyTracker;
  do t <- deref_body_tracker body_tracker_fb;
  do _ <- OXR_VERIFY_SESSION_NOT_LOST (bt_sess t);
  do _ <- OXR_VERIFY_ARG_NOT_NULL (bt_xdev t);
  do _ <- OXR_VERIFY_EXTENSION META_body_tracking_fidelity;
  do xdev <- deref (bt_xdev t);
  do _ <- check (body_tracking_fidelity_supported xdev) XR_ERROR_FEATURE_UNSUPPORTED;
  ret (set_body_tracking_fidelity_meta xdev fidelity).
End Entrypoints.

(** ** Session creation

    [oxr_xrCreateSession] is the one entrypoint of the file that takes an
    instance.  The three functions it calls are defined in other files of
    the state tracker: the handle test of [OXR_VERIFY_INSTANCE_AND_INIT_LOG],
    [oxr_verify_XrSessionCreateInfo], and [oxr_session_create], which
    answers with a result code, the state it leaves and the address of the
    session it made.  The entrypoint is modelled for every behaviour they
    can have, and for every content of [XrSessionCreateInfo], which it only
    hands on. *)

Section CreateSession.
Context {XrSessionCreateInfo : Type}.
Context (instance_is_valid : Z -> oxr_state -> bool).
Context (oxr_verify_XrSessionCreateInfo :
           oxr_instance -> option XrSessionCreateInfo -> XrResult).
Context (oxr_session_create :
           option XrSessionCreateInfo -> oxr_state -> XrResult * oxr_state * Z).

(** The walk to the end of the session list, [while ( *link ) link =
    &( *link )->next; *link = sess]: the new session becomes the last. *)
Fixpoint link_last (sess : Z) (l : list Z) : list Z :=
  match l with
  | [] => [sess]
  | x :: rest => x :: link_last sess rest
  end.

(** [xrCreateSession]: the two checks, the creation, the write to
    [out_session], and the walk that links the session. *)
Definition oxr_xrCreateSession (instance : Z) (createInfo : option XrSessionCreateInfo)
    : M (option Z) XrResult :=
  do st <- get_state;
  do _ <- check (instance_is_valid instance st) XR_ERROR_HANDLE_INVALID;
  let ret0 := oxr_verify_XrSessionCreateInfo (inst st) createInfo in
  if negb (is_success ret0) then oxr_error ret0 else
  let '(ret1, st1, sess) := oxr_session_create createInfo st in
  do _ <- put_state st1;
  if negb (is_success ret1) then ret ret1 else
  do out_session <- get_out;
  do _ <- deref out_session;
  do _ <- put_out (Some (to_openxr sess));
  (* Add to session list *)
  do _ <- put_state (set_sessions st1 (link_last sess (sessions (inst st1))));
  ret XR_SUCCESS.

End CreateSession.

(** ** The entrypoints as one family

    An [entrypoint Out] is a call of one of the functions above together
    with its input arguments; [Out] is the type of the output structures the
    call may write. *)

Inductive entrypoint : Type -> Type :=
| xrDestroySession (session : Z) : entrypoint unit
| xrBeginSession (session : Z) (beginInfo : option XrSessionBeginInfo) : entrypoint unit
| xrEndSession (session : Z) : entrypoint unit
| xrWaitFrame (session : Z) (frameWaitInfo : option XrFrameWaitInfo)
    : entrypoint (option XrFrameState)
| xrBeginFrame (session : Z) (frameBeginInfo : option XrFrameBeginInfo) : entrypoint unit
| xrEndFrame (session : Z) (frameEndInfo : option XrFrameEndInfo) : entrypoint unit
| xrRequestExitSession (session : Z) : entrypoint unit
| xrLocateViews (session : Z) (viewLocateInfo : option XrViewLocateInfo)
    (viewCapacityInput : Z) : entrypoint locate_views_out
| xrGetVisibilityMaskKHR (session : Z) (viewConfigurationType : XrViewConfigurationType)
    (viewIndex : Z) (visibilityMaskType : XrVisibilityMaskTypeKHR)
    : entrypoint (option XrVisibilityMaskKHR)
| xrPerfSettingsSetPerformanceLevelEXT (session : Z) (domain : XrPerfSettingsDomainEXT)
    (level : XrPerfSettingsLevelEXT) : entrypoint unit
| xrThermalGetTemperatureTrendEXT (session : Z) (domain : XrPerfSettingsDomainEXT)
    : entrypoint unit
| xrCreateHandTrackerEXT (session : Z) (createInfo : option XrHandTrackerCreateInfoEXT)
    : entrypoint (option Z)
| xrDestroyHandTrackerEXT (handTracker : Z) : entrypoint unit
| xrLocateHandJointsEXT (handTracker : Z) (locateInfo : option XrHandJointsLocateInfoEXT)
    : entrypoint (option XrHandJointLocationsEXT)
| xrApplyForceFeedbackCurlMNDX (handTracker : Z)
    (locations : option XrForceFeedbackCurlApplyLocationsMNDX) : entrypoint unit
| xrEnumerateDisplayRefreshRatesFB (session : Z) (displayRefreshRateCapacityInput : Z)
    : entrypoint (option Z * option (list F32.float))
| xrGetDisplayRefreshRateFB (session : Z) : entrypoint (option F32.float)
| xrRequestDisplayRefreshRateFB (session : Z) (displayRefreshRate : F32.float)
    : entrypoint unit
| xrSetAndroidApplicationThreadKHR (session : Z) (threadType : XrAndroidThreadTypeKHR)
    (threadId : Z) : entrypoint unit
| xrCreateFacialTrackerHTC (session : Z) (createInfo : option XrFacialTrackerCreateInfoHTC)
    : entrypoint (option Z)
| xrDestroyFacialTrackerHTC (facialTracker : Z) : entrypoint unit
| xrGetFacialExpressionsHTC (facialTracker : Z) (facialExpressions : Z)
    : entrypoint XrFacialExpressionsHTC
| xrCreateBodyTrackerFB (session : Z) (createInfo : option XrBodyTrackerCreateInfoFB)
    : entrypoint (option Z)
| xrDestroyBodyTrackerFB (bodyTracker : Z) : entrypoint unit
| xrGetBodySkeletonFB (bodyTracker : Z) : entrypoint (option XrBodySkeletonFB)
| xrLocateBodyJointsFB (bodyTracker : Z) (locateInfo : option XrBodyJointsLocateInfoFB)
    : entrypoint (option XrBodyJointLocationsFB)
| xrRequestBodyTrackingFidelityMETA (bodyTracker : Z) (fidelity : Z) : entrypoint unit.

Definition exec `{B : oxr_backend} `{L : oxr_limits} {Out} (e : entrypoint Out)
    : M Out XrResult :=
  match e in entrypoint T return M T XrResult with
  | xrDestroySession s => oxr_xrDestroySession s
  | xrBeginSession s bi => oxr_xrBeginSession s bi
  | xrEndSession s => oxr_xrEndSession s
  | xrWaitFrame s wi => oxr_xrWaitFrame s wi
  | xrBeginFrame s bi => oxr_xrBeginFrame s bi
  | xrEndFrame s ei => oxr_xrEndFrame s ei
  | xrRequestExitSession s => oxr_xrRequestExitSession s
  | xrLocateViews s li cap => oxr_xrLocateViews s li cap
  | xrGetVisibilityMaskKHR s vct vi mt => oxr_xrGetVisibilityMaskKHR s vct vi mt
  | xrPerfSettingsSetPerformanceLevelEXT s d l =>
      oxr_xrPerfSettingsSetPerformanceLevelEXT s d l
  | xrThermalGetTemperatureTrendEXT s d => oxr_xrThermalGetTemperatureTrendEXT s d
  | xrCreateHandTrackerEXT s ci => oxr_xrCreateHandTrackerEXT s ci
  | xrDestroyHandTrackerEXT h => oxr_xrDestroyHandTrackerEXT h
  | xrLocateHandJointsEXT h li => oxr_xrLocateHandJointsEXT h li
  | xrApplyForceFeedbackCurlMNDX h l => oxr_xrApplyForceFeedbackCurlMNDX h l
  | xrEnumerateDisplayRefreshRatesFB s cap => oxr_xrEnumerateDisplayRefreshRatesFB s cap
  | xrGetDisplayRefreshRateFB s => oxr_xrGetDisplayRefreshRateFB s
  | xrRequestDisplayRefreshRateFB s r => oxr_xrRequestDisplayRefreshRateFB s r
  | xrSetAndroidApplicationThreadKHR s t i => oxr_xrSetAndroidApplicationThreadKHR s t i
  | xrCreateFacialTrackerHTC s ci => oxr_xrCreateFacialTrackerHTC s ci
  | xrDestroyFacialTrackerHTC f => oxr_xrDestroyFacialTrackerHTC f
  | xrGetFacialExpressionsHTC f e => oxr_xrGetFacialExpressionsHTC f e
  | xrCreateBodyTrackerFB s ci => oxr_xrCreateBodyTrackerFB s ci
  | xrDestroyBodyTrackerFB b => oxr_xrDestroyBodyTrackerFB b
  | xrGetBodySkeletonFB b => oxr_xrGetBodySkeletonFB b
  | xrLocateBodyJointsFB b li => oxr_xrLocateBodyJointsFB b li
  | xrRequestBodyTrackingFidelityMETA b f => oxr_xrRequestBodyTrackingFidelityMETA b f
  end.

(** The kind of handle a call is made on, and the handle. *)
Inductive handle_kind := KSession | KHandTracker | KFaceTracker | KBodyTracker.

Definition primary_handle {Out} (e : entrypoint Out) : handle_kind * Z :=
  match e with
  | xrDestroySession s | xrBeginSession s _ | xrEndSession s | xrWaitFrame s _
  | xrBeginFrame s _ | xrEndFrame s _ | xrRequestExitSession s | xrLocateViews s _ _
  | xrGetVisibilityMaskKHR s _ _ _ | xrPerfSettingsSetPerformanceLevelEXT s _ _
  | xrThermalGetTemperatureTrendEXT s _ | xrCreateHandTrackerEXT s _
  | xrEnumerateDisplayRefreshRatesFB s _ | xrGetDisplayRefreshRateFB s
  | xrRequestDisplayRefreshRateFB s _ | xrSetAndroidApplicationThreadKHR s _ _
  | xrCreateFacialTrackerHTC s _ | xrCreateBodyTrackerFB s _ => (KSession, s)
  | xrDestroyHandTrackerEXT h | xrLocateHandJointsEXT h _
  | xrApplyForceFeedbackCurlMNDX h _ => (KHandTracker, h)
  | xrDestroyFacialTrackerHTC f | xrGetFacialExpressionsHTC f _ => (KFaceTracker, f)
  | xrDestroyBodyTrackerFB b | xrGetBodySkeletonFB b | xrLocateBodyJointsFB b _
  | xrRequestBodyTrackingFidelityMETA b _ => (KBodyTracker, b)
  end.

(** The session a live handle of the given kind belongs to. *)
Definition owner_session (st : oxr_state) (k : handle_kind) (p : Z) : option Z :=
  if bool_decide (p = 0) then None else
  match k, heap st !! p with
  | KSession, Some (ObjSession s) => if is_live (sess_handle s) then Some p else None
  | KHandTracker, Some (ObjHandTracker t) =>
      if is_live (ht_handle t) then Some (ht_sess t) else None
  | KFaceTracker, Some (ObjFaceTracker t) =>
      if is_live (ft_handle t) then Some (ft_sess t) else None
  | KBodyTracker, Some (ObjBodyTracker t) =>
      if is_live (bt_handle t) then Some (bt_sess t) else None
  | _, _ => None
  end.

(** The call is made on a live handle of a session in the Lost state. *)
Definition on_lost_session {Out} (st : oxr_state) (e : entrypoint Out) : Prop :=
  exists sess s,
    owner_session st (fst (primary_handle e)) (snd (primary_handle e)) = Some sess /\
    heap st !! sess = Some (ObjSession s) /\
    is_lost s = true.

Definition is_destroy {Out} (e : entrypoint Out) : bool :=
  match e with
  | xrDestroySession _ | xrDestroyHandTrackerEXT _ | xrDestroyFacialTrackerHTC _
  | xrDestroyBodyTrackerFB _ => true
  | _ => false
  end.

(** The calls that test for session loss right after their handle. *)
Definition checks_loss_first {Out} (e : entrypoint Out) : bool :=
  match e with
  | xrDestroySession _ | xrDestroyHandTrackerEXT _ | xrDestroyFacialTrackerHTC _
  | xrDestroyBodyTrackerFB _ => false
  | xrApplyForceFeedbackCurlMNDX _ _ => false
  | xrLocateBodyJointsFB _ _ => false
  | xrGetFacialExpressionsHTC _ _ => false
  | _ => true
  end.

(** ** Live handles

    What the handle checks accept: a non-NULL address that holds a live
    object of the expected kind. *)

Definition live_session (st : oxr_state) (p : Z) (s : oxr_session) : Prop :=
  p <> 0 /\ heap st !! p = Some (ObjSession s) /\ is_live (sess_handle s) = true.

Definition live_hand_tracker (st : oxr_state) (p : Z) (t : oxr_hand_tracker) : Prop :=
  p <> 0 /\ heap st !! p = Some (ObjHandTracker t) /\ is_live (ht_handle t) = true.

Definition live_facial_tracker (st : oxr_state) (p : Z) (t : oxr_facial_tracker_htc) : Prop :=
  p <> 0 /\ heap st !! p = Some (ObjFaceTracker t) /\ is_live (ft_handle t) = true.

Definition live_body_tracker (st : oxr_state) (p : Z) (t : oxr_body_tracker_fb) : Prop :=
  p <> 0 /\ heap st !! p = Some (ObjBodyTracker t) /\ is_live (bt_handle t) = true.

Definition live_space (st : oxr_state) (p : Z) : Prop :=
  p <> 0 /\ exists h, heap st !! p = Some (ObjSpace h) /\ is_live h = true.

(** The code an entrypoint hands back to the caller, when it returns. *)
Definition returned {Out} (r : res Out XrResult) : option XrResult :=
  match r with
  | Next c _ _ => Some c
  | Error c _ _ => Some c
  | Undefined => None
  end.

(** ** A concrete runtime for the worked examples

    [sample_backend] fills the functions this file calls with the simplest
    behaviour: every runtime function succeeds and leaves the state alone,
    the system reports a tracking capability when a device bound to one of
    its roles has it. *)

Definition supports_hand (x : option xrt_device) : bool :=
  match x with Some d => hand_tracking_supported d | None => false end.

Definition supports_face (x : option xrt_device) : bool :=
  match x with Some d => face_tracking_supported d | None => false end.

Definition sample_backend : oxr_backend := {|
  oxr_verify_view_config_type := fun _ t =>
    match t with
    | XR_VIEW_CONFIGURATION_TYPE_OTHER _ => XR_ERROR_VALIDATION_FAILURE
    | _ => XR_SUCCESS
    end;
  view_index_valid := fun i => (0 <=? i) && (i <? 2);
  oxr_session_end := fun _ st => (XR_SUCCESS, st);
  oxr_session_frame_wait := fun _ st fs => (XR_SUCCESS, st, fs);
  oxr_session_frame_begin := fun _ st => (XR_SUCCESS, st);
  oxr_session_frame_end := fun _ _ st => (XR_SUCCESS, st);
  oxr_session_request_exit := fun _ st => (XR_SUCCESS, st);
  oxr_session_locate_views := fun _ _ _ st o => (XR_SUCCESS, st, o);
  oxr_session_get_visibility_mask := fun _ _ _ st m => (XR_SUCCESS, st, m);
  oxr_session_set_perf_level := fun _ _ _ st => (XR_SUCCESS, st);
  oxr_session_hand_joints := fun _ _ st l => (XR_SUCCESS, st, l);
  oxr_session_apply_force_feedback := fun _ _ st => (XR_SUCCESS, st);
  oxr_session_get_display_refresh_rate := fun _ st o => (XR_SUCCESS, st, o);
  oxr_session_request_display_refresh_rate := fun _ _ st => (XR_SUCCESS, st);
  oxr_session_android_thread_settings := fun _ _ _ st => (XR_SUCCESS, st);
  oxr_system_get_hand_tracking_support := fun i =>
    supports_hand (role_hand_tracking_left (system i))
    || supports_hand (role_hand_tracking_right (system i));
  oxr_system_get_face_tracking_htc_support := fun i =>
    (supports_face (role_face (system i)), supports_face (role_face (system i)));
  oxr_system_get_body_tracking_fb_support := fun i => supports_body (role_body (system i));
  oxr_system_get_full_body_tracking_meta_support := fun i =>
    supports_body (role_body (system i));
  oxr_get_base_body_pose := fun _ set _ _ _ => (XR_SUCCESS, body_pose set);
  m_relation_chain_resolve := fun l => hd relation0 l;
  xrt_to_xr_space_location_flags := fun f => f;
  time_state_monotonic_to_ts_ns := fun t => t;
  time_state_ts_to_monotonic_ns := fun t => t |}.

(** The array sizes as the OpenXR headers give them. *)
Definition openxr_limits : oxr_limits := {|
  XR_HAND_JOINT_COUNT_EXT := 26;
  XRT_BODY_JOINT_COUNT_FB := 70;
  XRT_FULL_BODY_JOINT_COUNT_META := 84;
  XRT_FACIAL_EXPRESSION_EYE_COUNT_HTC := 14;
  XRT_FACIAL_EXPRESSION_LIP_COUNT_HTC := 37 |}.

(** A device with every tracking capability, reporting [active]. *)
Definition sample_device (active : bool) : xrt_device := {|
  hand_tracking_supported := true;
  face_tracking_supported := true;
  body_tracking_supported := true;
  body_tracking_fidelity_supported := true;
  inputs := [XRT_INPUT_GENERIC_HAND_TRACKING_LEFT; XRT_INPUT_GENERIC_HAND_TRACKING_RIGHT];
  get_face_tracking := fun _ =>
    (XRT_SUCCESS,
     {| fes_is_active := active; fes_sample_time_ns := 7; expression_weights := [] |});
  get_body_skeleton := fun _ => (XRT_SUCCESS, {| skeleton_joints := [] |});
  get_body_joints := fun _ _ =>
    (XRT_SUCCESS,
     {| sample_time_ns := 7; bjs_confidence := float0; skeleton_changed_count := 0;
        is_active := active; fidelity_status := 0; body_pose := relation0;
        joint_locations := [] |});
  set_body_tracking_fidelity_meta := fun _ => XR_SUCCESS |}.

Definition live_base (parent : Z) (children : list Z) : oxr_handle_base :=
  {| hb_state := OXR_HANDLE_STATE_LIVE; hb_parent := parent; hb_children := children |}.

(** A system with an optional compositor and the given hand-tracking
    devices; face and body are served by an inactive sample device. *)
Definition sample_system (compositor : option xrt_system_compositor_info)
    (left right : option xrt_device) : oxr_system := {|
  view_config_type := XR_VIEW_CONFIGURATION_TYPE_PRIMARY_STEREO;
  xsysc := compositor;
  role_hand_tracking_left := left;
  role_hand_tracking_right := right;
  role_face := Some (sample_device false);
  role_body := Some (sample_device false) |}.

Definition sample_session (state : XrSessionState) (begun : bool) : oxr_session :=
  {| sess_handle := live_base 0 [2; 3; 4; 5; 6]; sess_state := state; has_begun := begun |}.

(** One session at address 1 with four trackers (hand 2, full-body 3,
    face 4, default body 6) and a space at 5. *)
Definition sample_state (sys : oxr_system) (state : XrSessionState) (begun : bool)
    : oxr_state := {|
  inst := {| extensions := fun _ => true; sessions := [1]; system := sys |};
  heap :=
    list_to_map
      [(1, ObjSession (sample_session state begun));
       (2, ObjHandTracker {| ht_handle := live_base 1 []; ht_sess := 1;
                             ht_xdev := None;
                             ht_input_name := XRT_INPUT_GENERIC_HAND_TRACKING_LEFT;
                             ht_hand := XR_HAND_LEFT_EXT;
                             ht_hand_joint_set := XR_HAND_JOINT_SET_DEFAULT_EXT |});
       (3, ObjBodyTracker {| bt_handle := live_base 1 []; bt_sess := 1;
                             bt_xdev := Some (sample_device false);
                             joint_set_type := XRT_BODY_JOINT_SET_FULL_BODY_META |});
       (4, ObjFaceTracker {| ft_handle := live_base 1 []; ft_sess := 1;
                             ft_xdev := Some (sample_device false);
                             facial_tracking_type :=
                               XRT_FACIAL_TRACKING_TYPE_EYE_DEFAULT_HTC |});
       (5, ObjSpace (live_base 1 []));
       (6, ObjBodyTracker {| bt_handle := live_base 1 []; bt_sess := 1;
                             bt_xdev := Some (sample_device false);
                             joint_set_type := XRT_BODY_JOINT_SET_DEFAULT_FB |})];
  free_list := [16; 17] |}.

Definition headless_system : oxr_system := sample_system None None None.

(** A compositor that supports 60.00 Hz only. *)
Definition compositor_60 : xrt_system_compositor_info :=
  {| refresh_rate_count := 1; refresh_rates_hz := [F32.of_Z 60] |}.

Definition system_60 : oxr_system := sample_system (Some compositor_60) None None.

(** ** Notions the properties are stated with *)

(** The calls that write to the caller's structures before their last
    check: [xrGetVisibilityMaskKHR] always, [xrLocateBodyJointsFB] when a
    fidelity-status structure is chained to the locations. *)
Definition writes_before_checks {Out} (e : entrypoint Out) : Out -> bool :=
  match e in entrypoint T return T -> bool with
  | xrGetVisibilityMaskKHR _ _ _ _ => fun _ => true
  | xrLocateBodyJointsFB _ _ =>
      fun out =>
        match out with
        | Some l => match bjl_fidelity l with Some _ => true | None => false end
        | None => false
        end
  | _ => fun _ => false
  end.

(** The device the system binds to the role of a hand. *)
Definition hand_role (sys : oxr_system) (h : XrHandEXT) : option xrt_device :=
  match h with
  | XR_HAND_LEFT_EXT => GET_XDEV_BY_ROLE sys hand_tracking_left
  | XR_HAND_RIGHT_EXT => GET_XDEV_BY_ROLE sys hand_tracking_right
  | XR_HAND_OTHER _ => None
  end.

(** [(int)(x * 100.0f)]: the rate in hundredths of a hertz, truncated. *)
Definition centi_hertz (x : F32.float) : option Z := F32.to_int (F32.mul x hundred).

(** Some rate among the first [n] of [rates] truncates to [q]. *)
Definition rate_listed (n : nat) (rates : list F32.float) (q : Z) : Prop :=
  exists j r, (j < n)%nat /\ rates !! j = Some r /\ centi_hertz r = Some q.

(** What [n] rounds of [a[j] = f(a[j])], from index [i], make of [a]. *)
Fixpoint updated_range {A} (f : A -> A) (i n : nat) (a : list A) : list A :=
  match n with
  | O => a
  | S n' =>
      match a !! i with
      | Some x => updated_range f (S i) n' (<[i := f x]> a)
      | None => a
      end
  end.

(** The notions below serve the properties of the second part. *)

(** The handle an entrypoint hands to its handle check: its first
    argument, except for [xrGetFacialExpressionsHTC], which hands over
    [facialExpressions]. *)
Definition checked_handle {Out} (e : entrypoint Out) : handle_kind * Z :=
  match e with
  | xrGetFacialExpressionsHTC _ facialExpressions => (KFaceTracker, facialExpressions)
  | _ => primary_handle e
  end.

(** The calls that open with [OXR_VERIFY_SESSION_RUNNING]. *)
Definition needs_running {Out} (e : entrypoint Out) : bool :=
  match e with
  | xrEndSession _ | xrWaitFrame _ _ | xrBeginFrame _ _ | xrEndFrame _ _
  | xrRequestExitSession _ => true
  | _ => false
  end.

(** The calls that hand the runtime state to no function that could change
    it: they end in this file or in a device function. *)
Definition reads_only {Out} (e : entrypoint Out) : bool :=
  match e with
  | xrThermalGetTemperatureTrendEXT _ _ | xrEnumerateDisplayRefreshRatesFB _ _
  | xrGetFacialExpressionsHTC _ _ | xrGetBodySkeletonFB _ | xrLocateBodyJointsFB _ _
  | xrRequestBodyTrackingFidelityMETA _ _ => true
  | _ => false
  end.

(** The extension an entrypoint asks for with [OXR_VERIFY_EXTENSION] on
    every path to its end. *)
Definition gate {Out} (e : entrypoint Out) : option oxr_extension :=
  match e with
  | xrGetVisibilityMaskKHR _ _ _ _ => Some KHR_visibility_mask
  | xrPerfSettingsSetPerformanceLevelEXT _ _ _ => Some EXT_performance_settings
  | xrCreateHandTrackerEXT _ _ => Some EXT_hand_tracking
  | xrSetAndroidApplicationThreadKHR _ _ _ => Some KHR_android_thread_settings
  | xrCreateFacialTrackerHTC _ _ => Some HTC_facial_tracking
  | xrCreateBodyTrackerFB _ _ => Some FB_body_tracking
  | xrRequestBodyTrackingFidelityMETA _ _ => Some META_body_tracking_fidelity
  | _ => None
  end.

(** The session behind the handle is in the Lost state. *)
Definition lost_at (st : oxr_state) (session : Z) : bool :=
  match owner_session st KSession session, heap st !! session with
  | Some _, Some (ObjSession s) => is_lost s
  | _, _ => false
  end.

(** The kind of tracker a creation call makes. *)
Definition created_kind {Out} (e : entrypoint Out) : option handle_kind :=
  match e with
  | xrCreateHandTrackerEXT _ _ => Some KHandTracker
  | xrCreateFacialTrackerHTC _ _ => Some KFaceTracker
  | xrCreateBodyTrackerFB _ _ => Some KBodyTracker
  | _ => None
  end.

(** The handle a creation call has written to its output. *)
Definition created_handle {Out} (e : entrypoint Out) : Out -> option Z :=
  match e in entrypoint T return T -> option Z with
  | xrCreateHandTrackerEXT _ _ | xrCreateFacialTrackerHTC _ _
  | xrCreateBodyTrackerFB _ _ => fun out => out
  | _ => fun _ => None
  end.

(** The destroy call for a handle of the given kind. *)
Definition destroy_of (k : handle_kind) (h : Z) : entrypoint unit :=
  match k with
  | KSession => xrDestroySession h
  | KHandTracker => xrDestroyHandTrackerEXT h
  | KFaceTracker => xrDestroyFacialTrackerHTC h
  | KBodyTracker => xrDestroyBodyTrackerFB h
  end.

(** What a creation makes of the registry: the address [a] was free and is
    taken from the head of the free list, it now holds a live object
    without children under [parent], [parent] has [a] as its last child,
    and nothing else has moved. *)
Definition grown (st st' : oxr_state) (a parent : Z) : Prop :=
  a <> 0 /\ heap st !! a = None /\ inst st' = inst st /\
  free_list st = a :: free_list st' /\
  (exists obj, heap st' !! a = Some obj /\ handle_of obj = live_base parent []) /\
  (exists p, heap st !! parent = Some p /\
             heap st' !! parent
             = Some (with_handle p (with_children (handle_of p)
                                      (hb_children (handle_of p) ++ [a])))) /\
  (forall q, q <> a -> q <> parent -> heap st' !! q = heap st !! q).

(** The generic hand-tracking input of a hand. *)
Definition hand_input (h : XrHandEXT) : option xrt_input_name :=
  match h with
  | XR_HAND_LEFT_EXT => Some XRT_INPUT_GENERIC_HAND_TRACKING_LEFT
  | XR_HAND_RIGHT_EXT => Some XRT_INPUT_GENERIC_HAND_TRACKING_RIGHT
  | XR_HAND_OTHER _ => None
  end.

(** What [n] rounds of [a[j] = g(j)], from index [i], make of [a]. *)
Fixpoint written_range {A} (g : nat -> A) (i n : nat) (a : list A) : list A :=
  match n with
  | O => a
  | S n' =>
      match a !! i with
      | Some _ => written_range g (S i) n' (<[i := g i]> a)
      | None => a
      end
  end.

(** The skeleton joint the query stores for a joint of the device. *)
Definition skeleton_joint_of (src : xrt_body_skeleton_joint_fb) : XrBodySkeletonJointFB :=
  {| joint := skj_joint src; parentJoint := parent_joint src;
     sj_pose := OXR_XRT_POSE_TO_XRPOSEF (skj_pose src) |}.

Section BodyJoints.
Context `{B : oxr_backend} `{L : oxr_limits}.

(** The location the query stores for a joint of the device, given the
    pose of the body in the base space. *)
Definition body_joint_of (T_base_body : xrt_space_relation)
    (src_joint : xrt_body_joint_location_fb) : XrBodyJointLocationFB :=
  {| locationFlags := xrt_to_xr_space_location_flags (relation_flags (relation src_joint));
     bj_pose :=
       OXR_XRT_POSE_TO_XRPOSEF
         (pose (m_relation_chain_resolve [relation src_joint; T_base_body])) |}.

(** What the query has written when it reaches the end of its joint loop:
    the activity flag, the sample data and the joints of the variant. *)
Definition located (t : oxr_body_tracker_fb) (set : xrt_body_joint_set)
    (T_base_body : xrt_space_relation) (js : list XrBodyJointLocationFB)
    (locations : XrBodyJointLocationsFB) : XrBodyJointLocationsFB :=
  set_bjl_jointLocations
    (written_range
       (fun k => body_joint_of T_base_body
                   (nth k (joint_locations set) {| relation := relation0 |}))
       0 (Z.to_nat (body_joint_count_of t)) js)
    (set_bjl_sample (time_state_monotonic_to_ts_ns (sample_time_ns set))
       (bjs_confidence set) (skeleton_changed_count set)
       (set_bjl_isActive true locations)).

End BodyJoints.

(** ** States and inputs of the worked examples *)

(** The sample session in each of the situations the examples need: on a
    headless system and lost, or focused; on a system with the 60 Hz
    compositor and ready (not begun, begun) or focused. *)
Definition lost_state : oxr_state :=
  sample_state headless_system XR_SESSION_STATE_LOST true.

Definition headless_state : oxr_state :=
  sample_state headless_system XR_SESSION_STATE_FOCUSED true.

Definition ready_state : oxr_state :=
  sample_state system_60 XR_SESSION_STATE_READY false.

Definition running_state : oxr_state :=
  sample_state system_60 XR_SESSION_STATE_READY true.

Definition focused_state : oxr_state :=
  sample_state system_60 XR_SESSION_STATE_FOCUSED true.

(** Hand tracking is served for the right hand only. *)
Definition right_hand_only_state : oxr_state :=
  sample_state (sample_system None None (Some (sample_device true)))
    XR_SESSION_STATE_FOCUSED true.

(** A visibility mask whose count outputs hold 5 from an earlier call. *)
Definition sample_mask : XrVisibilityMaskKHR :=
  {| vm_type := XR_TYPE_VISIBILITY_MASK_KHR;
     vertexCapacityInput := 0; vertexCountOutput := 5; vertices := None;
     indexCapacityInput := 0; indexCountOutput := 5; indices := None |}.

Definition stereo_begin_info : XrSessionBeginInfo :=
  {| sbi_type := XR_TYPE_SESSION_BEGIN_INFO;
     primaryViewConfigurationType := XR_VIEW_CONFIGURATION_TYPE_PRIMARY_STEREO |}.

Definition left_hand_info : XrHandTrackerCreateInfoEXT :=
  {| htci_type := XR_TYPE_HAND_TRACKER_CREATE_INFO_EXT;
     hand := XR_HAND_LEFT_EXT; handJointSet := XR_HAND_JOINT_SET_DEFAULT_EXT |}.

Definition hand_locate_info : XrHandJointsLocateInfoEXT :=
  {| hjli_type := XR_TYPE_HAND_JOINTS_LOCATE_INFO_EXT; hjli_baseSpace := 5; hjli_time := 1 |}.

(** A hand-joint buffer of [n] joints. *)
Definition hand_locations (n : nat) : XrHandJointLocationsEXT :=
  {| hjl_type := XR_TYPE_HAND_JOINT_LOCATIONS_EXT; hjl_velocities := None;
     hjl_isActive := true; hjl_jointCount := Z.of_nat n;
     hjl_jointLocations :=
       Some (repeat {| hj_locationFlags := 3; hj_pose := pose0; hj_radius := float0 |} n) |}.

Definition body_locate_info : XrBodyJointsLocateInfoFB :=
  {| bjli_type := XR_TYPE_BODY_JOINTS_LOCATE_INFO_FB; bjli_baseSpace := 5; bjli_time := 1 |}.

(** A body-joint buffer of [n] joints, every location flagged valid (3)
    by an earlier query. *)
Definition body_locations (n : nat) : XrBodyJointLocationsFB :=
  {| bjl_type := XR_TYPE_BODY_JOINT_LOCATIONS_FB; bjl_fidelity := None;
     bjl_isActive := true; confidence := float0; bjl_jointCount := Z.of_nat n;
     skeletonChangedCount := 0; bjl_time := 0;
     bjl_jointLocations := Some (repeat {| locationFlags := 3; bj_pose := pose0 |} n) |}.

(** The state with the extension [ext] disabled on the instance. *)
Definition without_extension (ext : oxr_extension) (st : oxr_state) : oxr_state :=
  {| inst := {| extensions := fun x => if bool_decide (x = ext) then false
                                       else extensions (inst st) x;
                sessions := sessions (inst st);
                system := system (inst st) |};
     heap := heap st; free_list := free_list st |}.

(** Create infos for a body tracker of the default and of the full-body
    joint set. *)
Definition default_body_info : XrBodyTrackerCreateInfoFB :=
  {| btci_type := XR_TYPE_BODY_TRACKER_CREATE_INFO_FB;
     bodyJointSet := XR_BODY_JOINT_SET_DEFAULT_FB |}.

Definition full_body_info : XrBodyTrackerCreateInfoFB :=
  {| btci_type := XR_TYPE_BODY_TRACKER_CREATE_INFO_FB;
     bodyJointSet := XR_BODY_JOINT_SET_FULL_BODY_META |}.

(** Create infos for an eye tracker and for a tracker of the right hand. *)
Definition eye_info : XrFacialTrackerCreateInfoHTC :=
  {| ftci_type := XR_TYPE_FACIAL_TRACKER_CREATE_INFO_HTC;
     facialTrackingType := XR_FACIAL_TRACKING_TYPE_EYE_DEFAULT_HTC |}.

Definition right_hand_info : XrHandTrackerCreateInfoEXT :=
  {| htci_type := XR_TYPE_HAND_TRACKER_CREATE_INFO_EXT;
     hand := XR_HAND_RIGHT_EXT; handJointSet := XR_HAND_JOINT_SET_DEFAULT_EXT |}.

(** A system without a device in the face role. *)
Definition faceless_system : oxr_system :=
  {| view_config_type := view_config_type system_60; xsysc := xsysc system_60;
     role_hand_tracking_left := None; role_hand_tracking_right := None;
     role_face := None; role_body := role_body system_60 |}.

(** A compositor that lists no refresh rate. *)
Definition compositor_without_rates : xrt_system_compositor_info :=
  {| refresh_rate_count := 0; refresh_rates_hz := [] |}.

(** A view of the given structure type at the origin, a locate info for
    the space 5, and a view state. *)
Definition sample_view (t : XrStructureType) : XrView :=
  {| view_type := t; view_pose := pose0 |}.

Definition view_locate_info (time : Z) : XrViewLocateInfo :=
  {| vli_type := XR_TYPE_VIEW_LOCATE_INFO;
     vli_viewConfigurationType := XR_VIEW_CONFIGURATION_TYPE_PRIMARY_STEREO;
     vli_displayTime := time; vli_space := 5 |}.

Definition sample_view_state : XrViewState :=
  {| vs_type := XR_TYPE_VIEW_STATE; viewStateFlags := 0 |}.

(** A velocities structure for [n] joints. *)
Definition hand_velocities (n : Z) : XrHandJointVelocitiesEXT :=
  {| hjv_type := XR_TYPE_HAND_JOINT_VELOCITIES_EXT; hjv_jointCount := n |}.

(** A hand-joint buffer of 26 joints with a velocities structure for [n]
    joints on its chain. *)
Definition hand_locations_with_velocities (n : Z) : XrHandJointLocationsEXT :=
  {| hjl_type := XR_TYPE_HAND_JOINT_LOCATIONS_EXT;
     hjl_velocities := Some (hand_velocities n);
     hjl_isActive := true; hjl_jointCount := 26;
     hjl_jointLocations :=
       Some (repeat {| hj_locationFlags := 3; hj_pose := pose0; hj_radius := float0 |} 26) |}.

(** A force-feedback request with one location. *)
Definition curl_locations : XrForceFeedbackCurlApplyLocationsMNDX :=
  {| ffc_type := XR_TYPE_FORCE_FEEDBACK_CURL_APPLY_LOCATIONS_MNDX; ffc_locationCount := 1 |}.

(** A session allocator for the worked examples: it takes the next free
    address for an idle session without children. *)
Definition sample_session_create (createInfo : option unit)
    (st : oxr_state) : XrResult * oxr_state * Z :=
  match free_list st with
  | a :: rest =>
      (XR_SUCCESS,
       {| inst := inst st;
          heap := <[a := ObjSession {| sess_handle := live_base 0 [];
                                       sess_state := XR_SESSION_STATE_IDLE;
                                       has_begun := false |}]> (heap st);
          free_list := rest |}, a)
  | [] => (XR_ERROR_OUT_OF_MEMORY, st, 0)
  end.

(** Two sessions on the list: the sample session 1 and a second one at 7. *)
Definition two_session_state : oxr_state :=
  {| inst := {| extensions := extensions (inst focused_state); sessions := [7; 1];
                system := system (inst focused_state) |};
     heap := <[7 := ObjSession {| sess_handle := live_base 0 [];
                                  sess_state := XR_SESSION_STATE_IDLE;
                                  has_begun := false |}]> (heap focused_state);
     free_list := free_list focused_state |}.

(** An expression buffer of [n] weights, each 1.0. *)
Definition expression_buffer (n : nat) : XrFacialExpressionsHTC :=
  {| fe_type := XR_TYPE_FACIAL_EXPRESSIONS_HTC; fe_isActive := false; fe_sampleTime := 0;
     expressionCount := Z.of_nat n;
     expressionWeightings := Some (repeat (F32.of_Z 1) n) |}.

(** A skeleton buffer of [n] joints, each with joint index 9. *)
Definition skeleton_buffer (n : nat) : XrBodySkeletonFB :=
  {| bsk_type := XR_TYPE_BODY_SKELETON_FB; bsk_jointCount := Z.of_nat n;
     bsk_joints := Some (repeat {| joint := 9; parentJoint := 9; sj_pose := pose0 |} n) |}.

(** A body-joint buffer of [n] joints with a fidelity-status structure on
    its chain. *)
Definition body_locations_with_fidelity (n : nat) : XrBodyJointLocationsFB :=
  {| bjl_type := XR_TYPE_BODY_JOINT_LOCATIONS_FB;
     bjl_fidelity :=
       Some {| bfs_type := XR_TYPE_BODY_TRACKING_FIDELITY_STATUS_META; fidelity := 0 |};
     bjl_isActive := false; confidence := float0; bjl_jointCount := Z.of_nat n;
     skeletonChangedCount := 0; bjl_time := 0;
     bjl_jointLocations := Some (repeat {| locationFlags := 3; bj_pose := pose0 |} n) |}.

(** A device that tracks: its face set holds one weight (2.0), its body
    skeleton one joint, its body joint set one located joint, and the body
    pose is valid. *)
Definition tracking_device : xrt_device := {|
  hand_tracking_supported := true;
  face_tracking_supported := true;
  body_tracking_supported := true;
  body_tracking_fidelity_supported := false;
  inputs := [XRT_INPUT_GENERIC_HAND_TRACKING_LEFT; XRT_INPUT_GENERIC_HAND_TRACKING_RIGHT];
  get_face_tracking := fun _ =>
    (XRT_SUCCESS,
     {| fes_is_active := true; fes_sample_time_ns := 7;
        expression_weights := [F32.of_Z 2] |});
  get_body_skeleton := fun _ =>
    (XRT_SUCCESS,
     {| skeleton_joints := [{| skj_pose := pose0; skj_joint := 0; parent_joint := -1 |}] |});
  get_body_joints := fun _ _ =>
    (XRT_SUCCESS,
     {| sample_time_ns := 7; bjs_confidence := F32.of_Z 1; skeleton_changed_count := 2;
        is_active := true; fidelity_status := 1;
        body_pose := {| relation_flags := 3; pose := pose0 |};
        joint_locations := [{| relation := {| relation_flags := 1; pose := pose0 |} |}] |});
  set_body_tracking_fidelity_meta := fun _ => XR_SUCCESS |}.

(** The focused sample state with its full-body tracker 3 and its face
    tracker 4 bound to the tracking device. *)
Definition tracked_state : oxr_state :=
  set_heap focused_state
    (<[3 := ObjBodyTracker {| bt_handle := live_base 1 []; bt_sess := 1;
                              bt_xdev := Some tracking_device;
                              joint_set_type := XRT_BODY_JOINT_SET_FULL_BODY_META |}]>
       (<[4 := ObjFaceTracker {| ft_handle := live_base 1 []; ft_sess := 1;
                                 ft_xdev := Some tracking_device;
                                 facial_tracking_type :=
                                   XRT_FACIAL_TRACKING_TYPE_EYE_DEFAULT_HTC |}]>
          (heap focused_state))).

(** The sample runtime, except that the pose of the body in the base space
    cannot be found. *)
Definition poseless_backend : oxr_backend := {|
  oxr_verify_view_config_type := @oxr_verify_view_config_type sample_backend;
  view_index_valid := @view_index_valid sample_backend;
  oxr_session_end := @oxr_session_end sample_backend;
  oxr_session_frame_wait := @oxr_session_frame_wait sample_backend;
  oxr_session_frame_begin := @oxr_session_frame_begin sample_backend;
  oxr_session_frame_end := @oxr_session_frame_end sample_backend;
  oxr_session_request_exit := @oxr_session_request_exit sample_backend;
  oxr_session_locate_views := @oxr_session_locate_views sample_backend;
  oxr_session_get_visibility_mask := @oxr_session_get_visibility_mask sample_backend;
  oxr_session_set_perf_level := @oxr_session_set_perf_level sample_backend;
  oxr_session_hand_joints := @oxr_session_hand_joints sample_backend;
  oxr_session_apply_force_feedback := @oxr_session_apply_force_feedback sample_backend;
  oxr_session_get_display_refresh_rate :=
    @oxr_session_get_display_refresh_rate sample_backend;
  oxr_session_request_display_refresh_rate :=
    @oxr_session_request_display_refresh_rate sample_backend;
  oxr_session_android_thread_settings :=
    @oxr_session_android_thread_settings sample_backend;
  oxr_system_get_hand_tracking_support :=
    @oxr_system_get_hand_tracking_support sample_backend;
  oxr_system_get_face_tracking_htc_support :=
    @oxr_system_get_face_tracking_htc_support sample_backend;
  oxr_system_get_body_tracking_fb_support :=
    @oxr_system_get_body_tracking_fb_support sample_backend;
  oxr_system_get_full_body_tracking_meta_support :=
    @oxr_system_get_full_body_tracking_meta_support sample_backend;
  oxr_get_base_body_pose := fun _ _ _ _ _ => (XR_ERROR_RUNTIME_FAILURE, relation0);
  m_relation_chain_resolve := @m_relation_chain_resolve sample_backend;
  xrt_to_xr_space_location_flags := @xrt_to_xr_space_location_flags sample_backend;
  time_state_monotonic_to_ts_ns := @time_state_monotonic_to_ts_ns sample_backend;
  time_state_ts_to_monotonic_ns := @time_state_ts_to_monotonic_ns sample_backend |}.

(** * Properties *)

(** ** How a computation treats the state and the outputs

    [quiet]: whatever the outcome, state and outputs are as before.
    [frozen]: whatever the outcome, the state is as before.
    [noerr]: the computation never leaves through a failed check.
    [clean]: when it leaves through a failed check, state and outputs are
    as before.  [clean_state]: then the state is as before. *)

Section Discipline.
Context {Out : Type}.

Definition quiet {A} (m : M Out A) : Prop :=
  forall st o,
    match m st o with
    | Next _ st' o' => st' = st /\ o' = o
    | Error _ st' o' => st' = st /\ o' = o
    | Undefined => True
    end.

Definition frozen {A} (m : M Out A) : Prop :=
  forall st o,
    match m st o with
    | Next _ st' _ => st' = st
    | Error _ st' _ => st' = st
    | Undefined => True
    end.

Definition noerr {A} (m : M Out A) : Prop :=
  forall st o, match m st o with Error _ _ _ => False | _ => True end.

Definition clean {A} (m : M Out A) : Prop :=
  forall st o,
    match m st o with
    | Error _ st' o' => st' = st /\ o' = o
    | _ => True
    end.

Definition clean_state {A} (m : M Out A) : Prop :=
  forall st o,
    match m st o with
    | Error _ st' _ => st' = st
    | _ => True
    end.

Lemma quiet_clean {A} (m : M Out A) : quiet m -> clean m.
Proof. intros H st o. specialize (H st o). destruct (m st o); auto. Qed.

Lemma quiet_frozen {A} (m : M Out A) : quiet m -> frozen m.
Proof. intros H st o. specialize (H st o). destruct (m st o); tauto. Qed.

Lemma noerr_clean {A} (m : M Out A) : noerr m -> clean m.
Proof. intros H st o. specialize (H st o). destruct (m st o); tauto. Qed.

Lemma clean_clean_state {A} (m : M Out A) : clean m -> clean_state m.
Proof. intros H st o. specialize (H st o). destruct (m st o); tauto. Qed.

Lemma frozen_clean_state {A} (m : M Out A) : frozen m -> clean_state m.
Proof. intros H st o. specialize (H st o). destruct (m st o); tauto. Qed.

Lemma quiet_bind {A C} (m : M Out A) (k : A -> M Out C) :
  quiet m -> (forall a, quiet (k a)) -> quiet (bind m k).
Proof.
  intros Hm Hk st o. unfold bind. specialize (Hm st o).
  destruct (m st o) as [a st' o'| |]; auto.
  destruct Hm as [-> ->]. apply Hk.
Qed.

Lemma frozen_bind {A C} (m : M Out A) (k : A -> M Out C) :
  frozen m -> (forall a, frozen (k a)) -> frozen (bind m k).
Proof.
  intros Hm Hk st o. unfold bind. specialize (Hm st o).
  destruct (m st o) as [a st' o'| |]; auto.
  subst st'. apply Hk.
Qed.

Lemma noerr_bind {A C} (m : M Out A) (k : A -> M Out C) :
  noerr m -> (forall a, noerr (k a)) -> noerr (bind m k).
Proof.
  intros Hm Hk st o. unfold bind. specialize (Hm st o).
  destruct (m st o) as [a st' o'| |]; auto. apply Hk.
Qed.

Lemma clean_bind {A C} (m : M Out A) (k : A -> M Out C) :
  quiet m -> (forall a, clean (k a)) -> clean (bind m k).
Proof.
  intros Hm Hk st o. unfold bind. specialize (Hm st o).
  destruct (m st o) as [a st' o'| |]; auto.
  destruct Hm as [-> ->]. apply Hk.
Qed.

Lemma clean_state_bind {A C} (m : M Out A) (k : A -> M Out C) :
  frozen m -> (forall a, clean_state (k a)) -> clean_state (bind m k).
Proof.
  intros Hm Hk st o. unfold bind. specialize (Hm st o).
  destruct (m st o) as [a st' o'| |]; auto.
  subst st'. apply Hk.
Qed.

(** A computation that may change the state when it goes on (an
    allocation) can still be followed by one that never fails. *)
Lemma clean_then_noerr {A C} (P : A -> Prop) (m : M Out A) (k : A -> M Out C) :
  clean m ->
  (forall st o a st' o', m st o = Next a st' o' -> P a) ->
  (forall a, P a -> noerr (k a)) ->
  clean (bind m k).
Proof.
  intros Hm HP Hk st o. unfold bind. specialize (Hm st o). specialize (HP st o).
  destruct (m st o) as [a st' o'| |]; auto.
  specialize (Hk a (HP _ _ _ eq_refl) st' o').
  destruct (k a st' o'); tauto.
Qed.

Lemma quiet_ret {A} (a : A) : quiet (ret a).
Proof. intros st o. simpl. auto. Qed.
Lemma quiet_oxr_error {A} r : quiet (A:=A) (oxr_error r).
Proof. intros st o. simpl. auto. Qed.
Lemma quiet_undefined {A} : quiet (A:=A) undefined.
Proof. intros st o. exact I. Qed.
Lemma quiet_get_state : quiet get_state.
Proof. intros st o. simpl. auto. Qed.
Lemma quiet_get_out : quiet get_out.
Proof. intros st o. simpl. auto. Qed.
Lemma quiet_check b r : quiet (check b r).
Proof. destruct b; intros st o; simpl; auto. Qed.
Lemma quiet_deref {A} (p : option A) : quiet (deref p).
Proof. destruct p; intros st o; simpl; auto. Qed.

Lemma frozen_put_out o : frozen (put_out o).
Proof. intros st o'. reflexivity. Qed.

Lemma noerr_ret {A} (a : A) : noerr (ret a).
Proof. intros st o. exact I. Qed.
Lemma noerr_undefined {A} : noerr (A:=A) undefined.
Proof. intros st o. exact I. Qed.
Lemma noerr_get_state : noerr get_state.
Proof. intros st o. exact I. Qed.
Lemma noerr_put_state st : noerr (put_state st).
Proof. intros st' o. exact I. Qed.
Lemma noerr_get_out : noerr get_out.
Proof. intros st o. exact I. Qed.
Lemma noerr_put_out o : noerr (put_out o).
Proof. intros st o'. exact I. Qed.
Lemma noerr_deref {A} (p : option A) : noerr (deref p).
Proof. destruct p; intros st o; exact I. Qed.
Lemma noerr_call f : noerr (call f).
Proof. intros st o. unfold call. destruct (f st). exact I. Qed.
Lemma noerr_call_out f : noerr (call_out f).
Proof. intros st o. unfold call_out. destruct (f st o) as [[? ?] ?]. exact I. Qed.

Lemma noerr_for_each body i n :
  (forall j, noerr (body j)) -> noerr (for_each i n body).
Proof.
  intros Hb. revert i. induction n as [|n IH]; intros i; simpl.
  - apply noerr_ret.
  - apply noerr_bind; auto.
Qed.

Lemma quiet_for_each body i n :
  (forall j, quiet (body j)) -> quiet (for_each i n body).
Proof.
  intros Hb. revert i. induction n as [|n IH]; intros i; simpl.
  - apply quiet_ret.
  - apply quiet_bind; auto.
Qed.

Lemma frozen_for_each body i n :
  (forall j, frozen (body j)) -> frozen (for_each i n body).
Proof.
  intros Hb. revert i. induction n as [|n IH]; intros i; simpl.
  - apply quiet_frozen, quiet_ret.
  - apply frozen_bind; auto.
Qed.
End Discipline.

Lemma noerr_call_on {X} (x : X) f : noerr (call_on x f).
Proof. intros st o. unfold call_on. destruct (f st x) as [[? ?] ?]. exact I. Qed.

Create HintDb oxr discriminated.
#[export] Hint Resolve quiet_ret quiet_oxr_error quiet_undefined quiet_get_state
  quiet_get_out quiet_check quiet_deref : oxr.
#[export] Hint Resolve noerr_ret noerr_undefined noerr_get_state noerr_put_state
  noerr_get_out noerr_put_out noerr_deref noerr_call noerr_call_out noerr_call_on : oxr.
#[export] Hint Resolve frozen_put_out : oxr.
#[export] Hint Resolve quiet_clean quiet_frozen | 10 : oxr.
#[export] Hint Resolve noerr_clean clean_clean_state frozen_clean_state | 20 : oxr.

(** Splits on whatever the computation under one of the predicates
    branches on. *)
Ltac branch :=
  match goal with
  | |- ?P (match ?x with _ => _ end) => destruct x
  | |- ?P (if ?b then _ else _) => destruct b
  | |- ?P (let '(_, _) := ?x in _) => destruct x
  end.

(** Descends through [bind], the loops and the branches, closing the
    leaves with the facts of the hint database.  Under [clean] a step is
    either quiet, or the rest never fails. *)
Ltac disciplined :=
  intros;
  first
    [ solve [auto with oxr]
    | match goal with
      | |- quiet (bind _ _) => apply quiet_bind; disciplined
      | |- noerr (bind _ _) => apply noerr_bind; disciplined
      | |- frozen (bind _ _) => apply frozen_bind; disciplined
      | |- clean (bind _ _) =>
          first [ apply clean_bind; [solve [disciplined] | disciplined]
                | apply noerr_clean; solve [disciplined] ]
      | |- clean_state (bind _ _) =>
          first [ apply clean_state_bind; [solve [disciplined] | disciplined]
                | apply clean_clean_state, noerr_clean; solve [disciplined] ]
      | |- noerr (for_each _ _ _) => apply noerr_for_each; disciplined
      | |- quiet (for_each _ _ _) => apply quiet_for_each; disciplined
      | |- frozen (for_each _ _ _) => apply frozen_for_each; disciplined
      | |- _ => branch; disciplined
      end
    | idtac ].

(** ** Which codes a computation can fail with *)

Section Codes.
Context {Out : Type}.

Definition errs {A} (P : XrResult -> Prop) (m : M Out A) : Prop :=
  forall st o, match m st o with Error r _ _ => P r | _ => True end.

Lemma errs_bind {A C} P (m : M Out A) (k : A -> M Out C) :
  errs P m -> (forall a, errs P (k a)) -> errs P (bind m k).
Proof.
  intros Hm Hk st o. unfold bind. specialize (Hm st o).
  destruct (m st o) as [a st' o'| |]; auto. apply Hk.
Qed.

Lemma errs_noerr {A} P (m : M Out A) : noerr m -> errs P m.
Proof. intros H st o. specialize (H st o). destruct (m st o); tauto. Qed.

Lemma errs_oxr_error {A} (P : XrResult -> Prop) r : P r -> errs (A:=A) P (oxr_error r).
Proof. intros H st o. exact H. Qed.

Lemma errs_check (P : XrResult -> Prop) b r : P r -> errs P (check b r).
Proof. intros H. destruct b; intros st o; simpl; auto. Qed.
End Codes.

(** Descends like [disciplined], for the codes of the failures. *)
Ltac coded :=
  intros;
  first
    [ apply errs_noerr; solve [disciplined]
    | apply errs_check; discriminate
    | apply errs_oxr_error; discriminate
    | match goal with
      | |- errs _ (bind _ _) => apply errs_bind; coded
      | |- _ => branch; coded
      end
    | idtac ].

(** ** The verify macros and the registry obey the discipline *)

Section MacroFacts.
Context {Out : Type}.

Lemma quiet_deref_session p : quiet (Out:=Out) (deref_session p).
Proof. unfold deref_session. disciplined. Qed.
Lemma quiet_deref_hand_tracker p : quiet (Out:=Out) (deref_hand_tracker p).
Proof. unfold deref_hand_tracker. disciplined. Qed.
Lemma quiet_deref_facial_tracker p : quiet (Out:=Out) (deref_facial_tracker p).
Proof. unfold deref_facial_tracker. disciplined. Qed.
Lemma quiet_deref_body_tracker p : quiet (Out:=Out) (deref_body_tracker p).
Proof. unfold deref_body_tracker. disciplined. Qed.
Lemma quiet_verify_handle p f : quiet (Out:=Out) (verify_handle p f).
Proof. unfold verify_handle. disciplined. Qed.
#[local] Hint Resolve quiet_deref_session quiet_verify_handle : oxr.

Lemma quiet_verify_session p : quiet (Out:=Out) (OXR_VERIFY_SESSION_AND_INIT_LOG p).
Proof. apply quiet_verify_handle. Qed.
Lemma quiet_verify_hand_tracker p : quiet (Out:=Out) (OXR_VERIFY_HAND_TRACKER_AND_INIT_LOG p).
Proof. apply quiet_verify_handle. Qed.
Lemma quiet_verify_face_tracker p : quiet (Out:=Out) (OXR_VERIFY_FACE_TRACKER_HTC_AND_INIT_LOG p).
Proof. apply quiet_verify_handle. Qed.
Lemma quiet_verify_body_tracker p : quiet (Out:=Out) (OXR_VERIFY_BODY_TRACKER_FB_AND_INIT_LOG p).
Proof. apply quiet_verify_handle. Qed.
Lemma quiet_verify_space p : quiet (Out:=Out) (OXR_VERIFY_SPACE_NOT_NULL p).
Proof. apply quiet_verify_handle. Qed.
Lemma quiet_not_lost p : quiet (Out:=Out) (OXR_VERIFY_SESSION_NOT_LOST p).
Proof. unfold OXR_VERIFY_SESSION_NOT_LOST. disciplined. Qed.
Lemma quiet_running p : quiet (Out:=Out) (OXR_VERIFY_SESSION_RUNNING p).
Proof. unfold OXR_VERIFY_SESSION_RUNNING. disciplined. Qed.
Lemma quiet_arg_not_null {A} (a : option A) : quiet (Out:=Out) (OXR_VERIFY_ARG_NOT_NULL a).
Proof. unfold OXR_VERIFY_ARG_NOT_NULL. disciplined. Qed.
Lemma quiet_arg_type {A} (a : option A) f t :
  quiet (Out:=Out) (OXR_VERIFY_ARG_TYPE_AND_NOT_NULL a f t).
Proof. unfold OXR_VERIFY_ARG_TYPE_AND_NOT_NULL. disciplined. Qed.
Lemma quiet_arg_type_can_be_null {A} (a : option A) f t :
  quiet (Out:=Out) (OXR_VERIFY_ARG_TYPE_CAN_BE_NULL a f t).
Proof. unfold OXR_VERIFY_ARG_TYPE_CAN_BE_NULL. disciplined. Qed.
Lemma quiet_array_element {A} (a : option (list A)) i f t :
  quiet (Out:=Out) (OXR_VERIFY_ARG_ARRAY_ELEMENT_TYPE a i f t).
Proof. unfold OXR_VERIFY_ARG_ARRAY_ELEMENT_TYPE. disciplined. Qed.
Lemma quiet_extension e : quiet (Out:=Out) (OXR_VERIFY_EXTENSION e).
Proof. unfold OXR_VERIFY_EXTENSION. disciplined. Qed.
Lemma quiet_view_config_type `{B : oxr_backend} t :
  quiet (Out:=Out) (OXR_VERIFY_VIEW_CONFIG_TYPE t).
Proof. unfold OXR_VERIFY_VIEW_CONFIG_TYPE. disciplined. Qed.
Lemma quiet_view_index `{B : oxr_backend} i : quiet (Out:=Out) (OXR_VERIFY_VIEW_INDEX i).
Proof. unfold OXR_VERIFY_VIEW_INDEX. disciplined. Qed.

Lemma noerr_deref_session p : noerr (Out:=Out) (deref_session p).
Proof. unfold deref_session. disciplined. Qed.
Lemma noerr_deref_hand_tracker p : noerr (Out:=Out) (deref_hand_tracker p).
Proof. unfold deref_hand_tracker. disciplined. Qed.
Lemma noerr_deref_facial_tracker p : noerr (Out:=Out) (deref_facial_tracker p).
Proof. unfold deref_facial_tracker. disciplined. Qed.
Lemma noerr_deref_body_tracker p : noerr (Out:=Out) (deref_body_tracker p).
Proof. unfold deref_body_tracker. disciplined. Qed.

Lemma clean_allocate mk parent :
  clean (Out:=Out) (OXR_ALLOCATE_HANDLE_OR_RETURN mk parent).
Proof. unfold OXR_ALLOCATE_HANDLE_OR_RETURN. disciplined. Qed.

Lemma allocate_nonnull mk parent st (o : Out) a st' o' :
  OXR_ALLOCATE_HANDLE_OR_RETURN mk parent st o = Next a st' o' -> a <> 0.
Proof.
  unfold OXR_ALLOCATE_HANDLE_OR_RETURN, bind, get_state.
  destruct (free_list st) as [|x rest]; [discriminate|].
  destruct (heap st !! x); [discriminate|].
  destruct (heap st !! parent); [|discriminate].
  case_bool_decide; [discriminate|].
  simpl. intros [= <- _ _]. assumption.
Qed.

Lemma noerr_store p obj : noerr (Out:=Out) (store p obj).
Proof. unfold store. disciplined. Qed.
Lemma noerr_oxr_handle_destroy p : noerr (Out:=Out) (oxr_handle_destroy p).
Proof. unfold oxr_handle_destroy. disciplined. Qed.
End MacroFacts.

#[export] Hint Resolve quiet_deref_session quiet_deref_hand_tracker
  quiet_deref_facial_tracker quiet_deref_body_tracker quiet_verify_handle
  quiet_verify_session quiet_verify_hand_tracker quiet_verify_face_tracker
  quiet_verify_body_tracker quiet_verify_space quiet_not_lost quiet_running
  quiet_arg_not_null quiet_arg_type quiet_arg_type_can_be_null quiet_array_element
  quiet_extension quiet_view_config_type quiet_view_index : oxr.
#[export] Hint Resolve noerr_store noerr_oxr_handle_destroy noerr_deref_session
  noerr_deref_hand_tracker noerr_deref_facial_tracker noerr_deref_body_tracker
  clean_allocate : oxr.

(** One quiet step of a [clean] goal. *)
Ltac peel := apply clean_bind; [solve [disciplined] | intros].


(** ** Every entrypoint leaves the state alone when a check fails *)

Section Clean.
Context `{B : oxr_backend} `{L : oxr_limits}.

Lemma clean_xrDestroySession s : clean (oxr_xrDestroySession s).
Proof. unfold oxr_xrDestroySession. disciplined. Qed.

Lemma noerr_oxr_session_begin {Out} s bi : noerr (Out:=Out) (oxr_session_begin s bi).
Proof. unfold oxr_session_begin, deref_session. disciplined. Qed.
#[local] Hint Resolve noerr_oxr_session_begin : oxr.

Lemma clean_xrBeginSession s bi : clean (oxr_xrBeginSession s bi).
Proof. unfold oxr_xrBeginSession. disciplined. Qed.
Lemma clean_xrEndSession s : clean (oxr_xrEndSession s).
Proof. unfold oxr_xrEndSession. disciplined. Qed.
Lemma clean_xrWaitFrame s wi : clean (oxr_xrWaitFrame s wi).
Proof. unfold oxr_xrWaitFrame. disciplined. Qed.
Lemma clean_xrBeginFrame s wi : clean (oxr_xrBeginFrame s wi).
Proof. unfold oxr_xrBeginFrame. disciplined. Qed.
Lemma clean_xrEndFrame s wi : clean (oxr_xrEndFrame s wi).
Proof. unfold oxr_xrEndFrame. disciplined. Qed.
Lemma clean_xrRequestExitSession s : clean (oxr_xrRequestExitSession s).
Proof. unfold oxr_xrRequestExitSession. disciplined. Qed.
Lemma clean_xrLocateViews s li c : clean (oxr_xrLocateViews s li c).
Proof. unfold oxr_xrLocateViews. disciplined. Qed.
Lemma clean_state_xrGetVisibilityMaskKHR s a b c : clean_state (oxr_xrGetVisibilityMaskKHR s a b c).
Proof. unfold oxr_xrGetVisibilityMaskKHR. disciplined. Qed.
Lemma clean_xrPerf s a b : clean (oxr_xrPerfSettingsSetPerformanceLevelEXT s a b).
Proof. unfold oxr_xrPerfSettingsSetPerformanceLevelEXT. disciplined. Qed.
Lemma clean_xrThermal s a : clean (oxr_xrThermalGetTemperatureTrendEXT s a).
Proof. unfold oxr_xrThermalGetTemperatureTrendEXT. disciplined. Qed.
Lemma clean_xrDestroyHandTrackerEXT s : clean (oxr_xrDestroyHandTrackerEXT s).
Proof. unfold oxr_xrDestroyHandTrackerEXT. disciplined. Qed.
Lemma clean_xrLocateHandJointsEXT s a : clean (oxr_xrLocateHandJointsEXT s a).
Proof. unfold oxr_xrLocateHandJointsEXT. disciplined. Qed.
Lemma clean_xrApplyForceFeedbackCurlMNDX s a : clean (oxr_xrApplyForceFeedbackCurlMNDX s a).
Proof. unfold oxr_xrApplyForceFeedbackCurlMNDX. disciplined. Qed.
Lemma noerr_two_call {A} a b (c : list A) d : noerr (OXR_TWO_CALL_HELPER a b c d).
Proof. unfold OXR_TWO_CALL_HELPER. disciplined. Qed.
#[local] Hint Resolve @noerr_two_call : oxr.
Lemma clean_xrEnumerateDisplayRefreshRatesFB s a : clean (oxr_xrEnumerateDisplayRefreshRatesFB s a).
Proof. unfold oxr_xrEnumerateDisplayRefreshRatesFB. disciplined. Qed.
Lemma clean_xrGetDisplayRefreshRateFB s : clean (oxr_xrGetDisplayRefreshRateFB s).
Proof. unfold oxr_xrGetDisplayRefreshRateFB. disciplined. Qed.
Lemma clean_xrRequestDisplayRefreshRateFB s a : clean (oxr_xrRequestDisplayRefreshRateFB s a).
Proof. unfold oxr_xrRequestDisplayRefreshRateFB. disciplined. Qed.
Lemma clean_xrSetAndroidApplicationThreadKHR s a b : clean (oxr_xrSetAndroidApplicationThreadKHR s a b).
Proof. unfold oxr_xrSetAndroidApplicationThreadKHR. disciplined. Qed.
Lemma clean_xrDestroyFacialTrackerHTC s : clean (oxr_xrDestroyFacialTrackerHTC s).
Proof. unfold oxr_xrDestroyFacialTrackerHTC. disciplined. Qed.
Lemma clean_xrGetFacialExpressionsHTC s a : clean (oxr_xrGetFacialExpressionsHTC s a).
Proof. unfold oxr_xrGetFacialExpressionsHTC. disciplined. Qed.
Lemma clean_xrDestroyBodyTrackerFB s : clean (oxr_xrDestroyBodyTrackerFB s).
Proof. unfold oxr_xrDestroyBodyTrackerFB. disciplined. Qed.
Lemma noerr_write_skeleton_joint i v : noerr (write_skeleton_joint i v).
Proof. unfold write_skeleton_joint. disciplined. Qed.
#[local] Hint Resolve noerr_write_skeleton_joint : oxr.
Lemma clean_xrGetBodySkeletonFB s : clean (oxr_xrGetBodySkeletonFB s).
Proof. unfold oxr_xrGetBodySkeletonFB. disciplined. Qed.
Lemma clean_xrRequestBodyTrackingFidelityMETA s a : clean (oxr_xrRequestBodyTrackingFidelityMETA s a).
Proof. unfold oxr_xrRequestBodyTrackingFidelityMETA. disciplined. Qed.
Lemma frozen_modify_out {X} (f : X -> X) : frozen (modify_out f).
Proof. unfold modify_out. disciplined. Qed.
Lemma frozen_update_body_joint i f : frozen (update_body_joint i f).
Proof. unfold update_body_joint. disciplined. Qed.
#[local] Hint Resolve @frozen_modify_out frozen_update_body_joint : oxr.
Lemma clean_state_xrLocateBodyJointsFB s a : clean_state (oxr_xrLocateBodyJointsFB s a).
Proof. unfold oxr_xrLocateBodyJointsFB. disciplined. Qed.

Lemma clean_oxr_hand_tracker_create {Out} s ci :
  clean (Out:=Out) (oxr_hand_tracker_create s ci).
Proof.
  unfold oxr_hand_tracker_create. repeat peel.
  apply (clean_then_noerr (fun _ => True)); [auto with oxr | auto | disciplined].
Qed.

Lemma clean_xrCreateHandTrackerEXT s ci : clean (oxr_xrCreateHandTrackerEXT s ci).
Proof.
  unfold oxr_xrCreateHandTrackerEXT. repeat peel.
  apply (clean_then_noerr (fun _ => True));
    [apply clean_oxr_hand_tracker_create | auto | disciplined].
Qed.

Lemma noerr_after_nonnull {Out A} a (k : M Out A) :
  a <> 0 -> noerr k -> noerr (do _ <- OXR_VERIFY_ARG_NOT_NULL (nonnull a); k).
Proof.
  intros Ha Hk. unfold nonnull. rewrite bool_decide_false by assumption.
  apply noerr_bind; [|auto]. intros st o. exact I.
Qed.

Lemma clean_oxr_facial_tracker_htc_create {Out} s ci :
  clean (Out:=Out) (oxr_facial_tracker_htc_create s ci).
Proof.
  unfold oxr_facial_tracker_htc_create. peel.
  destruct (oxr_system_get_face_tracking_htc_support (inst a)).
  repeat peel. destruct (GET_XDEV_BY_ROLE _ _); [|disciplined]. peel.
  apply (clean_then_noerr (fun _ => True)); [auto with oxr | auto | disciplined].
Qed.

Lemma facial_tracker_create_nonnull {Out} s ci st (o : Out) a st' o' :
  oxr_facial_tracker_htc_create s ci st o = Next a st' o' -> a <> 0.
Proof.
  unfold oxr_facial_tracker_htc_create, bind, get_state.
  destruct (oxr_system_get_face_tracking_htc_support _).
  destruct (check _ _ _ _); try discriminate.
  destruct (check _ _ _ _); try discriminate.
  destruct (GET_XDEV_BY_ROLE _ _); [|discriminate].
  destruct (check _ _ _ _); try discriminate.
  destruct (OXR_ALLOCATE_HANDLE_OR_RETURN _ _ _ _) as [p ? ?| |] eqn:E; try discriminate.
  apply allocate_nonnull in E.
  destruct (deref_facial_tracker _ _ _); try discriminate.
  unfold store, bind, get_state, put_state, ret. intros [= <- _ _]. assumption.
Qed.

Lemma clean_xrCreateFacialTrackerHTC s ci : clean (oxr_xrCreateFacialTrackerHTC s ci).
Proof.
  unfold oxr_xrCreateFacialTrackerHTC. repeat peel.
  apply (clean_then_noerr (fun p => p <> 0)).
  - apply clean_oxr_facial_tracker_htc_create.
  - intros *. apply facial_tracker_create_nonnull.
  - intros p Hp. apply noerr_after_nonnull; [assumption | disciplined].
Qed.

Lemma clean_xrCreateBodyTrackerFB s ci : clean (oxr_xrCreateBodyTrackerFB s ci).
Proof.
  unfold oxr_xrCreateBodyTrackerFB. repeat peel.
  apply (clean_then_noerr (fun p => p <> 0)).
  - auto with oxr.
  - intros *. apply allocate_nonnull.
  - intros p Hp. apply noerr_bind; [auto with oxr | intros].
    apply noerr_bind; [auto with oxr | intros].
    apply noerr_after_nonnull; [assumption | disciplined].
Qed.
End Clean.

Create HintDb oxr_clean discriminated.
#[export] Hint Resolve clean_xrDestroySession clean_xrBeginSession clean_xrEndSession
  clean_xrWaitFrame clean_xrBeginFrame clean_xrEndFrame
  clean_xrRequestExitSession clean_xrLocateViews
  clean_state_xrGetVisibilityMaskKHR clean_xrPerf clean_xrThermal
  clean_xrCreateHandTrackerEXT clean_xrDestroyHandTrackerEXT
  clean_xrLocateHandJointsEXT clean_xrApplyForceFeedbackCurlMNDX
  clean_xrEnumerateDisplayRefreshRatesFB clean_xrGetDisplayRefreshRateFB
  clean_xrRequestDisplayRefreshRateFB clean_xrSetAndroidApplicationThreadKHR
  clean_xrCreateFacialTrackerHTC clean_xrDestroyFacialTrackerHTC
  clean_xrGetFacialExpressionsHTC clean_xrCreateBodyTrackerFB
  clean_xrDestroyBodyTrackerFB clean_xrGetBodySkeletonFB
  clean_state_xrLocateBodyJointsFB clean_xrRequestBodyTrackingFidelityMETA : oxr_clean.


(** ** Running the checks on a known state *)

Section Running.
Context {Out : Type}.
Implicit Types (st : oxr_state) (o : Out).

Lemma bind_next {A C} (m : M Out A) (k : A -> M Out C) st o a st' o' :
  m st o = Next a st' o' -> bind m k st o = k a st' o'.
Proof. unfold bind. intros ->. reflexivity. Qed.

Lemma bind_error {A C} (m : M Out A) (k : A -> M Out C) st o r st' o' :
  m st o = Error r st' o' -> bind m k st o = Error r st' o'.
Proof. unfold bind. intros ->. reflexivity. Qed.

Lemma verify_handle_next p tag_ok st o obj :
  p <> 0 -> heap st !! p = Some obj -> tag_ok obj = true ->
  is_live (handle_of obj) = true ->
  verify_handle p tag_ok st o = Next p st o.
Proof.
  intros Hp Hl Ht Hv. unfold verify_handle, bind, get_state.
  rewrite bool_decide_false by assumption. rewrite Hl, Ht, Hv. reflexivity.
Qed.

Lemma verify_session_next p s st o :
  live_session st p s -> OXR_VERIFY_SESSION_AND_INIT_LOG p st o = Next p st o.
Proof. intros (? & ? & ?). eapply verify_handle_next; eauto. Qed.

Lemma verify_hand_tracker_next p t st o :
  live_hand_tracker st p t -> OXR_VERIFY_HAND_TRACKER_AND_INIT_LOG p st o = Next p st o.
Proof. intros (? & ? & ?). eapply verify_handle_next; eauto. Qed.

Lemma verify_facial_tracker_next p t st o :
  live_facial_tracker st p t ->
  OXR_VERIFY_FACE_TRACKER_HTC_AND_INIT_LOG p st o = Next p st o.
Proof. intros (? & ? & ?). eapply verify_handle_next; eauto. Qed.

Lemma verify_body_tracker_next p t st o :
  live_body_tracker st p t ->
  OXR_VERIFY_BODY_TRACKER_FB_AND_INIT_LOG p st o = Next p st o.
Proof. intros (? & ? & ?). eapply verify_handle_next; eauto. Qed.

Lemma verify_space_next p st o :
  live_space st p -> OXR_VERIFY_SPACE_NOT_NULL p st o = Next p st o.
Proof. intros (? & h & ? & ?). eapply verify_handle_next; eauto. Qed.

Lemma deref_session_next p s st o :
  heap st !! p = Some (ObjSession s) -> deref_session p st o = Next s st o.
Proof. intros H. unfold deref_session, bind, get_state. rewrite H. reflexivity. Qed.

Lemma deref_hand_tracker_next p t st o :
  heap st !! p = Some (ObjHandTracker t) -> deref_hand_tracker p st o = Next t st o.
Proof. intros H. unfold deref_hand_tracker, bind, get_state. rewrite H. reflexivity. Qed.

Lemma deref_facial_tracker_next p t st o :
  heap st !! p = Some (ObjFaceTracker t) -> deref_facial_tracker p st o = Next t st o.
Proof. intros H. unfold deref_facial_tracker, bind, get_state. rewrite H. reflexivity. Qed.

Lemma deref_body_tracker_next p t st o :
  heap st !! p = Some (ObjBodyTracker t) -> deref_body_tracker p st o = Next t st o.
Proof. intros H. unfold deref_body_tracker, bind, get_state. rewrite H. reflexivity. Qed.

Lemma not_lost_next p s st o :
  heap st !! p = Some (ObjSession s) -> is_lost s = false ->
  OXR_VERIFY_SESSION_NOT_LOST p st o = Next tt st o.
Proof.
  intros H Hl. unfold OXR_VERIFY_SESSION_NOT_LOST.
  rewrite (bind_next _ _ _ _ _ _ _ (deref_session_next _ _ _ _ H)), Hl. reflexivity.
Qed.

Lemma not_lost_error p s st o :
  heap st !! p = Some (ObjSession s) -> is_lost s = true ->
  OXR_VERIFY_SESSION_NOT_LOST p st o = Error XR_ERROR_SESSION_LOST st o.
Proof.
  intros H Hl. unfold OXR_VERIFY_SESSION_NOT_LOST.
  rewrite (bind_next _ _ _ _ _ _ _ (deref_session_next _ _ _ _ H)), Hl. reflexivity.
Qed.

Lemma arg_type_next {A} (a : A) type_of t st o :
  type_of a = t ->
  OXR_VERIFY_ARG_TYPE_AND_NOT_NULL (Some a) type_of t st o = Next a st o.
Proof.
  intros H. unfold OXR_VERIFY_ARG_TYPE_AND_NOT_NULL, bind, check.
  rewrite bool_decide_true by assumption. reflexivity.
Qed.

Lemma extension_next e st o :
  extensions (inst st) e = true -> OXR_VERIFY_EXTENSION e st o = Next tt st o.
Proof. intros H. unfold OXR_VERIFY_EXTENSION, bind, get_state, check. rewrite H. reflexivity. Qed.

(** The two opening steps of a call on a session in the Lost state. *)
Lemma lost_session_prefix {A} (k : Z -> M Out A) p s st o :
  live_session st p s -> is_lost s = true ->
  (do sess <- OXR_VERIFY_SESSION_AND_INIT_LOG p;
   do _ <- OXR_VERIFY_SESSION_NOT_LOST sess; k sess) st o
  = Error XR_ERROR_SESSION_LOST st o.
Proof.
  intros Hs Hl.
  rewrite (bind_next _ _ _ _ _ _ _ (verify_session_next _ _ _ _ Hs)).
  apply bind_error. destruct Hs as (_ & Hh & _). eapply not_lost_error; eauto.
Qed.

(** The same on a session that is not lost. *)
Lemma live_session_prefix {A} (k : Z -> M Out A) p s st o :
  live_session st p s -> is_lost s = false ->
  (do sess <- OXR_VERIFY_SESSION_AND_INIT_LOG p;
   do _ <- OXR_VERIFY_SESSION_NOT_LOST sess; k sess) st o
  = k p st o.
Proof.
  intros Hs Hl.
  rewrite (bind_next _ _ _ _ _ _ _ (verify_session_next _ _ _ _ Hs)).
  destruct Hs as (_ & Hh & _).
  rewrite (bind_next _ _ _ _ _ _ _ (not_lost_next _ _ _ _ Hh Hl)). reflexivity.
Qed.
Lemma verify_handle_error p tag_ok st (o : Out) :
  ~ (p <> 0 /\ exists obj, heap st !! p = Some obj /\ tag_ok obj = true /\
                           is_live (handle_of obj) = true) ->
  verify_handle p tag_ok st o = Error XR_ERROR_HANDLE_INVALID st o.
Proof.
  intros Hn. unfold verify_handle, bind, get_state.
  case_bool_decide; [reflexivity|].
  destruct (heap st !! p) as [obj|] eqn:E; [|reflexivity].
  destruct (tag_ok obj) eqn:Ht; [|reflexivity].
  destruct (is_live (handle_of obj)) eqn:Hv; [|reflexivity].
  exfalso. apply Hn. eauto 10.
Qed.
End Running.

(** ** What a successful check tells *)

Section Inversion.
Context {Out : Type}.
Implicit Types (st : oxr_state) (o : Out).

Lemma quiet_bind_inv {A C} (m : M Out A) (k : A -> M Out C) st o r st2 o2 :
  quiet m -> bind m k st o = Next r st2 o2 ->
  exists a, m st o = Next a st o /\ k a st o = Next r st2 o2.
Proof.
  intros Hq. unfold bind. specialize (Hq st o).
  destruct (m st o) as [a st1 o1| |]; try discriminate.
  destruct Hq as [-> ->]. eauto.
Qed.

Lemma verify_handle_inv p tag_ok st o a st' o' :
  verify_handle p tag_ok st o = Next a st' o' ->
  a = p /\ p <> 0 /\
  exists obj, heap st !! p = Some obj /\ tag_ok obj = true /\
              is_live (handle_of obj) = true.
Proof.
  unfold verify_handle, bind, get_state. case_bool_decide; [discriminate|].
  destruct (heap st !! p) as [obj|]; [|discriminate].
  destruct (tag_ok obj) eqn:Ht; [|discriminate].
  destruct (is_live (handle_of obj)) eqn:Hv; [|discriminate].
  simpl. intros [= <- _ _]. eauto 10.
Qed.

Lemma verify_session_inv p st o a st' o' :
  OXR_VERIFY_SESSION_AND_INIT_LOG p st o = Next a st' o' ->
  a = p /\ exists s, live_session st p s.
Proof.
  intros H. apply verify_handle_inv in H as (-> & Hp & obj & Hh & Ht & Hv).
  destruct obj; try discriminate. split; [reflexivity|]. exists s.
  repeat split; assumption.
Qed.

Lemma deref_session_inv p st o s st' o' :
  deref_session p st o = Next s st' o' -> heap st !! p = Some (ObjSession s).
Proof.
  unfold deref_session, bind, get_state.
  destruct (heap st !! p) as [[]|]; try discriminate.
  intros [= <- _ _]. reflexivity.
Qed.

Lemma not_lost_inv p st o u st' o' :
  OXR_VERIFY_SESSION_NOT_LOST p st o = Next u st' o' ->
  exists s, heap st !! p = Some (ObjSession s) /\ is_lost s = false.
Proof.
  unfold OXR_VERIFY_SESSION_NOT_LOST. intros H.
  apply quiet_bind_inv in H as (s & Hs & Hc); [|auto with oxr].
  apply deref_session_inv in Hs. exists s. split; [assumption|].
  unfold check in Hc. destruct (is_lost s); [discriminate | reflexivity].
Qed.

Lemma arg_type_inv {A} (arg : option A) type_of t st o a st' o' :
  OXR_VERIFY_ARG_TYPE_AND_NOT_NULL arg type_of t st o = Next a st' o' ->
  arg = Some a /\ type_of a = t.
Proof.
  unfold OXR_VERIFY_ARG_TYPE_AND_NOT_NULL. destruct arg as [x|]; [|discriminate].
  unfold bind, check. case_bool_decide; [|discriminate].
  intros [= <- _ _]. auto.
Qed.
End Inversion.

(** ** The same at one state: the body-joint query without a fidelity chain *)

Section Pointwise.
Context {Out : Type}.

(** [clean] at one state and output. *)
Definition clean_at {A} (m : M Out A) (st : oxr_state) (o : Out) : Prop :=
  match m st o with
  | Error _ st' o' => st' = st /\ o' = o
  | _ => True
  end.

Lemma clean_at_bind {A C} (m : M Out A) (k : A -> M Out C) st o :
  quiet m ->
  (forall a, m st o = Next a st o -> clean_at (k a) st o) ->
  clean_at (bind m k) st o.
Proof.
  intros Hq Hk. unfold clean_at, bind. specialize (Hq st o).
  destruct (m st o) as [a st' o'| |] eqn:E; auto.
  destruct Hq as [-> ->]. apply (Hk a eq_refl).
Qed.

Lemma noerr_clean_at {A} (m : M Out A) st o : noerr m -> clean_at m st o.
Proof. intros H. unfold clean_at. specialize (H st o). destruct (m st o); tauto. Qed.

Lemma clean_clean_at {A} (m : M Out A) st o : clean m -> clean_at m st o.
Proof. intros H. exact (H st o). Qed.
End Pointwise.

(** One quiet step of a [clean_at] goal, keeping what the step returned. *)
Ltac peel_at H := apply clean_at_bind; [solve [disciplined] | intros ? H].

Lemma clean_at_xrLocateBodyJointsFB `{B : oxr_backend} `{L : oxr_limits}
    bodyTracker locateInfo st o :
  (forall l, o = Some l -> bjl_fidelity l = None) ->
  clean_at (oxr_xrLocateBodyJointsFB bodyTracker locateInfo) st o.
Proof.
  intros Hfid. unfold oxr_xrLocateBodyJointsFB.
  peel_at H1. peel_at H2. peel_at H3. injection H3 as <-.
  peel_at H4. apply arg_type_inv in H4 as [H4 _]. specialize (Hfid _ H4).
  repeat (apply clean_at_bind; [solve [disciplined] | intros ? _]).
  destruct (get_body_joints _ _ _).
  repeat (apply clean_at_bind; [solve [disciplined] | intros ? _]).
  destruct (oxr_get_base_body_pose _ _ _ _ _).
  rewrite Hfid. apply noerr_clean_at.
  pose proof (@frozen_modify_out XrBodyJointLocationsFB).
  assert (Hm : forall f, noerr (@modify_out XrBodyJointLocationsFB f))
    by (intros f; unfold modify_out; disciplined).
  assert (Hu : forall i f, noerr (update_body_joint i f))
    by (intros i f; unfold update_body_joint; disciplined).
  disciplined.
Qed.

(** ** Calls on a lost session *)

Section LostSessions.
Context `{B : oxr_backend} `{L : oxr_limits}.

Lemma owner_session_of_session st p sess s :
  owner_session st KSession p = Some sess ->
  heap st !! sess = Some (ObjSession s) ->
  sess = p /\ live_session st p s.
Proof.
  unfold owner_session, live_session. case_bool_decide; [discriminate|].
  destruct (heap st !! p) as [[s'| | | |]|] eqn:E; try discriminate.
  destruct (is_live (sess_handle s')) eqn:Hv; [|discriminate].
  intros [= <-] Hs. rewrite E in Hs. injection Hs as ->. auto.
Qed.

Lemma owner_session_of_hand_tracker st p sess :
  owner_session st KHandTracker p = Some sess ->
  exists t, live_hand_tracker st p t /\ ht_sess t = sess.
Proof.
  unfold owner_session, live_hand_tracker. case_bool_decide; [discriminate|].
  destruct (heap st !! p) as [[|t| | |]|] eqn:E; try discriminate.
  destruct (is_live (ht_handle t)) eqn:Hv; [|discriminate].
  intros [= <-]. eauto.
Qed.

Lemma owner_session_of_facial_tracker st p sess :
  owner_session st KFaceTracker p = Some sess ->
  exists t, live_facial_tracker st p t /\ ft_sess t = sess.
Proof.
  unfold owner_session, live_facial_tracker. case_bool_decide; [discriminate|].
  destruct (heap st !! p) as [[| |t| |]|] eqn:E; try discriminate.
  destruct (is_live (ft_handle t)) eqn:Hv; [|discriminate].
  intros [= <-]. eauto.
Qed.

Lemma owner_session_of_body_tracker st p sess :
  owner_session st KBodyTracker p = Some sess ->
  exists t, live_body_tracker st p t /\ bt_sess t = sess.
Proof.
  unfold owner_session, live_body_tracker. case_bool_decide; [discriminate|].
  destruct (heap st !! p) as [[| | |t|]|] eqn:E; try discriminate.
  destruct (is_live (bt_handle t)) eqn:Hv; [|discriminate].
  intros [= <-]. eauto.
Qed.

Lemma unlink_in sess l : In sess l -> exists l', unlink sess l = Some l'.
Proof.
  induction l as [|x l IH]; simpl; [tauto|].
  intros Hin. case_bool_decide; [eauto|].
  destruct Hin as [->|Hin]; [congruence|].
  destruct (IH Hin) as [l' ->]. eauto.
Qed.

Lemma oxr_handle_destroy_next {Out} h obj st (o : Out) :
  heap st !! h = Some obj ->
  exists st', oxr_handle_destroy h st o = Next XR_SUCCESS st' o.
Proof.
  intros H. unfold oxr_handle_destroy, bind, get_state. rewrite H.
  simpl. eauto.
Qed.

Lemma destroy_session_next session s st :
  live_session st session s -> In session (sessions (inst st)) ->
  exists st', oxr_xrDestroySession session st tt = Next XR_SUCCESS st' tt.
Proof.
  intros Hs Hin. unfold oxr_xrDestroySession.
  rewrite (bind_next _ _ _ _ _ _ _ (verify_session_next _ _ _ _ Hs)).
  destruct (unlink_in _ _ Hin) as [l' Hl'].
  unfold bind at 1. unfold get_state. unfold bind at 1. rewrite Hl'. simpl.
  unfold bind at 1. simpl.
  destruct Hs as (_ & Hh & _).
  apply (oxr_handle_destroy_next session (ObjSession s)). exact Hh.
Qed.

Lemma lost_hand_tracker_prefix {Out A} (k : Z -> oxr_hand_tracker -> M Out A)
    p t s st (o : Out) :
  live_hand_tracker st p t -> heap st !! ht_sess t = Some (ObjSession s) ->
  is_lost s = true ->
  (do h <- OXR_VERIFY_HAND_TRACKER_AND_INIT_LOG p;
   do t <- deref_hand_tracker h;
   do _ <- OXR_VERIFY_SESSION_NOT_LOST (ht_sess t); k h t) st o
  = Error XR_ERROR_SESSION_LOST st o.
Proof.
  intros Ht Hs Hl.
  rewrite (bind_next _ _ _ _ _ _ _ (verify_hand_tracker_next _ _ _ _ Ht)).
  destruct Ht as (_ & Hh & _).
  rewrite (bind_next _ _ _ _ _ _ _ (deref_hand_tracker_next _ _ _ _ Hh)).
  apply bind_error. eapply not_lost_error; eauto.
Qed.

Lemma lost_body_tracker_prefix {Out A} (k : Z -> oxr_body_tracker_fb -> M Out A)
    p t s st (o : Out) :
  live_body_tracker st p t -> heap st !! bt_sess t = Some (ObjSession s) ->
  is_lost s = true ->
  (do h <- OXR_VERIFY_BODY_TRACKER_FB_AND_INIT_LOG p;
   do t <- deref_body_tracker h;
   do _ <- OXR_VERIFY_SESSION_NOT_LOST (bt_sess t); k h t) st o
  = Error XR_ERROR_SESSION_LOST st o.
Proof.
  intros Ht Hs Hl.
  rewrite (bind_next _ _ _ _ _ _ _ (verify_body_tracker_next _ _ _ _ Ht)).
  destruct Ht as (_ & Hh & _).
  rewrite (bind_next _ _ _ _ _ _ _ (deref_body_tracker_next _ _ _ _ Hh)).
  apply bind_error. eapply not_lost_error; eauto.
Qed.
End LostSessions.

(** ** More steps of a known run *)

Lemma arg_not_null_next {Out A} (a : A) st (o : Out) :
  OXR_VERIFY_ARG_NOT_NULL (Some a) st o = Next tt st o.
Proof. reflexivity. Qed.

Lemma arg_not_null_some {Out A} (a : option A) st (o : Out) :
  is_Some a -> OXR_VERIFY_ARG_NOT_NULL a st o = Next tt st o.
Proof. intros [x ->]. reflexivity. Qed.

Lemma check_next {Out} b r st (o : Out) : b = true -> check b r st o = Next tt st o.
Proof. intros ->. reflexivity. Qed.

Lemma check_error {Out} b r st (o : Out) : b = false -> check b r st o = Error r st o.
Proof. intros ->. reflexivity. Qed.

Lemma allocate_next {Out} mk parent p a rest st (o : Out) :
  free_list st = a :: rest -> a <> 0 -> heap st !! a = None ->
  heap st !! parent = Some p ->
  OXR_ALLOCATE_HANDLE_OR_RETURN mk parent st o
  = Next a {| inst := inst st;
              heap := <[a := mk (live_base parent [])]>
                        (<[parent := with_handle p
                                       (with_children (handle_of p)
                                          (hb_children (handle_of p) ++ [a]))]> (heap st));
              free_list := rest |} o.
Proof.
  intros Hf Ha Hn Hp. unfold OXR_ALLOCATE_HANDLE_OR_RETURN, bind, get_state.
  rewrite Hf, Hn, Hp. rewrite bool_decide_false by assumption. reflexivity.
Qed.

(** One step of a run whose outcome is known. *)
Ltac step H := rewrite (bind_next _ _ _ _ _ _ _ H).

(** ** The search for a refresh rate *)

Lemma find_refresh_rate_spec n :
  forall i rate rates q,
    centi_hertz rate = Some q ->
    (i + n <= length rates)%nat ->
    (forall j r, (i <= j < i + n)%nat -> rates !! j = Some r -> centi_hertz r <> None) ->
    exists b,
      find_refresh_rate n i rate rates = Some b /\
      (b = true <->
       exists j r, (i <= j < i + n)%nat /\ rates !! j = Some r /\ centi_hertz r = Some q).
Proof.
  induction n as [|n IH]; intros i rate rates q Hq Hlen Hok.
  - exists false. split; [reflexivity|]. split; [discriminate|].
    intros (j & r & Hj & _). lia.
  - simpl. destruct (rates !! i) as [r|] eqn:Hr.
    2: { apply lookup_ge_None in Hr. lia. }
    fold (centi_hertz rate). fold (centi_hertz r). rewrite Hq.
    destruct (centi_hertz r) as [b|] eqn:Hb.
    2: { exfalso. apply (Hok i r); [lia | assumption | assumption]. }
    destruct (q =? b) eqn:Hqb.
    + exists true. split; [reflexivity|]. split; [|reflexivity]. intros _.
      apply Z.eqb_eq in Hqb. subst b. exists i, r. repeat split; [lia | lia | assumption | assumption].
    + destruct (IH (S i) rate rates q Hq) as (b' & Hf & Hiff).
      * lia.
      * intros j r' Hj. apply Hok. lia.
      * exists b'. split; [exact Hf|]. rewrite Hiff. split.
        -- intros (j & r' & Hj & Hl & Hc). exists j, r'. repeat split; [lia | lia | assumption | assumption].
        -- intros (j & r' & Hj & Hl & Hc).
           destruct (decide (j = i)) as [->|Hne].
           ++ rewrite Hr in Hl. injection Hl as <-. rewrite Hb in Hc.
              injection Hc as <-. rewrite Z.eqb_refl in Hqb. discriminate.
           ++ exists j, r'. repeat split; [lia | lia | assumption | assumption].
Qed.

(** The literals are the floats nearest to 59.999 and 59.94: they are
    within half a unit in the last place (2^-19) of the decimal. *)
Lemma literal_59_999 :
  F32.of_ratio 59999 1000 = S754_finite false 15728378 (-18) /\
  2 * Z.abs (1000 * 15728378 - 59999 * 2 ^ 18) <= 1000.
Proof. split; [reflexivity | vm_compute; discriminate]. Qed.

Lemma literal_59_94 :
  F32.of_ratio 5994 100 = S754_finite false 15712911 (-18) /\
  2 * Z.abs (100 * 15712911 - 5994 * 2 ^ 18) <= 100.
Proof. split; [reflexivity | vm_compute; discriminate]. Qed.

(** ** The loop that clears the location flags *)

Lemma updated_range_length {A} (f : A -> A) n : forall i a,
  length (updated_range f i n a) = length a.
Proof.
  induction n as [|n IH]; intros i a; simpl; [reflexivity|].
  destruct (a !! i); [|reflexivity]. rewrite IH. apply length_insert.
Qed.

Lemma updated_range_outside {A} (f : A -> A) n : forall i a k,
  (k < i \/ i + n <= k)%nat -> updated_range f i n a !! k = a !! k.
Proof.
  induction n as [|n IH]; intros i a k Hk; simpl; [reflexivity|].
  destruct (a !! i) as [x|]; [|reflexivity].
  rewrite IH by lia. apply list_lookup_insert_ne. lia.
Qed.

Lemma updated_range_inside {A} (f : A -> A) n : forall i a k,
  (i + n <= length a)%nat -> (i <= k < i + n)%nat ->
  updated_range f i n a !! k = f <$> a !! k.
Proof.
  induction n as [|n IH]; intros i a k Hlen Hk; simpl; [lia|].
  destruct (a !! i) as [x|] eqn:Hx.
  2: { apply lookup_ge_None in Hx. lia. }
  destruct (decide (k = i)) as [->|Hne].
  - rewrite updated_range_outside by lia.
    rewrite list_lookup_insert_eq by (apply lookup_lt_Some in Hx; exact Hx).
    rewrite Hx. reflexivity.
  - rewrite IH; [|rewrite length_insert; lia|lia].
    rewrite list_lookup_insert_ne by lia. reflexivity.
Qed.

Lemma update_body_joint_loop f n : forall i js l st,
  bjl_jointLocations l = Some js ->
  (i + n <= length js)%nat ->
  for_each i n (fun j => update_body_joint j f) st (Some l)
  = Next tt st (Some (set_bjl_jointLocations (updated_range f i n js) l)).
Proof.
  induction n as [|n IH]; intros i js l st Hjs Hlen; simpl.
  - unfold ret. destruct l. simpl in Hjs. subst. reflexivity.
  - destruct (js !! i) as [x|] eqn:Hx.
    2: { apply lookup_ge_None in Hx. lia. }
    unfold bind at 1. unfold update_body_joint at 1.
    unfold bind, get_out, deref, put_out, ret, update_at. rewrite Hjs, Hx.
    fold (@bind (option XrBodyJointLocationsFB) unit unit).
    change (for_each (S i) n (fun j => update_body_joint j f) st
              (Some (set_bjl_jointLocations (<[i:=f x]> js) l))
            = Next () st (Some (set_bjl_jointLocations
                                  (updated_range f (S i) n (<[i:=f x]> js)) l))).
    rewrite (IH (S i) (<[i:=f x]> js) (set_bjl_jointLocations (<[i:=f x]> js) l) st);
      [reflexivity | reflexivity | rewrite length_insert; lia].
Qed.

(** * The claims *)

(** C1 (amended).  On a live handle of a session in the Lost state (the
    session itself or one of its trackers), every entrypoint that tests for
    session loss right after its handle check fails with
    [XR_ERROR_SESSION_LOST] whatever its other arguments are, and leaves
    state and outputs as they were.  The four destroy operations, of the
    session and of the three kinds of tracker, make no such test: they
    return [XR_SUCCESS] (the session destroy for a session that is on the
    instance's list).  [xrApplyForceFeedbackCurlMNDX],
    [xrLocateBodyJointsFB] and [xrGetFacialExpressionsHTC] are left out. *)
Theorem lost_session_rejects_calls `{B : oxr_backend} `{L : oxr_limits} {Out}
    (e : entrypoint Out) (st : oxr_state) (out : Out) :
  on_lost_session st e ->
  (checks_loss_first e = true ->
   exec e st out = Error XR_ERROR_SESSION_LOST st out) /\
  (is_destroy e = true ->
   (fst (primary_handle e) = KSession ->
    In (snd (primary_handle e)) (sessions (inst st))) ->
   exists st', exec e st out = Next XR_SUCCESS st' out).
Proof.
  intros (sess & s & Ho & Hh & Hl).
  destruct e; simpl in Ho; simpl; (split; [intros Hc | intros Hd Hin]);
    try discriminate;
    try (destruct (owner_session_of_session _ _ _ _ Ho Hh) as [-> Hs];
         first [ apply (lost_session_prefix _ _ _ _ _ Hs Hl)
               | destruct out;
                 exact (destroy_session_next _ _ _ Hs (Hin eq_refl)) ]).
  - destruct (owner_session_of_hand_tracker _ _ _ Ho) as (t & (? & Ht & ?) & <-).
    destruct out. unfold oxr_xrDestroyHandTrackerEXT.
    erewrite bind_next by (eapply verify_hand_tracker_next; repeat split; eauto).
    eapply oxr_handle_destroy_next; eauto.
  - destruct (owner_session_of_hand_tracker _ _ _ Ho) as (t & Ht & <-).
    apply (lost_hand_tracker_prefix _ _ _ _ _ _ Ht Hh Hl).
  - destruct (owner_session_of_facial_tracker _ _ _ Ho) as (t & (? & Ht & ?) & <-).
    destruct out. unfold oxr_xrDestroyFacialTrackerHTC.
    erewrite bind_next by (eapply verify_facial_tracker_next; repeat split; eauto).
    eapply oxr_handle_destroy_next; eauto.
  - destruct (owner_session_of_body_tracker _ _ _ Ho) as (t & (? & Ht & ?) & <-).
    destruct out. unfold oxr_xrDestroyBodyTrackerFB.
    erewrite bind_next by (eapply verify_body_tracker_next; repeat split; eauto).
    eapply oxr_handle_destroy_next; eauto.
  - destruct (owner_session_of_body_tracker _ _ _ Ho) as (t & Ht & <-).
    apply (lost_body_tracker_prefix _ _ _ _ _ _ Ht Hh Hl).
  - destruct (owner_session_of_body_tracker _ _ _ Ho) as (t & Ht & <-).
    apply (lost_body_tracker_prefix _ _ _ _ _ _ Ht Hh Hl).
Qed.

(** C1, witness: locating hand joints through tracker 2 of the lost
    session 1, with a NULL locate info. *)
Lemma lost_session_rejects_calls_witness :
  on_lost_session lost_state (xrLocateHandJointsEXT 2 None) /\
  @exec sample_backend openxr_limits _ (xrLocateHandJointsEXT 2 None) lost_state None
  = Error XR_ERROR_SESSION_LOST lost_state None.
Proof.
  assert (H : on_lost_session lost_state (xrLocateHandJointsEXT 2 None)).
  { exists 1, (sample_session XR_SESSION_STATE_LOST true).
    split; [reflexivity | split; reflexivity]. }
  split; [exact H|].
  apply (proj1 (@lost_session_rejects_calls sample_backend openxr_limits _
                  (xrLocateHandJointsEXT 2 None) lost_state None H)).
  reflexivity.
Defined.

(** C1, counterexample: destroying the hand tracker 2 of the lost session
    1 does not fail with [XR_ERROR_SESSION_LOST]; it succeeds, although the
    call is not the session destroy. *)
Lemma tracker_destroy_ignores_session_loss :
  on_lost_session lost_state (xrDestroyHandTrackerEXT 2) /\
  returned (@exec sample_backend openxr_limits _ (xrDestroyHandTrackerEXT 2) lost_state tt)
  = Some XR_SUCCESS.
Proof.
  split.
  - exists 1, (sample_session XR_SESSION_STATE_LOST true).
    split; [reflexivity | split; reflexivity].
  - vm_compute. reflexivity.
Qed.

(** C2 (amended).  A hand-tracker creation on a live session that is not
    lost, with the extension enabled and a valid hand, fails with
    [XR_ERROR_FEATURE_UNSUPPORTED] and creates nothing when the system
    reports no hand-tracking support.  When the system does report it and
    the role of the requested hand has no device, or one without
    hand-tracking support, the call succeeds as soon as the allocation
    does: the new tracker is live, belongs to the session and refers to no
    device. *)
Theorem hand_tracker_creation_needs_system_support `{B : oxr_backend}
    (st : oxr_state) (session : Z) (s : oxr_session)
    (createInfo : XrHandTrackerCreateInfoEXT) (slot : Z) :
  live_session st session s ->
  is_lost s = false ->
  htci_type createInfo = XR_TYPE_HAND_TRACKER_CREATE_INFO_EXT ->
  extensions (inst st) EXT_hand_tracking = true ->
  hand createInfo = XR_HAND_LEFT_EXT \/ hand createInfo = XR_HAND_RIGHT_EXT ->
  (oxr_system_get_hand_tracking_support (inst st) = false ->
   oxr_xrCreateHandTrackerEXT session (Some createInfo) st (Some slot)
   = Error XR_ERROR_FEATURE_UNSUPPORTED st (Some slot)) /\
  (oxr_system_get_hand_tracking_support (inst st) = true ->
   supports_hand (hand_role (system (inst st)) (hand createInfo)) = false ->
   forall a rest,
     free_list st = a :: rest -> a <> 0 -> heap st !! a = None ->
     exists st',
       oxr_xrCreateHandTrackerEXT session (Some createInfo) st (Some slot)
       = Next XR_SUCCESS st' (Some a) /\
       heap st' !! a
       = Some (ObjHandTracker
                 {| ht_handle := live_base session []; ht_sess := session;
                    ht_xdev := None; ht_input_name := XRT_INPUT_OTHER 0;
                    ht_hand := hand createInfo;
                    ht_hand_joint_set := handJointSet createInfo |})).
Proof.
  intros Hs Hl Hty Hext Hhand.
  assert (Hpre : forall k : M (option Z) XrResult,
             (do _ <- check (match hand createInfo with
                             | XR_HAND_OTHER _ => false | _ => true end)
                       XR_ERROR_VALIDATION_FAILURE; k) st (Some slot)
             = k st (Some slot)).
  { intros k. destruct Hhand as [-> | ->]; reflexivity. }
  pose proof Hs as (_ & Hh & _).
  assert (Hrun : forall k : XrHandTrackerCreateInfoEXT -> Z -> M (option Z) XrResult,
             (do sess <- OXR_VERIFY_SESSION_AND_INIT_LOG session;
              do _ <- OXR_VERIFY_SESSION_NOT_LOST sess;
              do ci <- OXR_VERIFY_ARG_TYPE_AND_NOT_NULL (Some createInfo) htci_type
                         XR_TYPE_HAND_TRACKER_CREATE_INFO_EXT;
              do handTracker <- get_out;
              do _ <- OXR_VERIFY_ARG_NOT_NULL handTracker;
              do _ <- OXR_VERIFY_EXTENSION EXT_hand_tracking;
              k ci sess) st (Some slot)
             = k createInfo session st (Some slot)).
  { intros k. rewrite (live_session_prefix _ _ _ _ _ Hs Hl).
    rewrite (bind_next _ _ _ _ _ _ _ (arg_type_next _ _ _ _ _ Hty)).
    unfold bind at 1. unfold get_out.
    rewrite (bind_next _ _ _ _ _ _ _ (arg_not_null_next _ _ _)).
    rewrite (bind_next _ _ _ _ _ _ _ (extension_next _ _ _ Hext)). reflexivity. }
  unfold oxr_xrCreateHandTrackerEXT.
  rewrite (Hrun (fun ci sess =>
                   do _ <- check (match hand ci with
                                  | XR_HAND_OTHER _ => false | _ => true end)
                             XR_ERROR_VALIDATION_FAILURE;
                   do hand_tracker <- oxr_hand_tracker_create sess ci;
                   do _ <- put_out (Some (to_openxr hand_tracker)); ret XR_SUCCESS)).
  rewrite Hpre. clear Hpre Hrun.
  unfold oxr_hand_tracker_create. split.
  - intros Hsup. unfold bind, get_state. rewrite Hsup. reflexivity.
  - intros Hsup Hdev a rest Hf Ha Hn.
    unfold bind at 1. unfold bind at 1. unfold get_state.
    unfold bind at 1. rewrite Hsup. cbn [check ret].
    unfold bind at 1.
    rewrite (allocate_next hand_tracker0 session (ObjSession s) a rest st _ Hf Ha Hn Hh).
    unfold bind at 1.
    erewrite deref_hand_tracker_next by (cbn [heap]; apply lookup_insert_eq).
    assert (Hfound :
              match
                match hand createInfo with
                | XR_HAND_LEFT_EXT => GET_XDEV_BY_ROLE (system (inst st)) hand_tracking_left
                | XR_HAND_RIGHT_EXT => GET_XDEV_BY_ROLE (system (inst st)) hand_tracking_right
                | XR_HAND_OTHER _ => None
                end
              with
              | Some d =>
                  if hand_tracking_supported d
                  then match List.find (hand_input_matches (hand createInfo)) (inputs d) with
                       | Some name => Some (d, name)
                       | None => None
                       end
                  else None
              | None => None
              end = None).
    { unfold hand_role, supports_hand in Hdev.
      destruct (match hand createInfo with
                | XR_HAND_LEFT_EXT => _ | XR_HAND_RIGHT_EXT => _ | XR_HAND_OTHER _ => _
                end) as [d|]; [|reflexivity].
      rewrite Hdev. reflexivity. }
    rewrite Hfound. cbn [ht_handle ht_xdev ht_input_name hand_tracker0].
    eexists. split; [reflexivity|].
    cbn. apply lookup_insert_eq.
Qed.

(** C2, witness: a left-hand tracker on a system that serves the right
    hand only. *)
Lemma hand_tracker_creation_needs_system_support_witness :
  exists st',
    @oxr_xrCreateHandTrackerEXT sample_backend 1 (Some left_hand_info)
      right_hand_only_state (Some 0)
    = Next XR_SUCCESS st' (Some 16) /\
    heap st' !! 16
    = Some (ObjHandTracker
              {| ht_handle := live_base 1 []; ht_sess := 1;
                 ht_xdev := None; ht_input_name := XRT_INPUT_OTHER 0;
                 ht_hand := XR_HAND_LEFT_EXT;
                 ht_hand_joint_set := XR_HAND_JOINT_SET_DEFAULT_EXT |}).
Proof.
  refine (proj2 (@hand_tracker_creation_needs_system_support sample_backend
                   right_hand_only_state 1 (sample_session XR_SESSION_STATE_FOCUSED true)
                   left_hand_info 0 _ _ _ _ _) _ _ 16 [17] _ _ _).
  - split; [lia | split; reflexivity].
  - reflexivity.
  - reflexivity.
  - reflexivity.
  - left. reflexivity.
  - reflexivity.
  - reflexivity.
  - reflexivity.
  - lia.
  - reflexivity.
Defined.

(** C2, counterexample: no device is bound to the left-hand role, yet the
    creation of a left-hand tracker returns [XR_SUCCESS] and a tracker
    handle is created (at address 16). *)
Lemma hand_tracker_created_without_a_device :
  GET_XDEV_BY_ROLE (system (inst right_hand_only_state)) hand_tracking_left = None /\
  match @oxr_xrCreateHandTrackerEXT sample_backend 1 (Some left_hand_info)
          right_hand_only_state (Some 0) with
  | Next r st' out =>
      r = XR_SUCCESS /\ out = Some 16 /\
      heap st' !! 16
      = Some (ObjHandTracker
                {| ht_handle := live_base 1 []; ht_sess := 1;
                   ht_xdev := None; ht_input_name := XRT_INPUT_OTHER 0;
                   ht_hand := XR_HAND_LEFT_EXT;
                   ht_hand_joint_set := XR_HAND_JOINT_SET_DEFAULT_EXT |})
  | _ => False
  end.
Proof. split; [reflexivity|]. vm_compute. repeat split. Qed.

(** On a headless system the enumeration reports no rate and the query
    reports 0, both with success. *)
Lemma headless_enumerate_reports_no_rate `{B : oxr_backend}
    (st : oxr_state) (session : Z) (s : oxr_session) (capacity count : Z)
    (rates : option (list F32.float)) :
  live_session st session s -> is_lost s = false ->
  xsysc (system (inst st)) = None ->
  oxr_xrEnumerateDisplayRefreshRatesFB session capacity st (Some count, rates)
  = Next XR_SUCCESS st (Some 0, rates).
Proof.
  intros Hs Hl Hx. unfold oxr_xrEnumerateDisplayRefreshRatesFB.
  rewrite (live_session_prefix _ _ _ _ _ Hs Hl).
  unfold bind, get_state. rewrite Hx. reflexivity.
Qed.

Lemma headless_get_reports_zero `{B : oxr_backend}
    (st : oxr_state) (session : Z) (s : oxr_session) (rate : F32.float) :
  live_session st session s -> is_lost s = false ->
  xsysc (system (inst st)) = None ->
  oxr_xrGetDisplayRefreshRateFB session st (Some rate)
  = Next XR_SUCCESS st (Some F32.zero).
Proof.
  intros Hs Hl Hx. unfold oxr_xrGetDisplayRefreshRateFB.
  rewrite (live_session_prefix _ _ _ _ _ Hs Hl).
  unfold bind, get_state. rewrite Hx. reflexivity.
Qed.

(** C3.  On a headless system the request for a refresh rate other than
    0 reads the rate list through the NULL compositor pointer: the call has
    no defined behaviour, where the claim asks for a success.  (The
    enumeration and the query are guarded, see the two lemmas above.) *)
Theorem headless_refresh_rate_request_is_undefined `{B : oxr_backend}
    (st : oxr_state) (session : Z) (s : oxr_session) (displayRefreshRate : F32.float) :
  live_session st session s ->
  is_lost s = false ->
  xsysc (system (inst st)) = None ->
  F32.is_zero displayRefreshRate = false ->
  oxr_xrRequestDisplayRefreshRateFB session displayRefreshRate st tt = Undefined.
Proof.
  intros Hs Hl Hx Hz. unfold oxr_xrRequestDisplayRefreshRateFB.
  rewrite (live_session_prefix _ _ _ _ _ Hs Hl), Hz.
  unfold bind, get_state. rewrite Hx. reflexivity.
Qed.

(** C3, the failing input: requesting 90 Hz on a headless system. *)
Lemma headless_refresh_rate_request_is_undefined_witness :
  @oxr_xrRequestDisplayRefreshRateFB sample_backend 1 (F32.of_Z 90) headless_state tt
  = Undefined.
Proof.
  apply (@headless_refresh_rate_request_is_undefined sample_backend headless_state 1
           (sample_session XR_SESSION_STATE_FOCUSED true) (F32.of_Z 90)).
  - split; [lia | split; reflexivity].
  - reflexivity.
  - reflexivity.
  - reflexivity.
Defined.

(** C4 (amended).  A request for a rate other than 0, on a session that is
    not lost and whose system has a compositor, is passed on to the session
    exactly when [(int)(rate * 100.0f)] equals [(int)(r * 100.0f)] for one
    of the first [refresh_rate_count] supported rates [r], and fails with
    [XR_ERROR_DISPLAY_REFRESH_RATE_UNSUPPORTED_FB] otherwise.  With 60.00 as
    the only supported rate, requests for 59.999 (5999 against 6000) and
    for 59.94 both fail with that error, and a request for 60.004 is
    passed on. *)
Theorem refresh_rate_request_compares_truncations `{B : oxr_backend} :
  (forall (st : oxr_state) (session : Z) (s : oxr_session)
          (info : xrt_system_compositor_info) (displayRefreshRate : F32.float) (q : Z),
     let n := Z.to_nat (int_of_uint32 (refresh_rate_count info)) in
     live_session st session s ->
     is_lost s = false ->
     xsysc (system (inst st)) = Some info ->
     F32.is_zero displayRefreshRate = false ->
     (n <= length (refresh_rates_hz info))%nat ->
     centi_hertz displayRefreshRate = Some q ->
     (forall j r, (j < n)%nat -> refresh_rates_hz info !! j = Some r ->
                  centi_hertz r <> None) ->
     (rate_listed n (refresh_rates_hz info) q ->
      oxr_xrRequestDisplayRefreshRateFB session displayRefreshRate st tt
      = call (oxr_session_request_display_refresh_rate session displayRefreshRate) st tt) /\
     (~ rate_listed n (refresh_rates_hz info) q ->
      oxr_xrRequestDisplayRefreshRateFB session displayRefreshRate st tt
      = Error XR_ERROR_DISPLAY_REFRESH_RATE_UNSUPPORTED_FB st tt)) /\
  oxr_xrRequestDisplayRefreshRateFB 1 (F32.of_ratio 59999 1000) focused_state tt
  = Error XR_ERROR_DISPLAY_REFRESH_RATE_UNSUPPORTED_FB focused_state tt /\
  oxr_xrRequestDisplayRefreshRateFB 1 (F32.of_ratio 5994 100) focused_state tt
  = Error XR_ERROR_DISPLAY_REFRESH_RATE_UNSUPPORTED_FB focused_state tt /\
  oxr_xrRequestDisplayRefreshRateFB 1 (F32.of_ratio 60004 1000) focused_state tt
  = call (oxr_session_request_display_refresh_rate 1 (F32.of_ratio 60004 1000))
      focused_state tt.
Proof.
  split; [|repeat split; reflexivity].
  intros st session s info rate q n Hs Hl Hx Hz Hlen Hq Hok.
  destruct (find_refresh_rate_spec n 0 rate (refresh_rates_hz info) q Hq)
    as (b & Hf & Hiff).
  { simpl. exact Hlen. }
  { intros j r Hj. apply Hok. lia. }
  assert (Hb : b = true <-> rate_listed n (refresh_rates_hz info) q).
  { rewrite Hiff. unfold rate_listed. split; intros (j & r & Hj & Hr);
      exists j, r; (split; [lia | exact Hr]). }
  assert (Hrun : oxr_xrRequestDisplayRefreshRateFB session rate st tt
                 = if negb b then Error XR_ERROR_DISPLAY_REFRESH_RATE_UNSUPPORTED_FB st tt
                   else call (oxr_session_request_display_refresh_rate session rate) st tt).
  { unfold oxr_xrRequestDisplayRefreshRateFB.
    rewrite (live_session_prefix _ _ _ _ _ Hs Hl), Hz.
    unfold bind, get_state. rewrite Hx. cbn [deref ret].
    fold n. rewrite Hf. cbn [deref ret]. destruct b; reflexivity. }
  rewrite Hrun. split.
  - intros Hlisted. apply Hb in Hlisted. subst b. reflexivity.
  - intros Hno. destruct b; [|reflexivity]. exfalso. apply Hno, Hb. reflexivity.
Qed.

(** C4, witness: 60.004 against the supported 60.00. *)
Lemma refresh_rate_request_compares_truncations_witness :
  @oxr_xrRequestDisplayRefreshRateFB sample_backend 1 (F32.of_ratio 60004 1000)
    focused_state tt
  = call (@oxr_session_request_display_refresh_rate sample_backend 1
            (F32.of_ratio 60004 1000)) focused_state tt.
Proof.
  refine (proj1 (proj1 (@refresh_rate_request_compares_truncations sample_backend)
                   focused_state 1 (sample_session XR_SESSION_STATE_FOCUSED true)
                   compositor_60 (F32.of_ratio 60004 1000) 6000 _ _ _ _ _ _ _) _).
  - split; [lia | split; reflexivity].
  - reflexivity.
  - reflexivity.
  - reflexivity.
  - vm_compute. lia.
  - reflexivity.
  - intros [|j] r Hj Hr; [|vm_compute in Hj; lia].
    injection Hr as <-. discriminate.
  - exists 0%nat, (F32.of_Z 60). split; [vm_compute; lia | split; reflexivity].
Defined.

(** C4, counterexample: 59.999 truncates to 5999 hundredths and 60.00 to
    6000, so the request fails where the claim says it succeeds. *)
Lemma request_59_999_is_rejected :
  centi_hertz (F32.of_ratio 59999 1000) = Some 5999 /\
  centi_hertz (F32.of_Z 60) = Some 6000 /\
  @oxr_xrRequestDisplayRefreshRateFB sample_backend 1 (F32.of_ratio 59999 1000)
    focused_state tt
  = Error XR_ERROR_DISPLAY_REFRESH_RATE_UNSUPPORTED_FB focused_state tt.
Proof. repeat split; reflexivity. Qed.

(** C5.  On a live session that is not lost, in any life-cycle state and
    whether the system has a compositor or not, a request for a refresh
    rate of 0 (either sign of zero) returns [XR_SUCCESS] and changes
    nothing. *)
Theorem zero_refresh_rate_request_succeeds `{B : oxr_backend}
    (st : oxr_state) (session : Z) (s : oxr_session) (displayRefreshRate : F32.float) :
  live_session st session s ->
  is_lost s = false ->
  F32.is_zero displayRefreshRate = true ->
  oxr_xrRequestDisplayRefreshRateFB session displayRefreshRate st tt
  = Next XR_SUCCESS st tt.
Proof.
  intros Hs Hl Hz. unfold oxr_xrRequestDisplayRefreshRateFB.
  rewrite (live_session_prefix _ _ _ _ _ Hs Hl), Hz. reflexivity.
Qed.

(** C5, witness: an idle session on a headless system. *)
Lemma zero_refresh_rate_request_succeeds_witness :
  @oxr_xrRequestDisplayRefreshRateFB sample_backend 1 F32.zero
    (sample_state headless_system XR_SESSION_STATE_IDLE false) tt
  = Next XR_SUCCESS (sample_state headless_system XR_SESSION_STATE_IDLE false) tt.
Proof.
  apply (@zero_refresh_rate_request_succeeds sample_backend _ 1
           (sample_session XR_SESSION_STATE_IDLE false)).
  - split; [lia | split; reflexivity].
  - reflexivity.
  - reflexivity.
Defined.

(** C6.  When [xrBeginSession] has succeeded on a session, a second call
    with a well-typed begin info and a valid view-configuration type fails
    with [XR_ERROR_SESSION_RUNNING] and leaves the state as the first call
    left it. *)
Theorem begin_session_twice_is_rejected `{B : oxr_backend}
    (st st1 : oxr_state) (session : Z) (beginInfo beginInfo' : XrSessionBeginInfo) :
  oxr_xrBeginSession session (Some beginInfo) st tt = Next XR_SUCCESS st1 tt ->
  sbi_type beginInfo' = XR_TYPE_SESSION_BEGIN_INFO ->
  oxr_verify_view_config_type (inst st1) (primaryViewConfigurationType beginInfo')
  = XR_SUCCESS ->
  oxr_xrBeginSession session (Some beginInfo') st1 tt
  = Error XR_ERROR_SESSION_RUNNING st1 tt.
Proof.
  intros H1 Hty Hvc. unfold oxr_xrBeginSession in H1.
  apply quiet_bind_inv in H1 as (sess & Hv & H1); [|auto with oxr].
  apply verify_session_inv in Hv as (-> & s & Hs).
  apply quiet_bind_inv in H1 as (? & Hnl & H1); [|auto with oxr].
  apply not_lost_inv in Hnl as (s' & Hs' & Hl).
  pose proof Hs as (Hnz & Hh & Hlive). rewrite Hh in Hs'. injection Hs' as <-.
  apply quiet_bind_inv in H1 as (bi & _ & H1); [|auto with oxr].
  apply quiet_bind_inv in H1 as (? & _ & H1); [|auto with oxr].
  apply quiet_bind_inv in H1 as (s2 & Hd & H1); [|auto with oxr].
  apply deref_session_inv in Hd. rewrite Hh in Hd. injection Hd as <-.
  destruct (has_begun s) eqn:Hb; [discriminate|].
  unfold oxr_session_begin, bind, get_state in H1.
  rewrite (deref_session_next _ _ _ _ Hh) in H1.
  case_bool_decide; [|discriminate].
  unfold store, bind, get_state, put_state, ret in H1. injection H1 as <-.
  set (s1 := set_has_begun s true).
  set (st1 := set_heap st (<[session := ObjSession s1]> (heap st))).
  assert (Hh1 : heap st1 !! session = Some (ObjSession s1)) by apply lookup_insert_eq.
  assert (Hs1 : live_session st1 session s1) by (repeat split; assumption).
  unfold oxr_xrBeginSession.
  rewrite (live_session_prefix _ _ _ _ _ Hs1 Hl).
  rewrite (bind_next _ _ _ _ _ _ _ (arg_type_next _ _ _ _ _ Hty)).
  unfold OXR_VERIFY_VIEW_CONFIG_TYPE.
  unfold bind at 1. unfold bind at 1. unfold get_state.
  fold s1 in Hvc. fold st1 in Hvc. rewrite Hvc. simpl.
  rewrite (bind_next _ _ _ _ _ _ _ (deref_session_next _ _ _ _ Hh1)).
  reflexivity.
Qed.

(** C6, witness: two calls in a row on the ready session 1. *)
Lemma begin_session_twice_is_rejected_witness :
  @oxr_xrBeginSession sample_backend 1 (Some stereo_begin_info) ready_state tt
  = Next XR_SUCCESS running_state tt /\
  @oxr_xrBeginSession sample_backend 1 (Some stereo_begin_info) running_state tt
  = Error XR_ERROR_SESSION_RUNNING running_state tt.
Proof.
  assert (H : @oxr_xrBeginSession sample_backend 1 (Some stereo_begin_info) ready_state tt
              = Next XR_SUCCESS running_state tt) by (vm_compute; reflexivity).
  split; [exact H|].
  apply (@begin_session_twice_is_rejected sample_backend ready_state running_state 1
           stereo_begin_info stereo_begin_info H); reflexivity.
Defined.

(** C7 (defect of the code).  [xrGetVisibilityMaskKHR] writes to the
    caller's structure before it has validated its arguments.  On a live
    session that is not lost, with the extension enabled, every call that
    fails one of the later checks returns with [vertexCountOutput] and
    [indexCountOutput] of the caller's mask set to 0, the runtime state as
    before; and the call does fail, with the counts zeroed, whenever the
    view configuration type is refused or is not the system's. *)
Theorem failed_visibility_mask_query_has_zeroed_the_counts `{B : oxr_backend}
    (st : oxr_state) (session : Z) (s : oxr_session)
    (viewConfigurationType : XrViewConfigurationType) (viewIndex : Z)
    (visibilityMaskType : XrVisibilityMaskTypeKHR) (m : XrVisibilityMaskKHR) :
  let call :=
    oxr_xrGetVisibilityMaskKHR session viewConfigurationType viewIndex visibilityMaskType in
  let ret0 := oxr_verify_view_config_type (inst st) viewConfigurationType in
  live_session st session s ->
  is_lost s = false ->
  extensions (inst st) KHR_visibility_mask = true ->
  (forall r st' out',
     call st (Some m) = Error r st' out' ->
     st' = st /\ out' = Some (zero_counts m)) /\
  (ret0 <> XR_SUCCESS \/
   viewConfigurationType <> view_config_type (system (inst st)) ->
   call st (Some m)
   = Error (if bool_decide (ret0 = XR_SUCCESS)
            then XR_ERROR_VIEW_CONFIGURATION_TYPE_UNSUPPORTED else ret0)
       st (Some (zero_counts m))).
Proof.
  intros call ret0 Hs Hl Hx. subst call ret0. split.
  - intros r st' out' H. unfold oxr_xrGetVisibilityMaskKHR in H.
    rewrite (live_session_prefix _ _ _ _ _ Hs Hl) in H.
    rewrite (bind_next _ _ _ _ _ _ _ (extension_next _ _ (Some m) Hx)) in H.
    unfold bind at 1 in H. unfold get_out in H.
    unfold bind at 1 in H. cbn [deref ret] in H.
    unfold bind at 1 in H. unfold put_out in H.
    match type of H with
    | ?k st _ = _ => assert (Hc : clean k) by disciplined
    end.
    specialize (Hc st (Some (zero_counts m))). rewrite H in Hc. exact Hc.
  - intros Hbad. unfold oxr_xrGetVisibilityMaskKHR.
    rewrite (live_session_prefix _ _ _ _ _ Hs Hl).
    step (extension_next _ _ (Some m) Hx).
    unfold bind at 1. unfold get_out.
    unfold bind at 1. cbn [deref ret].
    unfold bind at 1. unfold put_out.
    unfold OXR_VERIFY_VIEW_CONFIG_TYPE.
    unfold bind at 1. unfold bind at 1. unfold get_state.
    case_bool_decide as Hr0.
    + rewrite Hr0. change (is_success XR_SUCCESS) with true. cbn [ret negb].
      unfold bind at 1. unfold get_state.
      apply bind_error, check_error, bool_decide_eq_false_2.
      destruct Hbad as [Hbad | Hbad]; [contradiction | exact Hbad].
    + unfold is_success. rewrite bool_decide_false by exact Hr0. reflexivity.
Qed.

(** C7, witness: the mono configuration on the stereo system of the
    sample; the vertex count 5 of the caller's mask comes back as 0. *)
Lemma failed_visibility_mask_query_has_zeroed_the_counts_witness :
  @oxr_xrGetVisibilityMaskKHR sample_backend 1 XR_VIEW_CONFIGURATION_TYPE_PRIMARY_MONO 0
    XR_VISIBILITY_MASK_TYPE_LINE_LOOP_KHR ready_state (Some sample_mask)
  = Error XR_ERROR_VIEW_CONFIGURATION_TYPE_UNSUPPORTED ready_state
      (Some (zero_counts sample_mask)) /\
  vertexCountOutput sample_mask = 5 /\
  vertexCountOutput (zero_counts sample_mask) = 0.
Proof.
  split; [|split; reflexivity].
  refine (proj2 (@failed_visibility_mask_query_has_zeroed_the_counts sample_backend
                   ready_state 1 (sample_session XR_SESSION_STATE_READY false)
                   XR_VIEW_CONFIGURATION_TYPE_PRIMARY_MONO 0
                   XR_VISIBILITY_MASK_TYPE_LINE_LOOP_KHR sample_mask _ _ _) _).
  - split; [lia | split; reflexivity].
  - reflexivity.
  - reflexivity.
  - right. discriminate.
Defined.

(** C8 (amended).  Once the earlier checks of the call have passed, a
    hand-joint query (default joint set) or a body-joint query whose
    capacity is below the joint count of the tracker's variant fails with
    [XR_ERROR_VALIDATION_FAILURE] and writes nothing.  Nothing is said of
    [xrGetFacialExpressionsHTC], whose size check no call reaches. *)
Theorem undersized_tracker_query_is_rejected `{B : oxr_backend} `{L : oxr_limits}
    (st : oxr_state) (s : oxr_session) :
  is_lost s = false ->
  (forall handTracker t locateInfo locations,
     live_hand_tracker st handTracker t ->
     heap st !! ht_sess t = Some (ObjSession s) ->
     hjli_type locateInfo = XR_TYPE_HAND_JOINTS_LOCATE_INFO_EXT ->
     hjl_type locations = XR_TYPE_HAND_JOINT_LOCATIONS_EXT ->
     is_Some (hjl_jointLocations locations) ->
     live_space st (hjli_baseSpace locateInfo) ->
     0 < hjli_time locateInfo ->
     ht_hand_joint_set t = XR_HAND_JOINT_SET_DEFAULT_EXT ->
     hjl_jointCount locations < XR_HAND_JOINT_COUNT_EXT ->
     oxr_xrLocateHandJointsEXT handTracker (Some locateInfo) st (Some locations)
     = Error XR_ERROR_VALIDATION_FAILURE st (Some locations)) /\
  (forall bodyTracker t xdev locateInfo locations,
     live_body_tracker st bodyTracker t ->
     heap st !! bt_sess t = Some (ObjSession s) ->
     bt_xdev t = Some xdev ->
     body_tracking_supported xdev = true ->
     bjli_type locateInfo = XR_TYPE_BODY_JOINTS_LOCATE_INFO_FB ->
     bjl_type locations = XR_TYPE_BODY_JOINT_LOCATIONS_FB ->
     is_Some (bjl_jointLocations locations) ->
     live_space st (bjli_baseSpace locateInfo) ->
     bjl_jointCount locations < body_joint_count_of t ->
     oxr_xrLocateBodyJointsFB bodyTracker (Some locateInfo) st (Some locations)
     = Error XR_ERROR_VALIDATION_FAILURE st (Some locations)).
Proof.
  intros Hl. split.
  - intros h t li loc Ht Hs Hli Hloc Hjl Hsp Htime Hset Hcount.
    unfold oxr_xrLocateHandJointsEXT.
    step (verify_hand_tracker_next _ _ _ (Some loc) Ht).
    destruct Ht as (_ & Hh & _).
    step (deref_hand_tracker_next _ _ _ (Some loc) Hh).
    step (not_lost_next _ _ _ (Some loc) Hs Hl).
    step (arg_type_next li _ _ st (Some loc) Hli).
    unfold bind at 1. unfold get_out.
    step (arg_type_next loc _ _ st (Some loc) Hloc).
    step (arg_not_null_some _ st (Some loc) Hjl).
    step (verify_space_next _ _ (Some loc) Hsp).
    assert (Hpos : negb (hjli_time li <=? 0) = true)
      by (apply negb_true_iff, Z.leb_gt; exact Htime).
    step (check_next _ XR_ERROR_TIME_INVALID st (Some loc) Hpos).
    apply bind_error. rewrite Hset. cbn [is_default_joint_set].
    apply check_error, Z.eqb_neq. lia.
  - intros b t xdev li loc Ht Hs Hx Hsup Hli Hloc Hjl Hsp Hcount.
    unfold oxr_xrLocateBodyJointsFB.
    step (verify_body_tracker_next _ _ _ (Some loc) Ht).
    destruct Ht as (_ & Hh & _).
    step (arg_type_next li _ _ st (Some loc) Hli).
    unfold bind at 1. unfold get_out.
    step (arg_type_next loc _ _ st (Some loc) Hloc).
    step (deref_body_tracker_next _ _ _ (Some loc) Hh).
    step (not_lost_next _ _ _ (Some loc) Hs Hl).
    rewrite Hx.
    step (arg_not_null_some (Some xdev) st (Some loc) (ex_intro _ xdev eq_refl)).
    step (arg_not_null_some _ st (Some loc) Hjl).
    step (verify_space_next _ _ (Some loc) Hsp).
    cbn [supports_body]. rewrite Hsup.
    step (check_next true XR_ERROR_FUNCTION_UNSUPPORTED st (Some loc) eq_refl).
    apply bind_error. apply check_error, negb_false_iff, Z.ltb_lt. exact Hcount.
Qed.

(** C8, witness: room for 3 joints on the hand tracker 2, and 69 joints
    for the tracker 6 of the default body joint set. *)
Lemma undersized_tracker_query_is_rejected_witness :
  @oxr_xrLocateHandJointsEXT sample_backend openxr_limits 2 (Some hand_locate_info)
    headless_state (Some (hand_locations 3))
  = Error XR_ERROR_VALIDATION_FAILURE headless_state (Some (hand_locations 3)) /\
  @oxr_xrLocateBodyJointsFB sample_backend openxr_limits 6 (Some body_locate_info)
    headless_state (Some (body_locations 69))
  = Error XR_ERROR_VALIDATION_FAILURE headless_state (Some (body_locations 69)).
Proof.
  destruct (@undersized_tracker_query_is_rejected sample_backend openxr_limits
              headless_state (sample_session XR_SESSION_STATE_FOCUSED true) eq_refl)
    as [Hhand Hbody].
  split.
  - refine (Hhand 2 _ hand_locate_info (hand_locations 3) _ _ _ _ _ _ _ _ _).
    + split; [lia | split; reflexivity].
    + reflexivity.
    + reflexivity.
    + reflexivity.
    + eexists. reflexivity.
    + split; [simpl; lia | eexists; split; reflexivity].
    + vm_compute. reflexivity.
    + reflexivity.
    + vm_compute. reflexivity.
  - refine (Hbody 6 _ (sample_device false) body_locate_info (body_locations 69)
              _ _ _ _ _ _ _ _ _).
    + split; [lia | split; reflexivity].
    + reflexivity.
    + reflexivity.
    + reflexivity.
    + reflexivity.
    + reflexivity.
    + eexists. reflexivity.
    + split; [simpl; lia | eexists; split; reflexivity].
    + vm_compute. reflexivity.
Defined.

(** C8, counterexample: a hand-joint query with room for 3 joints fails
    with [XR_ERROR_VALIDATION_FAILURE], not with the size-insufficient
    error. *)
Lemma undersized_hand_query_fails_validation :
  hjl_jointCount (hand_locations 3) < @XR_HAND_JOINT_COUNT_EXT openxr_limits /\
  @exec sample_backend openxr_limits _ (xrLocateHandJointsEXT 2 (Some hand_locate_info))
    headless_state (Some (hand_locations 3))
  = Error XR_ERROR_VALIDATION_FAILURE headless_state (Some (hand_locations 3)) /\
  XR_ERROR_VALIDATION_FAILURE <> XR_ERROR_SIZE_INSUFFICIENT.
Proof. split; [reflexivity | split; [reflexivity | discriminate]]. Qed.

(** With the default joint set the inactive result clears the flags of
    all 70 joints. *)
Lemma inactive_default_body_query_clears_all_joints :
  match @oxr_xrLocateBodyJointsFB sample_backend openxr_limits 6 (Some body_locate_info)
          headless_state (Some (body_locations 70)) with
  | Next r st' (Some l) =>
      r = XR_SUCCESS /\ st' = headless_state /\ bjl_isActive l = false /\
      option_map (map locationFlags) (bjl_jointLocations l) = Some (repeat 0 70)
  | _ => False
  end.
Proof. vm_compute. repeat split. Qed.

(** C9.  When the device reports the body as not tracked, the query
    returns [XR_SUCCESS] with [isActive] false, and clears the location
    flags of the first [XRT_BODY_JOINT_COUNT_FB] joints only: every joint
    from that index on keeps the flags the caller's buffer had, also the
    joints of the full-body set, where the claim asks for all the joints of
    the tracker's variant to be cleared. *)
Theorem inactive_body_query_clears_default_joints_only `{B : oxr_backend} `{L : oxr_limits}
    (st : oxr_state) (bodyTracker : Z) (t : oxr_body_tracker_fb) (s : oxr_session)
    (xdev : xrt_device) (locateInfo : XrBodyJointsLocateInfoFB)
    (locations : XrBodyJointLocationsFB) (js : list XrBodyJointLocationFB)
    (body_joint_set_result : xrt_body_joint_set) (T_base_body : xrt_space_relation) :
  live_body_tracker st bodyTracker t ->
  heap st !! bt_sess t = Some (ObjSession s) ->
  is_lost s = false ->
  bt_xdev t = Some xdev ->
  body_tracking_supported xdev = true ->
  bjli_type locateInfo = XR_TYPE_BODY_JOINTS_LOCATE_INFO_FB ->
  bjl_type locations = XR_TYPE_BODY_JOINT_LOCATIONS_FB ->
  bjl_jointLocations locations = Some js ->
  live_space st (bjli_baseSpace locateInfo) ->
  body_joint_count_of t <= bjl_jointCount locations ->
  0 < bjli_time locateInfo ->
  get_body_joints xdev (body_input_name_of t)
    (time_state_ts_to_monotonic_ns (bjli_time locateInfo))
  = (XRT_SUCCESS, body_joint_set_result) ->
  is_active body_joint_set_result = false ->
  oxr_get_base_body_pose st body_joint_set_result (bjli_baseSpace locateInfo) xdev
    (bjli_time locateInfo)
  = (XR_SUCCESS, T_base_body) ->
  (Z.to_nat XRT_BODY_JOINT_COUNT_FB <= length js)%nat ->
  exists js',
    oxr_xrLocateBodyJointsFB bodyTracker (Some locateInfo) st (Some locations)
    = Next XR_SUCCESS st
        (Some (set_bjl_jointLocations js' (set_bjl_isActive false locations))) /\
    (forall k, (k < Z.to_nat XRT_BODY_JOINT_COUNT_FB)%nat ->
               js' !! k = set_locationFlags XRT_SPACE_RELATION_BITMASK_NONE <$> js !! k) /\
    (forall k, (Z.to_nat XRT_BODY_JOINT_COUNT_FB <= k)%nat -> js' !! k = js !! k).
Proof.
  intros Ht Hs Hl Hx Hsup Hli Hloc Hjs Hsp Hcount Htime Hget Hact Hpose Hlen.
  set (n := Z.to_nat XRT_BODY_JOINT_COUNT_FB) in *.
  exists (updated_range (set_locationFlags XRT_SPACE_RELATION_BITMASK_NONE) 0 n js).
  split; [|split].
  - unfold oxr_xrLocateBodyJointsFB.
    step (verify_body_tracker_next _ _ _ (Some locations) Ht).
    destruct Ht as (_ & Hh & _).
    step (arg_type_next locateInfo _ _ st (Some locations) Hli).
    unfold bind at 1. unfold get_out.
    step (arg_type_next locations _ _ st (Some locations) Hloc).
    step (deref_body_tracker_next _ _ _ (Some locations) Hh).
    step (not_lost_next _ _ _ (Some locations) Hs Hl).
    rewrite Hx.
    step (arg_not_null_some (Some xdev) st (Some locations) (ex_intro _ xdev eq_refl)).
    step (arg_not_null_some (bjl_jointLocations locations) st (Some locations)
            (ex_intro _ js Hjs)).
    step (verify_space_next _ _ (Some locations) Hsp).
    cbn [supports_body]. rewrite Hsup.
    step (check_next true XR_ERROR_FUNCTION_UNSUPPORTED st (Some locations) eq_refl).
    assert (Hc : negb (bjl_jointCount locations <? body_joint_count_of t) = true)
      by (apply negb_true_iff, Z.ltb_ge; exact Hcount).
    step (check_next _ XR_ERROR_VALIDATION_FAILURE st (Some locations) Hc).
    assert (Hpos : negb (bjli_time locateInfo <=? 0) = true)
      by (apply negb_true_iff, Z.leb_gt; exact Htime).
    step (check_next _ XR_ERROR_TIME_INVALID st (Some locations) Hpos).
    unfold bind at 1. cbn [deref ret]. rewrite Hget.
    step (check_next (xrt_is_success XRT_SUCCESS) XR_ERROR_RUNTIME_FAILURE st
            (Some locations) eq_refl).
    unfold bind at 1. unfold get_state. rewrite Hpose.
    change (is_success XR_SUCCESS) with true. cbn [negb].
    rewrite Hact. cbn [negb orb].
    unfold bind at 1. unfold modify_out at 1.
    unfold bind at 1. unfold bind at 1. unfold get_out. cbn [deref ret put_out].
    unfold bind at 1. unfold modify_out at 1.
    unfold bind at 1. unfold bind at 1. unfold get_out. cbn [deref ret put_out].
    unfold bind at 1.
    rewrite (update_body_joint_loop _ n 0 js
               (set_bjl_isActive false (set_bjl_isActive false locations)) st);
      [reflexivity | exact Hjs | simpl; exact Hlen].
  - intros k Hk. apply updated_range_inside; simpl; lia.
  - intros k Hk. apply updated_range_outside. lia.
Qed.

(** C9, the failing input: a full-body tracker and a buffer of 84 joints
    flagged valid; joint 69 is cleared, joint 70 is not. *)
Lemma inactive_body_query_clears_default_joints_only_witness :
  exists js',
    @oxr_xrLocateBodyJointsFB sample_backend openxr_limits 3 (Some body_locate_info)
      headless_state (Some (body_locations 84))
    = Next XR_SUCCESS headless_state
        (Some (set_bjl_jointLocations js' (set_bjl_isActive false (body_locations 84)))) /\
    js' !! 69%nat = Some {| locationFlags := 0; bj_pose := pose0 |} /\
    js' !! 70%nat = Some {| locationFlags := 3; bj_pose := pose0 |}.
Proof.
  destruct (@inactive_body_query_clears_default_joints_only sample_backend openxr_limits
              headless_state 3
              {| bt_handle := live_base 1 []; bt_sess := 1;
                 bt_xdev := Some (sample_device false);
                 joint_set_type := XRT_BODY_JOINT_SET_FULL_BODY_META |}
              (sample_session XR_SESSION_STATE_FOCUSED true)
              (sample_device false) body_locate_info (body_locations 84)
              (repeat {| locationFlags := 3; bj_pose := pose0 |} 84)
              (snd (get_body_joints (sample_device false)
                      XRT_INPUT_META_FULL_BODY_TRACKING 1))
              relation0)
    as (js' & Hrun & Hin & Hout).
  - split; [lia | split; reflexivity].
  - reflexivity.
  - reflexivity.
  - reflexivity.
  - reflexivity.
  - reflexivity.
  - reflexivity.
  - reflexivity.
  - split; [simpl; lia | eexists; split; reflexivity].
  - vm_compute. discriminate.
  - reflexivity.
  - reflexivity.
  - reflexivity.
  - reflexivity.
  - vm_compute. lia.
  - exists js'. split; [exact Hrun | split].
    + rewrite Hin by (vm_compute; lia). reflexivity.
    + rewrite Hout by (vm_compute; lia). reflexivity.
Defined.

(** C10.  [xrGetFacialExpressionsHTC] hands [facialExpressions], not
    [facialTracker], to the handle check: the outcome does not depend on
    [facialTracker]; it is [XR_ERROR_HANDLE_INVALID] whenever no live facial
    tracker is found at [facialExpressions], also when [facialTracker] is
    one; and whenever one is found there the call goes past the handle
    check, so never fails with [XR_ERROR_HANDLE_INVALID]. *)
Theorem facial_expressions_checks_the_output_pointer `{B : oxr_backend} `{L : oxr_limits}
    (facialTracker facialExpressions : Z) (st : oxr_state) (out : XrFacialExpressionsHTC) :
  (forall other,
     oxr_xrGetFacialExpressionsHTC other facialExpressions st out
     = oxr_xrGetFacialExpressionsHTC facialTracker facialExpressions st out) /\
  ((~ exists t, live_facial_tracker st facialExpressions t) ->
   oxr_xrGetFacialExpressionsHTC facialTracker facialExpressions st out
   = Error XR_ERROR_HANDLE_INVALID st out) /\
  ((exists t, live_facial_tracker st facialExpressions t) ->
   forall r st' out',
     oxr_xrGetFacialExpressionsHTC facialTracker facialExpressions st out
     = Error r st' out' ->
     r <> XR_ERROR_HANDLE_INVALID).
Proof.
  split; [reflexivity | split].
  - intros Hn. unfold oxr_xrGetFacialExpressionsHTC. apply bind_error.
    apply verify_handle_error. intros (Hp & obj & Hh & Ht & Hv).
    apply Hn. destruct obj; try discriminate. eexists. repeat split; eassumption.
  - intros (t & Ht) r st' out' H. unfold oxr_xrGetFacialExpressionsHTC in H.
    rewrite (bind_next _ _ _ _ _ _ _ (verify_facial_tracker_next _ _ _ _ Ht)) in H.
    match type of H with
    | ?m st out = _ =>
        assert (Hc : errs (fun c => c <> XR_ERROR_HANDLE_INVALID) m)
          by (unfold OXR_VERIFY_SESSION_NOT_LOST, OXR_VERIFY_ARG_NOT_NULL,
                OXR_VERIFY_ARG_TYPE_AND_NOT_NULL; coded);
        specialize (Hc st out); rewrite H in Hc; exact Hc
    end.
Qed.

(** C10, witness: the live facial tracker 4 and an output structure at
    address 100. *)
Lemma facial_expressions_checks_the_output_pointer_witness :
  @oxr_xrGetFacialExpressionsHTC sample_backend openxr_limits 4 100 headless_state
    {| fe_type := XR_TYPE_FACIAL_EXPRESSIONS_HTC; fe_isActive := false;
       fe_sampleTime := 0; expressionCount := 14;
       expressionWeightings := Some (repeat float0 14) |}
  = Error XR_ERROR_HANDLE_INVALID headless_state
      {| fe_type := XR_TYPE_FACIAL_EXPRESSIONS_HTC; fe_isActive := false;
         fe_sampleTime := 0; expressionCount := 14;
         expressionWeightings := Some (repeat float0 14) |}.
Proof.
  apply (proj1 (proj2 (@facial_expressions_checks_the_output_pointer sample_backend
                         openxr_limits 4 100 headless_state _))).
  intros (t & _ & H & _). vm_compute in H. discriminate.
Defined.

(** * Further properties of the entrypoints

    The properties below carry numbers from X1 to X30.  They cover what
    the entrypoints do beyond the claims: the order of their checks, what a
    failed check leaves behind, the calls that never change the state, the
    session list, the handle registry under creation, and the data the
    queries write. *)

(** ** The checks *)

(** Opens the definition of whichever entrypoint the goal is about. *)
Ltac open_entrypoint :=
  cbv delta [oxr_xrDestroySession oxr_xrBeginSession oxr_xrEndSession oxr_xrWaitFrame
    oxr_xrBeginFrame oxr_xrEndFrame oxr_xrRequestExitSession oxr_xrLocateViews
    oxr_xrGetVisibilityMaskKHR oxr_xrPerfSettingsSetPerformanceLevelEXT
    oxr_xrThermalGetTemperatureTrendEXT oxr_xrCreateHandTrackerEXT
    oxr_xrDestroyHandTrackerEXT oxr_xrLocateHandJointsEXT oxr_xrApplyForceFeedbackCurlMNDX
    oxr_xrEnumerateDisplayRefreshRatesFB oxr_xrGetDisplayRefreshRateFB
    oxr_xrRequestDisplayRefreshRateFB oxr_xrSetAndroidApplicationThreadKHR
    oxr_xrCreateFacialTrackerHTC oxr_xrDestroyFacialTrackerHTC oxr_xrGetFacialExpressionsHTC
    oxr_xrCreateBodyTrackerFB oxr_xrDestroyBodyTrackerFB oxr_xrGetBodySkeletonFB
    oxr_xrLocateBodyJointsFB oxr_xrRequestBodyTrackingFidelityMETA]; cbv beta.

Lemma owner_session_none_handle {Out} st k p tag_ok (o : Out) :
  owner_session st k p = None ->
  (forall obj, tag_ok obj = true ->
     match k, obj with
     | KSession, ObjSession _ | KHandTracker, ObjHandTracker _
     | KFaceTracker, ObjFaceTracker _ | KBodyTracker, ObjBodyTracker _ => True
     | _, _ => False
     end) ->
  verify_handle p tag_ok st o = Error XR_ERROR_HANDLE_INVALID st o.
Proof.
  intros Ho Htag. apply verify_handle_error.
  intros (Hp & obj & Hh & Ht & Hv). specialize (Htag obj Ht).
  unfold owner_session in Ho. rewrite bool_decide_false in Ho by assumption.
  rewrite Hh in Ho. destruct k, obj; try contradiction; simpl in Hv; rewrite Hv in Ho;
    discriminate.
Qed.

(** X1.  Every entrypoint that takes a session or a tracker tests its
    handle before anything else: when the handle it checks is NULL, or is
    not the address of a live object of the kind the call is made for, the
    call returns [XR_ERROR_HANDLE_INVALID] whatever its other arguments
    are, and state and outputs are as before.  The handle checked is the
    first argument, except for [xrGetFacialExpressionsHTC], where it is
    [facialExpressions]. *)
Theorem invalid_handle_is_rejected_first `{B : oxr_backend} `{L : oxr_limits} {Out}
    (e : entrypoint Out) (st : oxr_state) (out : Out) :
  owner_session st (fst (checked_handle e)) (snd (checked_handle e)) = None ->
  exec e st out = Error XR_ERROR_HANDLE_INVALID st out.
Proof.
  intros Ho.
  destruct e; simpl in Ho; simpl; apply bind_error;
    (eapply owner_session_none_handle; [exact Ho|]);
    intros [] ; simpl; intros; try discriminate; exact I.
Qed.

(** X1, witness: the session handle 1 passed where a hand tracker is
    expected. *)
Lemma invalid_handle_is_rejected_first_witness :
  @exec sample_backend openxr_limits _ (xrLocateHandJointsEXT 1 None) focused_state None
  = Error XR_ERROR_HANDLE_INVALID focused_state None.
Proof.
  apply (@invalid_handle_is_rejected_first sample_backend openxr_limits _
           (xrLocateHandJointsEXT 1 None) focused_state None).
  reflexivity.
Defined.

(** X2.  [xrEndSession], [xrWaitFrame], [xrBeginFrame], [xrEndFrame] and
    [xrRequestExitSession] on a live session that is not lost and has not
    begun return [XR_ERROR_SESSION_NOT_RUNNING], whatever their other
    arguments are, and change nothing. *)
Theorem frame_calls_need_a_running_session `{B : oxr_backend} `{L : oxr_limits} {Out}
    (e : entrypoint Out) (st : oxr_state) (s : oxr_session) (out : Out) :
  needs_running e = true ->
  live_session st (snd (primary_handle e)) s ->
  is_lost s = false ->
  has_begun s = false ->
  exec e st out = Error XR_ERROR_SESSION_NOT_RUNNING st out.
Proof.
  intros Hn Hs Hl Hb.
  assert (Hrun : OXR_VERIFY_SESSION_RUNNING (snd (primary_handle e)) st out
                 = Error XR_ERROR_SESSION_NOT_RUNNING st out).
  { unfold OXR_VERIFY_SESSION_RUNNING. destruct Hs as (_ & Hh & _).
    step (deref_session_next _ _ _ out Hh). rewrite Hb. reflexivity. }
  destruct e; try discriminate; simpl in Hs, Hrun |- *;
    open_entrypoint;
    rewrite (live_session_prefix _ _ _ _ _ Hs Hl); apply bind_error; exact Hrun.
Qed.

(** X2, witness: [xrEndFrame] with a NULL end info on the ready session. *)
Lemma frame_calls_need_a_running_session_witness :
  @exec sample_backend openxr_limits _ (xrEndFrame 1 None) ready_state tt
  = Error XR_ERROR_SESSION_NOT_RUNNING ready_state tt.
Proof.
  apply (@frame_calls_need_a_running_session sample_backend openxr_limits _
           (xrEndFrame 1 None) ready_state (sample_session XR_SESSION_STATE_READY false) tt).
  - reflexivity.
  - split; [simpl; lia | split; reflexivity].
  - reflexivity.
  - reflexivity.
Defined.

Lemma extension_inv {Out} e st (o : Out) u st' o' :
  OXR_VERIFY_EXTENSION e st o = Next u st' o' -> extensions (inst st) e = true.
Proof.
  unfold OXR_VERIFY_EXTENSION, bind, get_state, check.
  destruct (extensions (inst st) e); [reflexivity | discriminate].
Qed.

(** X3.  The seven calls that test for an extension on every path
    ([xrGetVisibilityMaskKHR], [xrPerfSettingsSetPerformanceLevelEXT],
    [xrCreateHandTrackerEXT], [xrSetAndroidApplicationThreadKHR],
    [xrCreateFacialTrackerHTC], [xrCreateBodyTrackerFB],
    [xrRequestBodyTrackingFidelityMETA]) never run to their end when that
    extension is not enabled on the instance: for no state, argument or
    output do they go past their checks. *)
Theorem gated_calls_need_their_extension `{B : oxr_backend} `{L : oxr_limits} {Out}
    (e : entrypoint Out) (ext : oxr_extension) (st : oxr_state) (out : Out) :
  gate e = Some ext ->
  extensions (inst st) ext = false ->
  forall r st' out', exec e st out <> Next r st' out'.
Proof.
  intros Hg Hx r st' out' H.
  destruct e; try discriminate; simpl in Hg, H; injection Hg as <-;
    revert H; open_entrypoint; intros H;
    repeat (apply quiet_bind_inv in H as (? & ? & H); [|solve [disciplined]]);
    match goal with
    | Hv : OXR_VERIFY_EXTENSION _ _ _ = Next _ _ _ |- _ =>
        apply extension_inv in Hv; congruence
    end.
Qed.

(** X3, witness: a body tracker asked for without XR_FB_body_tracking. *)
Lemma gated_calls_need_their_extension_witness :
  ~ exists r st' out',
      @exec sample_backend openxr_limits _ (xrCreateBodyTrackerFB 1 (Some default_body_info))
        (without_extension FB_body_tracking focused_state) (Some 0)
      = Next r st' out'.
Proof.
  intros (r & st' & out' & H).
  apply (@gated_calls_need_their_extension sample_backend openxr_limits _
           (xrCreateBodyTrackerFB 1 (Some default_body_info)) FB_body_tracking
           (without_extension FB_body_tracking focused_state) (Some 0)
           eq_refl eq_refl r st' out').
  exact H.
Defined.

(** X4.  On a live session that is not lost, a value outside the
    enumeration is rejected with [XR_ERROR_VALIDATION_FAILURE] and nothing
    changes: the domain or the level of
    [xrPerfSettingsSetPerformanceLevelEXT] (with its extension enabled), the
    thread type of [xrSetAndroidApplicationThreadKHR] (tested before the
    extension, so also with the extension disabled), and the hand of
    [xrCreateHandTrackerEXT] (no tracker is created). *)
Theorem enumerators_out_of_range_are_rejected `{B : oxr_backend}
    (st : oxr_state) (session : Z) (s : oxr_session) :
  live_session st session s ->
  is_lost s = false ->
  (forall domain level,
     extensions (inst st) EXT_performance_settings = true ->
     (exists v, domain = XR_PERF_SETTINGS_DOMAIN_OTHER v) \/
     (exists v, level = XR_PERF_SETTINGS_LEVEL_OTHER v) ->
     oxr_xrPerfSettingsSetPerformanceLevelEXT session domain level st tt
     = Error XR_ERROR_VALIDATION_FAILURE st tt) /\
  (forall v threadId,
     oxr_xrSetAndroidApplicationThreadKHR session (XR_ANDROID_THREAD_TYPE_OTHER v)
       threadId st tt
     = Error XR_ERROR_VALIDATION_FAILURE st tt) /\
  (forall createInfo v slot,
     htci_type createInfo = XR_TYPE_HAND_TRACKER_CREATE_INFO_EXT ->
     extensions (inst st) EXT_hand_tracking = true ->
     hand createInfo = XR_HAND_OTHER v ->
     oxr_xrCreateHandTrackerEXT session (Some createInfo) st (Some slot)
     = Error XR_ERROR_VALIDATION_FAILURE st (Some slot)).
Proof.
  intros Hs Hl. split; [|split].
  - intros domain level Hext Hbad. unfold oxr_xrPerfSettingsSetPerformanceLevelEXT.
    rewrite (live_session_prefix _ _ _ _ _ Hs Hl).
    step (extension_next _ _ tt Hext).
    destruct Hbad as [[v ->] | [v ->]]; [reflexivity|].
    destruct domain; reflexivity.
  - intros v id. unfold oxr_xrSetAndroidApplicationThreadKHR.
    rewrite (live_session_prefix _ _ _ _ _ Hs Hl). reflexivity.
  - intros ci v slot Hty Hext Hhand. unfold oxr_xrCreateHandTrackerEXT.
    rewrite (live_session_prefix _ _ _ _ _ Hs Hl).
    step (arg_type_next ci _ _ st (Some slot) Hty).
    unfold bind at 1. unfold get_out.
    step (arg_not_null_next slot st (Some slot)).
    step (extension_next _ _ (Some slot) Hext).
    rewrite Hhand. reflexivity.
Qed.

(** X4, witness: thread type 9 while XR_KHR_android_thread_settings is
    disabled. *)
Lemma enumerators_out_of_range_are_rejected_witness :
  @oxr_xrSetAndroidApplicationThreadKHR sample_backend 1 (XR_ANDROID_THREAD_TYPE_OTHER 9) 0
    (without_extension KHR_android_thread_settings focused_state) tt
  = Error XR_ERROR_VALIDATION_FAILURE
      (without_extension KHR_android_thread_settings focused_state) tt.
Proof.
  apply (proj1 (proj2 (@enumerators_out_of_range_are_rejected sample_backend
                         (without_extension KHR_android_thread_settings focused_state) 1
                         (sample_session XR_SESSION_STATE_FOCUSED true)
                         ltac:(split; [lia | split; reflexivity]) eq_refl))).
Defined.

(** X5.  On a running session, [xrBeginFrame] with a NULL
    [frameBeginInfo] is the call of [oxr_session_frame_begin], a well-typed
    info behaves as NULL does and a wrongly typed one fails with
    [XR_ERROR_VALIDATION_FAILURE].  [xrWaitFrame] treats [frameWaitInfo] in
    the same way, and with a NULL info and a well-typed [frameState] it is
    the call of [oxr_session_frame_wait]; a NULL [frameState] always fails
    with [XR_ERROR_VALIDATION_FAILURE]. *)
Theorem frame_info_may_be_null `{B : oxr_backend}
    (st : oxr_state) (session : Z) (s : oxr_session) :
  live_session st session s ->
  is_lost s = false ->
  has_begun s = true ->
  (oxr_xrBeginFrame session None st tt
   = let '(r, st') := oxr_session_frame_begin session st in Next r st' tt) /\
  (forall info,
     oxr_xrBeginFrame session (Some info) st tt
     = if bool_decide (fbi_type info = XR_TYPE_FRAME_BEGIN_INFO)
       then oxr_xrBeginFrame session None st tt
       else Error XR_ERROR_VALIDATION_FAILURE st tt) /\
  (forall frameState,
     fs_type frameState = XR_TYPE_FRAME_STATE ->
     oxr_xrWaitFrame session None st (Some frameState)
     = let '(r, st', fs') := oxr_session_frame_wait session st frameState in
       Next r st' (Some fs')) /\
  (forall info frameState,
     oxr_xrWaitFrame session (Some info) st frameState
     = if bool_decide (fwi_type info = XR_TYPE_FRAME_WAIT_INFO)
       then oxr_xrWaitFrame session None st frameState
       else Error XR_ERROR_VALIDATION_FAILURE st frameState) /\
  (forall frameWaitInfo,
     oxr_xrWaitFrame session frameWaitInfo st None
     = Error XR_ERROR_VALIDATION_FAILURE st None).
Proof.
  intros Hs Hl Hb.
  assert (Hrun : forall Out (out : Out),
             OXR_VERIFY_SESSION_RUNNING session st out = Next tt st out).
  { intros Out out. unfold OXR_VERIFY_SESSION_RUNNING. destruct Hs as (_ & Hh & _).
    step (deref_session_next _ _ _ out Hh). rewrite Hb. reflexivity. }
  assert (Hbegin : forall info,
             oxr_xrBeginFrame session info st tt
             = (do _ <- OXR_VERIFY_ARG_TYPE_CAN_BE_NULL info fbi_type
                          XR_TYPE_FRAME_BEGIN_INFO;
                do res <- call (oxr_session_frame_begin session); ret res) st tt).
  { intros info. unfold oxr_xrBeginFrame.
    rewrite (live_session_prefix _ _ _ _ _ Hs Hl). step (Hrun unit tt). reflexivity. }
  assert (Hwait : forall info frameState,
             oxr_xrWaitFrame session info st frameState
             = (do _ <- OXR_VERIFY_ARG_TYPE_CAN_BE_NULL info fwi_type
                          XR_TYPE_FRAME_WAIT_INFO;
                do frameState <- get_out;
                do fs <- OXR_VERIFY_ARG_TYPE_AND_NOT_NULL frameState fs_type
                           XR_TYPE_FRAME_STATE;
                do _ <- OXR_VERIFY_ARG_NOT_NULL frameState;
                call_on fs (oxr_session_frame_wait session)) st frameState).
  { intros info fs. unfold oxr_xrWaitFrame.
    rewrite (live_session_prefix _ _ _ _ _ Hs Hl). step (Hrun _ fs). reflexivity. }
  split; [|split; [|split; [|split]]].
  - rewrite Hbegin. unfold bind, call, ret. cbn.
    destruct (oxr_session_frame_begin session st). reflexivity.
  - intros info. rewrite !Hbegin. unfold OXR_VERIFY_ARG_TYPE_CAN_BE_NULL.
    case_bool_decide; reflexivity.
  - intros fs Hty. rewrite Hwait.
    unfold bind at 1. cbn [OXR_VERIFY_ARG_TYPE_CAN_BE_NULL ret].
    unfold bind at 1. unfold get_out.
    step (arg_type_next fs _ _ st (Some fs) Hty).
    step (arg_not_null_next fs st (Some fs)). reflexivity.
  - intros info fs. rewrite !Hwait. unfold OXR_VERIFY_ARG_TYPE_CAN_BE_NULL.
    case_bool_decide; reflexivity.
  - intros info. rewrite Hwait. unfold OXR_VERIFY_ARG_TYPE_CAN_BE_NULL.
    destruct info as [info|]; [case_bool_decide|]; reflexivity.
Qed.

(** X5, witness: [xrBeginFrame] with a NULL info on the focused session. *)
Lemma frame_info_may_be_null_witness :
  @oxr_xrBeginFrame sample_backend 1 None focused_state tt
  = Next XR_SUCCESS focused_state tt.
Proof.
  apply (proj1 (@frame_info_may_be_null sample_backend focused_state 1
                  (sample_session XR_SESSION_STATE_FOCUSED true)
                  ltac:(split; [lia | split; reflexivity]) eq_refl eq_refl)).
Defined.

(** ** Failed checks *)

(** What a failed run of [bind] after a quiet step tells. *)
Lemma quiet_bind_error_inv {Out A C} (m : M Out A) (k : A -> M Out C) st o r st2 o2 :
  quiet m -> bind m k st o = Error r st2 o2 ->
  (st2 = st /\ o2 = o) \/ exists a, m st o = Next a st o /\ k a st o = Error r st2 o2.
Proof.
  intros Hq. unfold bind. specialize (Hq st o).
  destruct (m st o) as [a st1 o1|r1 st1 o1|]; try discriminate.
  - destruct Hq as [-> ->]. right. eauto.
  - destruct Hq as [-> ->]. intros [= _ <- <-]. left. auto.
Qed.

(** X30.  When a call leaves through a failed check, the runtime state is
    as before the call: for each of the 27 entrypoints that take a session
    or a tracker, and for [xrCreateSession].  The caller's output
    structures are as before as well, with two exceptions:
    [xrGetVisibilityMaskKHR], whose output is then as before or has its two
    counts set to 0, and an [xrLocateBodyJointsFB] with a fidelity-status
    structure chained to its locations, of whose output nothing is said. *)
Theorem failed_checks_leave_the_state_alone `{B : oxr_backend} `{L : oxr_limits} :
  (forall Out (e : entrypoint Out) st st' out out' r,
     exec e st out = Error r st' out' ->
     st' = st /\ (writes_before_checks e out = false -> out' = out)) /\
  (forall session viewConfigurationType viewIndex visibilityMaskType st st' out out' r,
     oxr_xrGetVisibilityMaskKHR session viewConfigurationType viewIndex visibilityMaskType
       st out
     = Error r st' out' ->
     out' = out \/ out' = option_map zero_counts out) /\
  (forall (XrSessionCreateInfo : Type) instance_is_valid oxr_verify_XrSessionCreateInfo
          oxr_session_create instance (createInfo : option XrSessionCreateInfo)
          st st' out out' r,
     oxr_xrCreateSession instance_is_valid oxr_verify_XrSessionCreateInfo
       oxr_session_create instance createInfo st out
     = Error r st' out' ->
     st' = st /\ out' = out).
Proof.
  split; [|split].
  - intros Out e st st' out out' r H. split.
    + assert (Hc : clean_state (exec e)).
      { destruct e; simpl;
          first [ solve [auto with oxr_clean]
                | apply clean_clean_state; solve [auto with oxr_clean] ]. }
      specialize (Hc st out). rewrite H in Hc. exact Hc.
    + intros Hw.
      assert (Hc : clean_at (exec e) st out).
      { destruct e; simpl in Hw |- *; try discriminate;
          try (apply clean_clean_at; solve [auto with oxr_clean]).
        apply clean_at_xrLocateBodyJointsFB. intros l ->.
        destruct (bjl_fidelity l); [discriminate | reflexivity]. }
      unfold clean_at in Hc. rewrite H in Hc. apply Hc.
  - intros session vct vi vmt st st' out out' r H.
    unfold oxr_xrGetVisibilityMaskKHR in H.
    do 3 (apply quiet_bind_error_inv in H as [[_ ->] | (? & _ & H)];
          [left; reflexivity | | solve [disciplined]]).
    unfold bind at 1 in H. unfold get_out in H.
    destruct out as [m|]; [|discriminate].
    unfold bind at 1 in H. cbn [deref ret] in H.
    unfold bind at 1 in H. unfold put_out in H.
    match type of H with
    | ?k st _ = _ => assert (Hc : clean k) by disciplined
    end.
    specialize (Hc st (Some (zero_counts m))). rewrite H in Hc.
    right. apply Hc.
  - intros T valid verify create instance createInfo st st' out out' r H.
    unfold oxr_xrCreateSession in H.
    unfold bind at 1 in H. unfold get_state in H.
    apply quiet_bind_error_inv in H as [H | (? & _ & H)];
      [exact H | | solve [disciplined]].
    destruct (negb (is_success (verify (inst st) createInfo))).
    + injection H as _ <- <-. auto.
    + exfalso. destruct (create createInfo st) as [[ret1 st1] sess].
      unfold bind at 1 in H. unfold put_state in H.
      destruct (negb (is_success ret1)); [discriminate|].
      unfold bind, get_out, deref, put_out, put_state, ret in H.
      destruct out; discriminate.
Qed.

(** X30, witness: a hand-joint query with room for 3 joints fails and
    leaves the caller's locations as they were. *)
Lemma failed_checks_leave_the_state_alone_witness :
  @exec sample_backend openxr_limits _ (xrLocateHandJointsEXT 2 (Some hand_locate_info))
    headless_state (Some (hand_locations 3))
  = Error XR_ERROR_VALIDATION_FAILURE headless_state (Some (hand_locations 3)) /\
  headless_state = headless_state /\
  (writes_before_checks (xrLocateHandJointsEXT 2 (Some hand_locate_info))
     (Some (hand_locations 3)) = false ->
   Some (hand_locations 3) = Some (hand_locations 3)).
Proof.
  assert (H : @exec sample_backend openxr_limits _
                (xrLocateHandJointsEXT 2 (Some hand_locate_info))
                headless_state (Some (hand_locations 3))
              = Error XR_ERROR_VALIDATION_FAILURE headless_state (Some (hand_locations 3)))
    by reflexivity.
  split; [exact H|].
  exact (proj1 (@failed_checks_leave_the_state_alone sample_backend openxr_limits)
           _ _ _ _ _ _ _ H).
Defined.

(** ** Calls that only read *)

Lemma frozen_two_call {A} a b (c : list A) d : frozen (OXR_TWO_CALL_HELPER a b c d).
Proof. unfold OXR_TWO_CALL_HELPER. disciplined. Qed.

Lemma frozen_write_skeleton_joint i v : frozen (write_skeleton_joint i v).
Proof. unfold write_skeleton_joint. disciplined. Qed.

(** X6.  [xrThermalGetTemperatureTrendEXT],
    [xrEnumerateDisplayRefreshRatesFB], [xrGetFacialExpressionsHTC],
    [xrGetBodySkeletonFB], [xrLocateBodyJointsFB] and
    [xrRequestBodyTrackingFidelityMETA] never change the runtime state
    (instance, session list, registry), whether they succeed or fail: they
    only write to the caller's structures. *)
Theorem queries_leave_the_state_alone `{B : oxr_backend} `{L : oxr_limits} {Out}
    (e : entrypoint Out) (st : oxr_state) (out : Out) :
  reads_only e = true ->
  match exec e st out with
  | Next _ st' _ => st' = st
  | Error _ st' _ => st' = st
  | Undefined => True
  end.
Proof.
  intros Hr.
  assert (Hf : frozen (exec e)).
  { pose proof (@frozen_two_call F32.float).
    pose proof frozen_write_skeleton_joint.
    pose proof (@frozen_modify_out XrBodyJointLocationsFB).
    pose proof frozen_update_body_joint.
    destruct e; try discriminate; simpl;
      open_entrypoint; disciplined; repeat (progress cbv zeta; disciplined). }
  exact (Hf st out).
Qed.

(** X6, witness: a skeleton query with a NULL skeleton pointer. *)
Lemma queries_leave_the_state_alone_witness :
  match @exec sample_backend openxr_limits _ (xrGetBodySkeletonFB 3) focused_state None with
  | Next _ st' _ => st' = focused_state
  | Error _ st' _ => st' = focused_state
  | Undefined => True
  end.
Proof.
  apply (@queries_leave_the_state_alone sample_backend openxr_limits _
           (xrGetBodySkeletonFB 3) focused_state None).
  reflexivity.
Defined.

Lemma owner_session_live_session st p x :
  owner_session st KSession p = Some x -> exists s, live_session st p s.
Proof.
  unfold owner_session, live_session. case_bool_decide; [discriminate|].
  destruct (heap st !! p) as [[s| | | |]|] eqn:E; try discriminate.
  destruct (is_live (sess_handle s)) eqn:Hv; [|discriminate].
  intros _. exists s. auto.
Qed.

(** X7.  [xrThermalGetTemperatureTrendEXT] is not implemented: it always
    fails and changes nothing.  It returns [XR_ERROR_SESSION_LOST] on a live
    session in the Lost state and [XR_ERROR_HANDLE_INVALID] in every other
    case, also on a valid session; its three outputs are never written. *)
Theorem thermal_query_never_succeeds `{B : oxr_backend} `{L : oxr_limits}
    (session : Z) (domain : XrPerfSettingsDomainEXT) (st : oxr_state) :
  exec (xrThermalGetTemperatureTrendEXT session domain) st tt
  = Error (if lost_at st session then XR_ERROR_SESSION_LOST else XR_ERROR_HANDLE_INVALID)
      st tt.
Proof.
  simpl. unfold lost_at.
  destruct (owner_session st KSession session) as [x|] eqn:Ho.
  - destruct (owner_session_live_session _ _ _ Ho) as (s & Hs).
    pose proof Hs as (_ & Hh & _). rewrite Hh.
    unfold oxr_xrThermalGetTemperatureTrendEXT.
    destruct (is_lost s) eqn:Hl.
    + apply (lost_session_prefix _ _ _ _ _ Hs Hl).
    + rewrite (live_session_prefix _ _ _ _ _ Hs Hl). reflexivity.
  - apply bind_error. eapply owner_session_none_handle; [exact Ho|].
    intros []; simpl; intros; try discriminate; exact I.
Qed.

(** ** Calls that look at less, or earlier, than their neighbours *)

(** X8.  [xrApplyForceFeedbackCurlMNDX] looks at the tracker and at the
    type of [locations] only: on a live hand tracker and well-typed
    locations it is the call of [oxr_session_apply_force_feedback], whatever
    the state of the tracker's session is, lost or not begun included. *)
Theorem force_feedback_ignores_the_session `{B : oxr_backend}
    (st : oxr_state) (handTracker : Z) (t : oxr_hand_tracker)
    (locations : XrForceFeedbackCurlApplyLocationsMNDX) :
  live_hand_tracker st handTracker t ->
  ffc_type locations = XR_TYPE_FORCE_FEEDBACK_CURL_APPLY_LOCATIONS_MNDX ->
  oxr_xrApplyForceFeedbackCurlMNDX handTracker (Some locations) st tt
  = let '(r, st') := oxr_session_apply_force_feedback handTracker locations st in
    Next r st' tt.
Proof.
  intros Ht Hty. unfold oxr_xrApplyForceFeedbackCurlMNDX.
  step (verify_hand_tracker_next _ _ _ tt Ht).
  step (arg_type_next locations _ _ st tt Hty). reflexivity.
Qed.

(** X8, witness: the call goes through on the tracker 2 of the lost
    session. *)
Lemma force_feedback_ignores_the_session_witness :
  on_lost_session lost_state (xrApplyForceFeedbackCurlMNDX 2 (Some curl_locations)) /\
  @oxr_xrApplyForceFeedbackCurlMNDX sample_backend 2 (Some curl_locations) lost_state tt
  = Next XR_SUCCESS lost_state tt.
Proof.
  split.
  - exists 1, (sample_session XR_SESSION_STATE_LOST true).
    split; [reflexivity | split; reflexivity].
  - apply (@force_feedback_ignores_the_session sample_backend lost_state 2
             {| ht_handle := live_base 1 []; ht_sess := 1; ht_xdev := None;
                ht_input_name := XRT_INPUT_GENERIC_HAND_TRACKING_LEFT;
                ht_hand := XR_HAND_LEFT_EXT;
                ht_hand_joint_set := XR_HAND_JOINT_SET_DEFAULT_EXT |} curl_locations).
    + split; [lia | split; reflexivity].
    + reflexivity.
Defined.

(** X9.  [xrLocateBodyJointsFB] checks [locateInfo] and [locations]
    before it tests for session loss: on a tracker of a lost session a NULL
    [locateInfo], or a NULL [locations] behind a well-typed [locateInfo],
    gives [XR_ERROR_VALIDATION_FAILURE], and only two well-typed structures
    give [XR_ERROR_SESSION_LOST]. *)
Theorem body_joint_query_checks_its_structures_before_loss `{B : oxr_backend}
    `{L : oxr_limits}
    (st : oxr_state) (bodyTracker : Z) (t : oxr_body_tracker_fb) (s : oxr_session) :
  live_body_tracker st bodyTracker t ->
  heap st !! bt_sess t = Some (ObjSession s) ->
  is_lost s = true ->
  (forall locations,
     oxr_xrLocateBodyJointsFB bodyTracker None st locations
     = Error XR_ERROR_VALIDATION_FAILURE st locations) /\
  (forall locateInfo,
     bjli_type locateInfo = XR_TYPE_BODY_JOINTS_LOCATE_INFO_FB ->
     oxr_xrLocateBodyJointsFB bodyTracker (Some locateInfo) st None
     = Error XR_ERROR_VALIDATION_FAILURE st None) /\
  (forall locateInfo locations,
     bjli_type locateInfo = XR_TYPE_BODY_JOINTS_LOCATE_INFO_FB ->
     bjl_type locations = XR_TYPE_BODY_JOINT_LOCATIONS_FB ->
     oxr_xrLocateBodyJointsFB bodyTracker (Some locateInfo) st (Some locations)
     = Error XR_ERROR_SESSION_LOST st (Some locations)).
Proof.
  intros Ht Hs Hl. split; [|split].
  - intros loc. unfold oxr_xrLocateBodyJointsFB.
    step (verify_body_tracker_next _ _ _ loc Ht). reflexivity.
  - intros li Hli. unfold oxr_xrLocateBodyJointsFB.
    step (verify_body_tracker_next _ _ _ (@None XrBodyJointLocationsFB) Ht).
    step (arg_type_next li _ _ st (@None XrBodyJointLocationsFB) Hli). reflexivity.
  - intros li loc Hli Hloc. unfold oxr_xrLocateBodyJointsFB.
    step (verify_body_tracker_next _ _ _ (Some loc) Ht).
    destruct Ht as (_ & Hh & _).
    step (arg_type_next li _ _ st (Some loc) Hli).
    unfold bind at 1. unfold get_out.
    step (arg_type_next loc _ _ st (Some loc) Hloc).
    step (deref_body_tracker_next _ _ _ (Some loc) Hh).
    apply bind_error. eapply not_lost_error; eauto.
Qed.

(** X9, witness: two NULL pointers on the tracker 3 of the lost session. *)
Lemma body_joint_query_checks_its_structures_before_loss_witness :
  @oxr_xrLocateBodyJointsFB sample_backend openxr_limits 3 None lost_state None
  = Error XR_ERROR_VALIDATION_FAILURE lost_state None.
Proof.
  apply (proj1 (@body_joint_query_checks_its_structures_before_loss sample_backend
                  openxr_limits lost_state 3
                  {| bt_handle := live_base 1 []; bt_sess := 1;
                     bt_xdev := Some (sample_device false);
                     joint_set_type := XRT_BODY_JOINT_SET_FULL_BODY_META |}
                  (sample_session XR_SESSION_STATE_LOST true)
                  ltac:(split; [lia | split; reflexivity]) eq_refl eq_refl)).
Defined.

(** ** Views, visibility masks and refresh rates *)

(** *** The loop over the views *)

Lemma view_types_loop_next {Out} (l : list XrView) n : forall i st (o : Out),
  (forall j, (i <= j < i + n)%nat ->
     exists v, l !! j = Some v /\ view_type v = XR_TYPE_VIEW) ->
  for_each i n
    (fun j => OXR_VERIFY_ARG_ARRAY_ELEMENT_TYPE (Some l) j view_type XR_TYPE_VIEW) st o
  = Next tt st o.
Proof.
  induction n as [|n IH]; intros i st o Hall; simpl; [reflexivity|].
  destruct (Hall i ltac:(lia)) as (v & Hv & Ht).
  unfold bind at 1. unfold OXR_VERIFY_ARG_ARRAY_ELEMENT_TYPE at 1.
  unfold bind, deref, ret, check. rewrite Hv.
  rewrite bool_decide_true by exact Ht.
  apply IH. intros j Hj. apply Hall. lia.
Qed.

Lemma view_types_loop_error {Out} (l : list XrView) n : forall i st (o : Out),
  (i + n <= length l)%nat ->
  (exists j v, (i <= j < i + n)%nat /\ l !! j = Some v /\ view_type v <> XR_TYPE_VIEW) ->
  for_each i n
    (fun j => OXR_VERIFY_ARG_ARRAY_ELEMENT_TYPE (Some l) j view_type XR_TYPE_VIEW) st o
  = Error XR_ERROR_VALIDATION_FAILURE st o.
Proof.
  induction n as [|n IH]; intros i st o Hlen (j & v & Hj & Hv & Ht); simpl; [lia|].
  destruct (l !! i) as [x|] eqn:Hx.
  2: { apply lookup_ge_None in Hx. lia. }
  unfold bind at 1. unfold OXR_VERIFY_ARG_ARRAY_ELEMENT_TYPE at 1.
  unfold bind, deref, ret, check. rewrite Hx.
  case_bool_decide as Hxt; [|reflexivity].
  apply IH; [lia|]. exists j, v. repeat split; try assumption; try lia.
  destruct (decide (j = i)) as [->|]; [|lia]. congruence.
Qed.

(** X10.  With a capacity above 0, [xrLocateViews] checks the type of
    each of the first [viewCapacityInput] elements of [views], then the
    time, then the view configuration type.  Once the session, the locate
    info, the space, the view state and the configuration type have passed:
    a wrongly typed element gives [XR_ERROR_VALIDATION_FAILURE]; with all
    elements typed a display time of 0 or less gives
    [XR_ERROR_TIME_INVALID]; with a valid time a configuration type other
    than the system's gives [XR_ERROR_VIEW_CONFIGURATION_TYPE_UNSUPPORTED];
    otherwise the call is the call of [oxr_session_locate_views].  A failed
    check leaves state and outputs alone. *)
Theorem locate_views_checks_every_view `{B : oxr_backend}
    (st : oxr_state) (session : Z) (s : oxr_session) (viewLocateInfo : XrViewLocateInfo)
    (viewCapacityInput : Z) (viewState : XrViewState) (viewCountOutput : option Z)
    (views : list XrView) :
  let out := (Some viewState, viewCountOutput, Some views) in
  let typed :=
    forall j, (j < Z.to_nat viewCapacityInput)%nat ->
      exists v, views !! j = Some v /\ view_type v = XR_TYPE_VIEW in
  live_session st session s ->
  is_lost s = false ->
  vli_type viewLocateInfo = XR_TYPE_VIEW_LOCATE_INFO ->
  live_space st (vli_space viewLocateInfo) ->
  vs_type viewState = XR_TYPE_VIEW_STATE ->
  oxr_verify_view_config_type (inst st) (vli_viewConfigurationType viewLocateInfo)
  = XR_SUCCESS ->
  0 < viewCapacityInput ->
  (Z.to_nat viewCapacityInput <= length views)%nat ->
  ((exists j v, (j < Z.to_nat viewCapacityInput)%nat /\ views !! j = Some v /\
                view_type v <> XR_TYPE_VIEW) ->
   oxr_xrLocateViews session (Some viewLocateInfo) viewCapacityInput st out
   = Error XR_ERROR_VALIDATION_FAILURE st out) /\
  (typed -> vli_displayTime viewLocateInfo <= 0 ->
   oxr_xrLocateViews session (Some viewLocateInfo) viewCapacityInput st out
   = Error XR_ERROR_TIME_INVALID st out) /\
  (typed -> 0 < vli_displayTime viewLocateInfo ->
   vli_viewConfigurationType viewLocateInfo <> view_config_type (system (inst st)) ->
   oxr_xrLocateViews session (Some viewLocateInfo) viewCapacityInput st out
   = Error XR_ERROR_VIEW_CONFIGURATION_TYPE_UNSUPPORTED st out) /\
  (typed -> 0 < vli_displayTime viewLocateInfo ->
   vli_viewConfigurationType viewLocateInfo = view_config_type (system (inst st)) ->
   oxr_xrLocateViews session (Some viewLocateInfo) viewCapacityInput st out
   = let '(r, st', out') :=
       oxr_session_locate_views session viewLocateInfo viewCapacityInput st out in
     Next r st' out').
Proof.
  intros out typed Hs Hl Hli Hsp Hvs Hv Hcap Hlen.
  assert (Hpre : oxr_xrLocateViews session (Some viewLocateInfo) viewCapacityInput st out
                 = (do _ <- for_each 0 (Z.to_nat viewCapacityInput)
                              (fun i => OXR_VERIFY_ARG_ARRAY_ELEMENT_TYPE (Some views) i
                                          view_type XR_TYPE_VIEW);
                    do _ <- check (negb (vli_displayTime viewLocateInfo <=? 0))
                              XR_ERROR_TIME_INVALID;
                    do st0 <- get_state;
                    do _ <- check (bool_decide (vli_viewConfigurationType viewLocateInfo
                                                = view_config_type (system (inst st0))))
                              XR_ERROR_VIEW_CONFIGURATION_TYPE_UNSUPPORTED;
                    call_out (oxr_session_locate_views session viewLocateInfo
                                viewCapacityInput)) st out).
  { unfold oxr_xrLocateViews, out.
    rewrite (live_session_prefix _ _ _ _ _ Hs Hl).
    step (arg_type_next viewLocateInfo _ _ st (Some viewState, viewCountOutput, Some views)
            Hli).
    step (verify_space_next _ _ (Some viewState, viewCountOutput, Some views) Hsp).
    unfold bind at 1. unfold get_out. cbv beta iota.
    step (arg_type_next viewState _ _ st (Some viewState, viewCountOutput, Some views) Hvs).
    unfold OXR_VERIFY_VIEW_CONFIG_TYPE.
    unfold bind at 1. unfold bind at 1. unfold get_state. rewrite Hv.
    change (is_success XR_SUCCESS) with true. cbn [ret].
    replace (viewCapacityInput =? 0) with false by (symmetry; apply Z.eqb_neq; lia).
    step (arg_not_null_next views st (Some viewState, viewCountOutput, Some views)).
    reflexivity. }
  rewrite Hpre. clear Hpre.
  assert (Hgood : typed ->
            for_each 0 (Z.to_nat viewCapacityInput)
              (fun i => OXR_VERIFY_ARG_ARRAY_ELEMENT_TYPE (Some views) i
                          view_type XR_TYPE_VIEW) st out = Next tt st out).
  { intros Ht. apply view_types_loop_next. intros j Hj. apply Ht. lia. }
  split; [|split; [|split]].
  - intros (j & v & Hj & Hjv & Hbad). apply bind_error.
    apply view_types_loop_error; [simpl; exact Hlen|].
    exists j, v. repeat split; try assumption; lia.
  - intros Ht Htime. step (Hgood Ht). apply bind_error, check_error.
    apply negb_false_iff, Z.leb_le. exact Htime.
  - intros Ht Htime Hne. step (Hgood Ht).
    assert (Hpos : negb (vli_displayTime viewLocateInfo <=? 0) = true)
      by (apply negb_true_iff, Z.leb_gt; exact Htime).
    step (check_next _ XR_ERROR_TIME_INVALID st out Hpos).
    unfold bind at 1. unfold get_state.
    apply bind_error, check_error. apply bool_decide_eq_false_2. exact Hne.
  - intros Ht Htime Heq. step (Hgood Ht).
    assert (Hpos : negb (vli_displayTime viewLocateInfo <=? 0) = true)
      by (apply negb_true_iff, Z.leb_gt; exact Htime).
    step (check_next _ XR_ERROR_TIME_INVALID st out Hpos).
    unfold bind at 1. unfold get_state.
    rewrite (bind_next _ _ _ _ _ _ _
               (check_next _ _ st out (bool_decide_eq_true_2 _ Heq))).
    reflexivity.
Qed.

(** X10, witness: the second of two views has the type of a view state. *)
Lemma locate_views_checks_every_view_witness :
  @oxr_xrLocateViews sample_backend 1 (Some (view_locate_info 1)) 2 focused_state
    (Some sample_view_state, Some 0,
     Some [sample_view XR_TYPE_VIEW; sample_view XR_TYPE_VIEW_STATE])
  = Error XR_ERROR_VALIDATION_FAILURE focused_state
      (Some sample_view_state, Some 0,
       Some [sample_view XR_TYPE_VIEW; sample_view XR_TYPE_VIEW_STATE]).
Proof.
  refine (proj1 (@locate_views_checks_every_view sample_backend focused_state 1
                   (sample_session XR_SESSION_STATE_FOCUSED true) (view_locate_info 1) 2
                   sample_view_state (Some 0)
                   [sample_view XR_TYPE_VIEW; sample_view XR_TYPE_VIEW_STATE]
                   _ _ _ _ _ _ _ _) _).
  - split; [lia | split; reflexivity].
  - reflexivity.
  - reflexivity.
  - split; [simpl; lia | eexists; split; reflexivity].
  - reflexivity.
  - reflexivity.
  - lia.
  - simpl. lia.
  - exists 1%nat, (sample_view XR_TYPE_VIEW_STATE).
    split; [simpl; lia | split; [reflexivity | discriminate]].
Defined.

(** X11.  When all its checks pass, [xrGetVisibilityMaskKHR] is the call
    of [oxr_session_get_visibility_mask] on the caller's mask with
    [vertexCountOutput] and [indexCountOutput] already set to 0; the vertex
    and index arrays may be NULL when their capacity is 0. *)
Theorem visibility_mask_query_starts_from_zero_counts `{B : oxr_backend}
    (st : oxr_state) (session : Z) (s : oxr_session)
    (viewConfigurationType : XrViewConfigurationType) (viewIndex : Z)
    (visibilityMaskType : XrVisibilityMaskTypeKHR) (m : XrVisibilityMaskKHR) :
  live_session st session s ->
  is_lost s = false ->
  extensions (inst st) KHR_visibility_mask = true ->
  oxr_verify_view_config_type (inst st) viewConfigurationType = XR_SUCCESS ->
  viewConfigurationType = view_config_type (system (inst st)) ->
  view_index_valid viewIndex = true ->
  (forall v, visibilityMaskType <> XR_VISIBILITY_MASK_TYPE_OTHER v) ->
  vm_type m = XR_TYPE_VISIBILITY_MASK_KHR ->
  (vertexCapacityInput m <> 0 -> is_Some (vertices m)) ->
  (indexCapacityInput m <> 0 -> is_Some (indices m)) ->
  oxr_xrGetVisibilityMaskKHR session viewConfigurationType viewIndex visibilityMaskType
    st (Some m)
  = let '(r, st', m') :=
      oxr_session_get_visibility_mask session visibilityMaskType viewIndex st
        (zero_counts m) in
    Next r st' (Some m').
Proof.
  intros Hs Hl Hx Hv Hsys Hi Hmt Hty Hvert Hind.
  unfold oxr_xrGetVisibilityMaskKHR.
  rewrite (live_session_prefix _ _ _ _ _ Hs Hl).
  step (extension_next _ _ (Some m) Hx).
  unfold bind at 1. unfold get_out.
  unfold bind at 1. cbn [deref ret].
  unfold bind at 1. unfold put_out.
  unfold OXR_VERIFY_VIEW_CONFIG_TYPE.
  unfold bind at 1. unfold bind at 1. unfold get_state. rewrite Hv.
  change (is_success XR_SUCCESS) with true. cbn [ret].
  unfold bind at 1. unfold get_state.
  rewrite (bind_next _ _ _ _ _ _ _
             (check_next _ _ st _ (bool_decide_eq_true_2 _ Hsys))).
  unfold OXR_VERIFY_VIEW_INDEX.
  step (check_next _ XR_ERROR_VALIDATION_FAILURE st (Some (zero_counts m)) Hi).
  assert (Hm : match visibilityMaskType with
               | XR_VISIBILITY_MASK_TYPE_OTHER _ => false
               | _ => true
               end = true).
  { destruct visibilityMaskType; try reflexivity. exfalso. eapply Hmt. reflexivity. }
  step (check_next _ XR_ERROR_VALIDATION_FAILURE st (Some (zero_counts m)) Hm).
  unfold bind at 1. unfold get_out.
  assert (Hty' : vm_type (zero_counts m) = XR_TYPE_VISIBILITY_MASK_KHR) by exact Hty.
  step (arg_type_next (zero_counts m) _ _ st (Some (zero_counts m)) Hty').
  cbn [zero_counts vertexCapacityInput indexCapacityInput vertices indices].
  assert (H1 : (if negb (vertexCapacityInput m =? 0)
                then OXR_VERIFY_ARG_NOT_NULL (vertices m) else ret tt)
                 st (Some (zero_counts m)) = Next tt st (Some (zero_counts m))).
  { destruct (vertexCapacityInput m =? 0) eqn:E; [reflexivity|].
    apply arg_not_null_some, Hvert. apply Z.eqb_neq. exact E. }
  step H1.
  assert (H2 : (if negb (indexCapacityInput m =? 0)
                then OXR_VERIFY_ARG_NOT_NULL (indices m) else ret tt)
                 st (Some (zero_counts m)) = Next tt st (Some (zero_counts m))).
  { destruct (indexCapacityInput m =? 0) eqn:E; [reflexivity|].
    apply arg_not_null_some, Hind. apply Z.eqb_neq. exact E. }
  step H2.
  reflexivity.
Qed.

(** X11, witness: a mask whose counts held 5 comes back with counts 0. *)
Lemma visibility_mask_query_starts_from_zero_counts_witness :
  @oxr_xrGetVisibilityMaskKHR sample_backend 1 XR_VIEW_CONFIGURATION_TYPE_PRIMARY_STEREO 0
    XR_VISIBILITY_MASK_TYPE_LINE_LOOP_KHR focused_state (Some sample_mask)
  = Next XR_SUCCESS focused_state (Some (zero_counts sample_mask)).
Proof.
  apply (@visibility_mask_query_starts_from_zero_counts sample_backend focused_state 1
           (sample_session XR_SESSION_STATE_FOCUSED true)
           XR_VIEW_CONFIGURATION_TYPE_PRIMARY_STEREO 0
           XR_VISIBILITY_MASK_TYPE_LINE_LOOP_KHR sample_mask).
  - split; [lia | split; reflexivity].
  - reflexivity.
  - reflexivity.
  - reflexivity.
  - reflexivity.
  - reflexivity.
  - discriminate.
  - reflexivity.
  - intros H. exfalso. apply H. reflexivity.
  - intros H. exfalso. apply H. reflexivity.
Defined.

(** X12.  [xrGetVisibilityMaskKHR] writes the two counts through
    [visibilityMask] before it checks that pointer: with a NULL
    [visibilityMask], on a live session that is not lost and with the
    extension enabled, the call dereferences NULL, whatever its other
    arguments are; it never reaches the check that would return
    [XR_ERROR_VALIDATION_FAILURE]. *)
Theorem visibility_mask_is_written_before_its_null_check `{B : oxr_backend}
    (st : oxr_state) (session : Z) (s : oxr_session)
    (viewConfigurationType : XrViewConfigurationType) (viewIndex : Z)
    (visibilityMaskType : XrVisibilityMaskTypeKHR) :
  live_session st session s ->
  is_lost s = false ->
  extensions (inst st) KHR_visibility_mask = true ->
  oxr_xrGetVisibilityMaskKHR session viewConfigurationType viewIndex visibilityMaskType
    st None
  = Undefined.
Proof.
  intros Hs Hl Hx. unfold oxr_xrGetVisibilityMaskKHR.
  rewrite (live_session_prefix _ _ _ _ _ Hs Hl).
  step (extension_next _ _ (@None XrVisibilityMaskKHR) Hx).
  reflexivity.
Qed.

(** X12, witness: the focused sample session and a NULL mask. *)
Lemma visibility_mask_is_written_before_its_null_check_witness :
  @oxr_xrGetVisibilityMaskKHR sample_backend 1 XR_VIEW_CONFIGURATION_TYPE_PRIMARY_STEREO 0
    XR_VISIBILITY_MASK_TYPE_LINE_LOOP_KHR focused_state None
  = Undefined.
Proof.
  apply (@visibility_mask_is_written_before_its_null_check sample_backend focused_state 1
           (sample_session XR_SESSION_STATE_FOCUSED true)).
  - split; [lia | split; reflexivity].
  - reflexivity.
  - reflexivity.
Defined.

(** X13.  On a system whose compositor lists no refresh rate,
    [xrGetDisplayRefreshRateFB] fails with [XR_ERROR_RUNTIME_FAILURE]
    without touching its output (a NULL output included), and
    [xrRequestDisplayRefreshRateFB] fails with
    [XR_ERROR_DISPLAY_REFRESH_RATE_UNSUPPORTED_FB] for every rate other
    than 0. *)
Theorem empty_rate_list_serves_no_request `{B : oxr_backend}
    (st : oxr_state) (session : Z) (s : oxr_session) (info : xrt_system_compositor_info) :
  live_session st session s ->
  is_lost s = false ->
  xsysc (system (inst st)) = Some info ->
  refresh_rate_count info = 0 ->
  (forall out,
     oxr_xrGetDisplayRefreshRateFB session st out = Error XR_ERROR_RUNTIME_FAILURE st out) /\
  (forall displayRefreshRate,
     F32.is_zero displayRefreshRate = false ->
     oxr_xrRequestDisplayRefreshRateFB session displayRefreshRate st tt
     = Error XR_ERROR_DISPLAY_REFRESH_RATE_UNSUPPORTED_FB st tt).
Proof.
  intros Hs Hl Hx Hc. split.
  - intros out. unfold oxr_xrGetDisplayRefreshRateFB.
    rewrite (live_session_prefix _ _ _ _ _ Hs Hl).
    unfold bind at 1. unfold get_state. rewrite Hx, Hc. reflexivity.
  - intros rate Hz. unfold oxr_xrRequestDisplayRefreshRateFB.
    rewrite (live_session_prefix _ _ _ _ _ Hs Hl), Hz.
    unfold bind at 1. unfold get_state. rewrite Hx.
    unfold bind at 1. cbn [deref ret]. rewrite Hc. reflexivity.
Qed.

(** X13, witness: a request for 60 Hz. *)
Lemma empty_rate_list_serves_no_request_witness :
  @oxr_xrRequestDisplayRefreshRateFB sample_backend 1 (F32.of_Z 60)
    (sample_state (sample_system (Some compositor_without_rates) None None)
       XR_SESSION_STATE_FOCUSED true) tt
  = Error XR_ERROR_DISPLAY_REFRESH_RATE_UNSUPPORTED_FB
      (sample_state (sample_system (Some compositor_without_rates) None None)
         XR_SESSION_STATE_FOCUSED true) tt.
Proof.
  refine (proj2 (@empty_rate_list_serves_no_request sample_backend _ 1
                   (sample_session XR_SESSION_STATE_FOCUSED true)
                   compositor_without_rates _ _ _ _) (F32.of_Z 60) _).
  - split; [lia | split; reflexivity].
  - reflexivity.
  - reflexivity.
  - reflexivity.
  - reflexivity.
Defined.

(** ** The session list *)

(** *** Destroying a handle *)

Lemma bind_inv {Out A C} (m : M Out A) (k : A -> M Out C) st o r st2 o2 :
  bind m k st o = Next r st2 o2 ->
  exists a st1 o1, m st o = Next a st1 o1 /\ k a st1 o1 = Next r st2 o2.
Proof.
  unfold bind. destruct (m st o) as [a st1 o1| |]; try discriminate. eauto.
Qed.

Lemma oxr_handle_destroy_inv {Out} h st (o : Out) r st' o' :
  oxr_handle_destroy h st o = Next r st' o' ->
  r = XR_SUCCESS /\ o' = o /\ heap st' !! h = None /\
  inst st' = inst st /\ free_list st' = free_list st.
Proof.
  unfold oxr_handle_destroy, bind, get_state, put_state, ret.
  destruct (heap st !! h) as [obj|] eqn:Hh; [|discriminate].
  intros [= <- <- <-]. repeat split; try reflexivity.
  cbn [heap set_heap destroy_tree]. rewrite Hh.
  set (hp := delete h _).
  assert (Hn : hp !! h = None) by apply lookup_delete_eq.
  destruct (hp !! hb_parent (handle_of obj)) as [p|] eqn:Hp; [|exact Hn].
  rewrite lookup_insert_ne; [exact Hn|]. intros <-. congruence.
Qed.

Lemma unlink_app sess l1 l2 :
  ~ In sess l1 -> unlink sess (l1 ++ sess :: l2) = Some (l1 ++ l2).
Proof.
  induction l1 as [|x l1 IH]; simpl; intros Hn.
  - rewrite bool_decide_true by reflexivity. reflexivity.
  - rewrite bool_decide_false by (intros ->; apply Hn; left; reflexivity).
    rewrite IH by (intros Hi; apply Hn; right; exact Hi). reflexivity.
Qed.

Lemma unlink_not_in sess l : ~ In sess l -> unlink sess l = None.
Proof.
  induction l as [|x l IH]; simpl; intros Hn; [reflexivity|].
  rewrite bool_decide_false by (intros ->; apply Hn; left; reflexivity).
  rewrite IH by (intros Hi; apply Hn; right; exact Hi). reflexivity.
Qed.

Lemma link_last_app sess l : link_last sess l = l ++ [sess].
Proof. induction l as [|x l IH]; simpl; [reflexivity | rewrite IH; reflexivity]. Qed.

Lemma destroy_session_run session s st l :
  live_session st session s ->
  unlink session (sessions (inst st)) = Some l ->
  exists st',
    oxr_xrDestroySession session st tt = Next XR_SUCCESS st' tt /\
    sessions (inst st') = l /\ heap st' !! session = None /\
    free_list st' = free_list st.
Proof.
  intros Hs Hu. unfold oxr_xrDestroySession.
  step (verify_session_next _ _ _ tt Hs).
  unfold bind at 1. unfold get_state. rewrite Hu.
  unfold bind at 1. cbn [deref ret].
  unfold bind at 1. unfold put_state.
  destruct Hs as (_ & Hh & _).
  destruct (oxr_handle_destroy_next session (ObjSession s) (set_sessions st l) tt Hh)
    as (st' & Hd).
  exists st'. split; [exact Hd|].
  apply oxr_handle_destroy_inv in Hd as (_ & _ & Hn & Hi & Hf).
  rewrite Hi, Hf. auto.
Qed.

(** X14.  [xrDestroySession] on a live session takes the first
    occurrence of the session out of the instance's session list and keeps
    the other sessions in their order; when the session is not on the list
    the walk along the list runs off its end and dereferences NULL. *)
Theorem session_destroy_unlinks_the_session
    (st : oxr_state) (session : Z) (s : oxr_session) :
  live_session st session s ->
  (forall l1 l2,
     sessions (inst st) = l1 ++ session :: l2 -> ~ In session l1 ->
     exists st',
       oxr_xrDestroySession session st tt = Next XR_SUCCESS st' tt /\
       sessions (inst st') = l1 ++ l2) /\
  (~ In session (sessions (inst st)) ->
   oxr_xrDestroySession session st tt = Undefined).
Proof.
  intros Hs. split.
  - intros l1 l2 Hl Hn.
    destruct (destroy_session_run session s st (l1 ++ l2) Hs) as (st' & Hd & Hl' & _).
    { rewrite Hl. apply unlink_app. exact Hn. }
    eauto.
  - intros Hn. unfold oxr_xrDestroySession.
    step (verify_session_next _ _ _ tt Hs).
    unfold bind at 1. unfold get_state. rewrite (unlink_not_in _ _ Hn). reflexivity.
Qed.

(** X14, witness: session 1 destroyed on the list 7, 1. *)
Lemma session_destroy_unlinks_the_session_witness :
  exists st',
    oxr_xrDestroySession 1 two_session_state tt = Next XR_SUCCESS st' tt /\
    sessions (inst st') = [7] ++ [].
Proof.
  refine (proj1 (session_destroy_unlinks_the_session two_session_state 1
                   (sample_session XR_SESSION_STATE_FOCUSED true) _) [7] [] _ _).
  - split; [lia | split; reflexivity].
  - reflexivity.
  - simpl. intros [H|[]]. discriminate.
Defined.

(** X15.  When the instance and the create info are valid and
    [oxr_session_create] succeeds, [xrCreateSession] with an [out_session]
    that is not NULL returns [XR_SUCCESS], writes the new session to
    [out_session] and links it at the end of the session list.  Destroying
    that session then puts the list back as [oxr_session_create] left it,
    when the session made is live and was not on the list before. *)
Theorem created_session_is_linked_last {XrSessionCreateInfo : Type}
    (instance_is_valid : Z -> oxr_state -> bool)
    (oxr_verify_XrSessionCreateInfo : oxr_instance -> option XrSessionCreateInfo -> XrResult)
    (oxr_session_create :
       option XrSessionCreateInfo -> oxr_state -> XrResult * oxr_state * Z)
    (st st1 : oxr_state) (instance : Z) (createInfo : option XrSessionCreateInfo)
    (slot sess : Z) (s : oxr_session) :
  let create :=
    oxr_xrCreateSession instance_is_valid oxr_verify_XrSessionCreateInfo
      oxr_session_create instance createInfo in
  let st2 := set_sessions st1 (sessions (inst st1) ++ [sess]) in
  instance_is_valid instance st = true ->
  oxr_verify_XrSessionCreateInfo (inst st) createInfo = XR_SUCCESS ->
  oxr_session_create createInfo st = (XR_SUCCESS, st1, sess) ->
  create st (Some slot) = Next XR_SUCCESS st2 (Some sess) /\
  (live_session st1 sess s -> ~ In sess (sessions (inst st1)) ->
   exists st3,
     oxr_xrDestroySession sess st2 tt = Next XR_SUCCESS st3 tt /\
     sessions (inst st3) = sessions (inst st1)).
Proof.
  intros create st2 Hi Hv Hc. split.
  - unfold create, oxr_xrCreateSession.
    unfold bind at 1. unfold get_state.
    step (check_next _ XR_ERROR_HANDLE_INVALID st (Some slot) Hi).
    rewrite Hv, Hc. change (is_success XR_SUCCESS) with true. cbn [negb].
    unfold bind, put_state, get_out, deref, ret, put_out.
    rewrite link_last_app. reflexivity.
  - intros Hs Hn.
    destruct (destroy_session_run sess s st2 (sessions (inst st1) ++ [])) as (st3 & Hd & Hl & _).
    + exact Hs.
    + apply unlink_app. exact Hn.
    + exists st3. split; [exact Hd|]. rewrite Hl. apply app_nil_r.
Qed.

(** X15, witness: a second session created beside session 1, and
    destroyed again. *)
Lemma created_session_is_linked_last_witness :
  exists st2,
    oxr_xrCreateSession (fun i _ => bool_decide (i = 9))
      (fun _ ci => if bool_decide (is_Some ci) then XR_SUCCESS else XR_ERROR_VALIDATION_FAILURE)
      sample_session_create 9
      (Some tt)
      focused_state (Some 0)
    = Next XR_SUCCESS st2 (Some 16) /\
    sessions (inst st2) = [1; 16] /\
    exists st3,
      oxr_xrDestroySession 16 st2 tt = Next XR_SUCCESS st3 tt /\
      sessions (inst st3) = [1].
Proof.
  destruct (created_session_is_linked_last
              (fun i _ => bool_decide (i = 9))
              (fun _ ci => if bool_decide (is_Some ci) then XR_SUCCESS
                           else XR_ERROR_VALIDATION_FAILURE)
              sample_session_create focused_state
              (snd (fst (sample_session_create None focused_state))) 9
              (Some tt)
              0 16
              {| sess_handle := live_base 0 []; sess_state := XR_SESSION_STATE_IDLE;
                 has_begun := false |})
    as (Hrun & Hback).
  - reflexivity.
  - reflexivity.
  - reflexivity.
  - eexists. split; [exact Hrun|]. split; [reflexivity|].
    apply Hback.
    + split; [lia | split; reflexivity].
    + simpl. intros [H|[]]. discriminate.
Defined.

(** ** Creation and the registry *)

Lemma owner_session_unmapped st k p : heap st !! p = None -> owner_session st k p = None.
Proof.
  intros H. unfold owner_session. case_bool_decide; [reflexivity|].
  rewrite H. destruct k; reflexivity.
Qed.

Lemma allocate_inv {Out} mk parent st (o : Out) a st1 o1 :
  OXR_ALLOCATE_HANDLE_OR_RETURN mk parent st o = Next a st1 o1 ->
  o1 = o /\ a <> 0 /\ heap st !! a = None /\
  exists p rest,
    free_list st = a :: rest /\ heap st !! parent = Some p /\
    st1 = {| inst := inst st;
             heap := <[a := mk (live_base parent [])]>
                       (<[parent := with_handle p
                                      (with_children (handle_of p)
                                         (hb_children (handle_of p) ++ [a]))]> (heap st));
             free_list := rest |}.
Proof.
  unfold OXR_ALLOCATE_HANDLE_OR_RETURN, bind, get_state.
  destruct (free_list st) as [|x rest]; [discriminate|].
  destruct (heap st !! x) eqn:Hx; [discriminate|].
  destruct (heap st !! parent) as [p|] eqn:Hp; [|discriminate].
  case_bool_decide; [discriminate|].
  simpl. intros [= <- <- <-]. repeat split; try assumption. eauto.
Qed.

(** An allocation followed by the store of the finished object. *)
Lemma grown_after_store mk parent st a p rest obj :
  a <> 0 -> heap st !! a = None -> free_list st = a :: rest ->
  heap st !! parent = Some p ->
  handle_of obj = live_base parent [] ->
  grown st
    (set_heap {| inst := inst st;
                 heap := <[a := mk (live_base parent [])]>
                           (<[parent := with_handle p
                                          (with_children (handle_of p)
                                             (hb_children (handle_of p) ++ [a]))]> (heap st));
                 free_list := rest |}
       (<[a := obj]>
          (<[a := mk (live_base parent [])]>
             (<[parent := with_handle p
                            (with_children (handle_of p)
                               (hb_children (handle_of p) ++ [a]))]> (heap st)))))
    a parent.
Proof.
  intros Ha Hn Hf Hp Hobj.
  assert (Hne : parent <> a) by (intros ->; congruence).
  unfold grown. cbn [heap inst free_list set_heap].
  repeat split; try assumption.
  - exists obj. split; [apply lookup_insert_eq | exact Hobj].
  - exists p. split; [exact Hp|].
    rewrite !lookup_insert_ne by congruence.
    apply lookup_insert_eq.
  - intros q Hqa Hqp.
    rewrite !lookup_insert_ne by congruence.
    reflexivity.
Qed.

Lemma handle_of_with_handle o h : handle_of (with_handle o h) = h.
Proof. destruct o; reflexivity. Qed.

Lemma owner_session_with_handle st k p o c x :
  heap st !! p = Some o ->
  owner_session st k p = Some x ->
  forall st', heap st' !! p = Some (with_handle o (with_children (handle_of o) c)) ->
  owner_session st' k p = Some x.
Proof.
  intros Ho Hx st' Ho'. unfold owner_session in *.
  case_bool_decide; [discriminate|]. rewrite Ho in Hx. rewrite Ho'.
  destruct k, o; try discriminate; cbn in Hx |- *;
    unfold is_live in *; cbn in *; exact Hx.
Qed.

Lemma grown_keeps_handles st st' a parent k p x :
  grown st st' a parent ->
  owner_session st k p = Some x -> owner_session st' k p = Some x.
Proof.
  intros (Ha & Hn & _ & _ & _ & (po & Hp & Hp') & Hrest) Hx.
  destruct (decide (p = a)) as [->|Hpa].
  { rewrite (owner_session_unmapped _ _ _ Hn) in Hx. discriminate. }
  destruct (decide (p = parent)) as [->|Hpp].
  { exact (owner_session_with_handle st k parent po _ x Hp Hx st' Hp'). }
  unfold owner_session in *. rewrite (Hrest p Hpa Hpp). exact Hx.
Qed.

Section CreationInversion.
Context `{B : oxr_backend} `{L : oxr_limits}.

Lemma hand_tracker_create_inv {Out} sess ci st (o : Out) a st' o' :
  oxr_hand_tracker_create sess ci st o = Next a st' o' ->
  o' = o /\ grown st st' a sess /\
  exists t, heap st' !! a = Some (ObjHandTracker t) /\ ht_sess t = sess /\
            ht_hand t = hand ci /\ ht_hand_joint_set t = handJointSet ci.
Proof.
  unfold oxr_hand_tracker_create. intros H.
  apply quiet_bind_inv in H as (st0 & Hg & H); [|auto with oxr]. injection Hg as <-.
  apply quiet_bind_inv in H as (? & _ & H); [|auto with oxr].
  apply bind_inv in H as (a' & st1 & o1 & Hal & H).
  apply allocate_inv in Hal as (-> & Ha & Hn & p & rest & Hf & Hp & ->).
  apply quiet_bind_inv in H as (t & Ht & H); [|auto with oxr].
  unfold deref_hand_tracker, bind, get_state in Ht. cbn [heap] in Ht.
  rewrite lookup_insert_eq in Ht. cbn in Ht. injection Ht as <-.
  unfold bind, store, get_state, put_state, ret in H. injection H as <- <- <-.
  split; [reflexivity|]. split.
  - apply grown_after_store; try assumption. reflexivity.
  - eexists. split; [apply lookup_insert_eq|]. repeat split.
Qed.

Lemma facial_tracker_create_inv {Out} sess ci st (o : Out) a st' o' :
  oxr_facial_tracker_htc_create sess ci st o = Next a st' o' ->
  o' = o /\ grown st st' a sess /\
  exists t, heap st' !! a = Some (ObjFaceTracker t) /\ ft_sess t = sess.
Proof.
  unfold oxr_facial_tracker_htc_create. intros H.
  apply quiet_bind_inv in H as (st0 & Hg & H); [|auto with oxr]. injection Hg as <-.
  destruct (oxr_system_get_face_tracking_htc_support (inst st)) as [eye lip].
  apply quiet_bind_inv in H as (? & _ & H); [|auto with oxr].
  apply quiet_bind_inv in H as (? & _ & H); [|auto with oxr].
  destruct (GET_XDEV_BY_ROLE (system (inst st)) face) as [xdev|]; [|discriminate].
  apply quiet_bind_inv in H as (? & _ & H); [|auto with oxr].
  apply bind_inv in H as (a' & st1 & o1 & Hal & H).
  apply allocate_inv in Hal as (-> & Ha & Hn & p & rest & Hf & Hp & ->).
  apply quiet_bind_inv in H as (t & Ht & H); [|auto with oxr].
  unfold deref_facial_tracker, bind, get_state in Ht. cbn [heap] in Ht.
  rewrite lookup_insert_eq in Ht. cbn in Ht. injection Ht as <-.
  unfold bind, store, get_state, put_state, ret in H. injection H as <- <- <-.
  split; [reflexivity|]. split.
  - apply grown_after_store; try assumption. reflexivity.
  - eexists. split; [apply lookup_insert_eq|]. reflexivity.
Qed.

Lemma grown_owner st st' a parent k obj :
  grown st st' a parent ->
  heap st' !! a = Some obj ->
  match k, obj with
  | KHandTracker, ObjHandTracker t => ht_sess t = parent
  | KFaceTracker, ObjFaceTracker t => ft_sess t = parent
  | KBodyTracker, ObjBodyTracker t => bt_sess t = parent
  | _, _ => False
  end ->
  owner_session st' k a = Some parent.
Proof.
  intros (Ha & _ & _ & _ & (obj' & Ho & Hb) & _) Hobj Hk.
  rewrite Hobj in Ho. injection Ho as <-.
  unfold owner_session. rewrite bool_decide_false by exact Ha. rewrite Hobj.
  destruct k, obj; try contradiction; cbn in Hb; rewrite Hb; cbn; congruence.
Qed.

(** The outcome of a creation call that returns. *)
Lemma creation_inv {Out} (e : entrypoint Out) k st out r st' out' :
  created_kind e = Some k ->
  exec e st out = Next r st' out' ->
  r = XR_SUCCESS /\
  exists a, created_handle e out' = Some a /\
            grown st st' a (snd (primary_handle e)) /\
            owner_session st' k a = Some (snd (primary_handle e)).
Proof.
  intros Hk H.
  destruct e; try discriminate; simpl in Hk, H |- *; injection Hk as <-;
    revert H; open_entrypoint; intros H.
  - apply quiet_bind_inv in H as (sess & Hv & H); [|auto with oxr].
    apply verify_session_inv in Hv as (-> & _).
    do 6 (apply quiet_bind_inv in H as (? & _ & H); [|solve [disciplined]]).
    apply bind_inv in H as (a & st1 & o1 & Hc & H).
    apply hand_tracker_create_inv in Hc as (-> & Hg & t & Ht & Hs & _).
    unfold bind, put_out, ret in H. injection H as <- <- <-.
    split; [reflexivity|]. exists a. split; [reflexivity|]. split; [exact Hg|].
    exact (grown_owner _ _ _ _ KHandTracker _ Hg Ht Hs).
  - apply quiet_bind_inv in H as (sess & Hv & H); [|auto with oxr].
    apply verify_session_inv in Hv as (-> & _).
    do 3 (apply quiet_bind_inv in H as (? & _ & H); [|solve [disciplined]]).
    apply bind_inv in H as (a & st1 & o1 & Hc & H).
    apply facial_tracker_create_inv in Hc as (-> & Hg & t & Ht & Hs).
    apply quiet_bind_inv in H as (? & _ & H); [|solve [disciplined]].
    apply quiet_bind_inv in H as (? & _ & H); [|solve [disciplined]].
    apply quiet_bind_inv in H as (? & _ & H); [|solve [disciplined]].
    unfold bind, put_out, ret in H. injection H as <- <- <-.
    split; [reflexivity|]. exists a. split; [reflexivity|]. split; [exact Hg|].
    exact (grown_owner _ _ _ _ KFaceTracker _ Hg Ht Hs).
  - apply quiet_bind_inv in H as (sess & Hv & H); [|auto with oxr].
    apply verify_session_inv in Hv as (-> & _).
    do 4 (apply quiet_bind_inv in H as (? & _ & H); [|solve [disciplined]]).
    apply quiet_bind_inv in H as (st0 & Hst & H); [|auto with oxr]. injection Hst as <-.
    do 4 (apply quiet_bind_inv in H as (? & _ & H); [|solve [disciplined]]).
    apply bind_inv in H as (a & st1 & o1 & Hal & H).
    apply allocate_inv in Hal as (-> & Ha & Hn & p & rest & Hf & Hp & ->).
    apply quiet_bind_inv in H as (t & Ht & H); [|auto with oxr].
    unfold deref_body_tracker, bind, get_state in Ht. cbn [heap] in Ht.
    rewrite lookup_insert_eq in Ht. cbn in Ht. injection Ht as <-.
    apply bind_inv in H as (u & st2 & o2 & Hst & H).
    unfold bind, store, get_state, put_state, ret in Hst. injection Hst as <- <- <-.
    do 3 (apply quiet_bind_inv in H as (? & _ & H); [|solve [disciplined]]).
    unfold bind, put_out, ret in H. injection H as <- <- <-.
    split; [reflexivity|]. exists a. split; [reflexivity|].
    match goal with
    | |- grown _ ?s _ _ /\ _ =>
        assert (Hg : grown st s a session)
          by (apply grown_after_store; try assumption; reflexivity)
    end.
    split; [exact Hg|].
    refine (grown_owner _ _ _ _ KBodyTracker _ Hg _ _);
      [apply lookup_insert_eq | reflexivity].
Qed.

End CreationInversion.

(** X18.  A tracker creation ([xrCreateHandTrackerEXT],
    [xrCreateFacialTrackerHTC], [xrCreateBodyTrackerFB]) that runs to its
    end returns [XR_SUCCESS] and a handle that was not in use before, now a
    live tracker of the kind asked for that belongs to the session; the
    session list is as before, and every handle that was live before is
    still live, of the same kind and with the same session. *)
Theorem tracker_creation_keeps_every_handle `{B : oxr_backend} `{L : oxr_limits} {Out}
    (e : entrypoint Out) (k : handle_kind) (st st' : oxr_state) (out out' : Out)
    (r : XrResult) :
  created_kind e = Some k ->
  exec e st out = Next r st' out' ->
  r = XR_SUCCESS /\
  sessions (inst st') = sessions (inst st) /\
  (exists a, created_handle e out' = Some a /\ heap st !! a = None /\
             owner_session st' k a = Some (snd (primary_handle e))) /\
  (forall k2 p x, owner_session st k2 p = Some x -> owner_session st' k2 p = Some x).
Proof.
  intros Hk H.
  destruct (creation_inv e k st out r st' out' Hk H) as (-> & a & Ha & Hg & Ho).
  split; [reflexivity|]. split; [|split].
  - destruct Hg as (_ & _ & -> & _). reflexivity.
  - exists a. destruct Hg as (_ & Hn & _). auto.
  - intros k2 p x. apply (grown_keeps_handles _ _ _ _ _ _ _ Hg).
Qed.

(** X18, witness: a body tracker created at address 16; the hand
    tracker 2 still belongs to session 1. *)
Lemma tracker_creation_keeps_every_handle_witness :
  exists st',
    @exec sample_backend openxr_limits _ (xrCreateBodyTrackerFB 1 (Some default_body_info))
      focused_state (Some 0)
    = Next XR_SUCCESS st' (Some 16) /\
    owner_session st' KBodyTracker 16 = Some 1 /\
    owner_session st' KHandTracker 2 = Some 1.
Proof.
  destruct (@exec sample_backend openxr_limits _
              (xrCreateBodyTrackerFB 1 (Some default_body_info)) focused_state (Some 0))
    as [r st' out'| |] eqn:E; try (vm_compute in E; discriminate).
  assert (out' = Some 16) as -> by (vm_compute in E; congruence).
  destruct (@tracker_creation_keeps_every_handle sample_backend openxr_limits _
              (xrCreateBodyTrackerFB 1 (Some default_body_info)) KBodyTracker
              focused_state st' (Some 0) (Some 16) r eq_refl E)
    as (-> & _ & (a & Ha & _ & Ho) & Hkeep).
  exists st'. split; [reflexivity|]. split.
  - simpl in Ha. injection Ha as <-. exact Ho.
  - apply Hkeep. reflexivity.
Defined.

Lemma filter_out_last (a : Z) (l : list Z) :
  ~ In a l -> filter (fun c => c <> a) (l ++ [a]) = l.
Proof.
  intros Hn. rewrite filter_app.
  rewrite (filter_cons_False (fun c => c <> a) a []) by (intros H; apply H; reflexivity).
  rewrite filter_nil, app_nil_r.
  induction l as [|x l IH]; [reflexivity|].
  rewrite filter_cons_True by (intros ->; apply Hn; left; reflexivity).
  rewrite IH by (intros Hi; apply Hn; right; exact Hi). reflexivity.
Qed.

Lemma with_handle_back p c :
  with_handle (with_handle p (with_children (handle_of p) c))
    (with_children (handle_of (with_handle p (with_children (handle_of p) c)))
       (hb_children (handle_of p)))
  = p.
Proof. destruct p as [[[] ? ?]|[[] ? ? ? ? ?]|[[] ? ? ?]|[[] ? ? ?]|[]]; reflexivity. Qed.

(** Destroying the handle a creation has just made undoes the creation. *)
Lemma destroy_new_handle {Out} st st' a parent (o : Out) :
  grown st st' a parent ->
  (forall p, heap st !! parent = Some p -> ~ In a (hb_children (handle_of p))) ->
  exists st'',
    oxr_handle_destroy a st' o = Next XR_SUCCESS st'' o /\
    heap st'' = heap st /\ inst st'' = inst st /\ free_list st'' = free_list st'.
Proof.
  intros (Ha & Hn & Hi & Hf & (obj & Ho & Hb) & (p & Hp & Hp') & Hrest) Hfresh.
  assert (Hne : parent <> a) by (intros ->; congruence).
  unfold oxr_handle_destroy, bind, get_state, put_state, ret. rewrite Ho.
  eexists. split; [reflexivity|]. cbn [heap inst free_list set_heap].
  split; [|split; [exact Hi | reflexivity]].
  cbn [destroy_tree]. rewrite Ho, Hb. cbn [live_base hb_children hb_parent fold_left].
  rewrite lookup_delete_ne by congruence. rewrite Hp'.
  rewrite handle_of_with_handle. cbn [with_children hb_children].
  rewrite filter_out_last by (apply Hfresh; exact Hp).
  apply map_eq. intros q.
  destruct (decide (q = parent)) as [->|Hqp].
  - rewrite lookup_insert_eq, Hp. f_equal.
    pose proof (with_handle_back p (hb_children (handle_of p) ++ [a])) as Hback.
    rewrite handle_of_with_handle in Hback. exact Hback.
  - rewrite lookup_insert_ne by congruence.
    destruct (decide (q = a)) as [->|Hqa].
    + rewrite lookup_delete_eq. symmetry. exact Hn.
    + rewrite lookup_delete_ne by congruence. apply Hrest; assumption.
Qed.

(** X19.  Destroying the tracker that a creation has just returned
    succeeds and puts the registry and the instance back as they were
    before the creation, when every child recorded for the session was an
    object of the registry. *)
Theorem creation_is_undone_by_destruction `{B : oxr_backend} `{L : oxr_limits} {Out}
    (e : entrypoint Out) (k : handle_kind) (st st' : oxr_state) (out out' : Out)
    (r : XrResult) (a : Z) :
  created_kind e = Some k ->
  exec e st out = Next r st' out' ->
  created_handle e out' = Some a ->
  (forall p c, heap st !! snd (primary_handle e) = Some p ->
               In c (hb_children (handle_of p)) -> heap st !! c <> None) ->
  exists st'',
    exec (destroy_of k a) st' tt = Next XR_SUCCESS st'' tt /\
    heap st'' = heap st /\ inst st'' = inst st.
Proof.
  intros Hk H Ha Hwf.
  destruct (creation_inv e k st out r st' out' Hk H) as (-> & a' & Ha' & Hg & Ho).
  rewrite Ha in Ha'. injection Ha' as <-.
  destruct (destroy_new_handle st st' a _ tt Hg) as (st'' & Hd & Hh & Hi & _).
  { intros p Hp Hin. apply (Hwf p a Hp Hin). destruct Hg as (_ & Hn & _). exact Hn. }
  exists st''. split; [|auto].
  destruct e; try discriminate; simpl in Hk; injection Hk as <-; simpl in Ho |- *.
  - destruct (owner_session_of_hand_tracker _ _ _ Ho) as (t & Ht & _).
    unfold oxr_xrDestroyHandTrackerEXT.
    step (verify_hand_tracker_next _ _ _ tt Ht). exact Hd.
  - destruct (owner_session_of_facial_tracker _ _ _ Ho) as (t & Ht & _).
    unfold oxr_xrDestroyFacialTrackerHTC.
    step (verify_facial_tracker_next _ _ _ tt Ht). exact Hd.
  - destruct (owner_session_of_body_tracker _ _ _ Ho) as (t & Ht & _).
    unfold oxr_xrDestroyBodyTrackerFB.
    step (verify_body_tracker_next _ _ _ tt Ht). exact Hd.
Qed.

(** X19, witness: a body tracker created at 16 and destroyed again. *)
Lemma creation_is_undone_by_destruction_witness :
  exists st' st'',
    @exec sample_backend openxr_limits _ (xrCreateBodyTrackerFB 1 (Some default_body_info))
      focused_state (Some 0)
    = Next XR_SUCCESS st' (Some 16) /\
    @exec sample_backend openxr_limits _ (xrDestroyBodyTrackerFB 16) st' tt
    = Next XR_SUCCESS st'' tt /\
    heap st'' = heap focused_state.
Proof.
  destruct (@exec sample_backend openxr_limits _
              (xrCreateBodyTrackerFB 1 (Some default_body_info)) focused_state (Some 0))
    as [r st' out'| |] eqn:E; try (vm_compute in E; discriminate).
  assert (out' = Some 16) as -> by (vm_compute in E; congruence).
  assert (r = XR_SUCCESS) as -> by (vm_compute in E; congruence).
  destruct (@creation_is_undone_by_destruction sample_backend openxr_limits _
              (xrCreateBodyTrackerFB 1 (Some default_body_info)) KBodyTracker
              focused_state st' (Some 0) (Some 16) XR_SUCCESS 16 eq_refl E eq_refl)
    as (st'' & Hd & Hh & _).
  - intros p c Hp Hin. simpl in Hp. vm_compute in Hp. injection Hp as <-.
    simpl in Hin.
    destruct Hin as [<-|[<-|[<-|[<-|[<-|[]]]]]]; vm_compute; discriminate.
  - exists st', st''. auto.
Defined.

(** ** What the created trackers hold *)

Lemma find_hand_input_some h l name :
  List.find (hand_input_matches h) l = Some name ->
  hand_input h = Some name /\ In name l.
Proof.
  intros H. apply find_some in H as [Hin Hm]. split; [|exact Hin].
  destruct name, h; try discriminate; reflexivity.
Qed.

Lemma find_hand_input_none h l name :
  List.find (hand_input_matches h) l = None ->
  hand_input h = Some name -> ~ In name l.
Proof.
  intros H Hn Hin. pose proof (find_none _ _ H _ Hin) as Hm.
  destruct h; try discriminate; injection Hn as <-; discriminate.
Qed.

Section HandBinding.
Context `{B : oxr_backend} `{L : oxr_limits}.

Lemma hand_tracker_create_binding {Out} sess ci st (o : Out) a st' o' :
  oxr_hand_tracker_create sess ci st o = Next a st' o' ->
  exists t, heap st' !! a = Some (ObjHandTracker t) /\ ht_sess t = sess /\
            ht_hand t = hand ci /\ ht_hand_joint_set t = handJointSet ci /\
    (forall d name,
       hand_role (system (inst st)) (hand ci) = Some d ->
       hand_tracking_supported d = true ->
       hand_input (hand ci) = Some name -> In name (inputs d) ->
       ht_xdev t = Some d /\ ht_input_name t = name) /\
    ((forall d name,
        hand_role (system (inst st)) (hand ci) = Some d ->
        hand_tracking_supported d = true ->
        hand_input (hand ci) = Some name -> ~ In name (inputs d)) ->
     ht_xdev t = None).
Proof.
  unfold oxr_hand_tracker_create. intros H.
  apply quiet_bind_inv in H as (st0 & Hg & H); [|auto with oxr]. injection Hg as <-.
  apply quiet_bind_inv in H as (? & _ & H); [|auto with oxr].
  apply bind_inv in H as (a' & st1 & o1 & Hal & H).
  apply allocate_inv in Hal as (-> & Ha & Hn & p & rest & Hf & Hp & ->).
  apply quiet_bind_inv in H as (t & Ht & H); [|auto with oxr].
  unfold deref_hand_tracker, bind, get_state in Ht. cbn [heap] in Ht.
  rewrite lookup_insert_eq in Ht. cbn in Ht. injection Ht as <-.
  unfold bind, store, get_state, put_state, ret in H. injection H as <- <- <-.
  eexists. split; [apply lookup_insert_eq|].
  cbn [ht_sess ht_hand ht_hand_joint_set ht_xdev ht_input_name].
  split; [reflexivity|]. split; [reflexivity|]. split; [reflexivity|]. split.
  - intros d name Hr Hs Hi Hin. unfold hand_role, GET_XDEV_BY_ROLE in Hr. rewrite Hr, Hs.
    destruct (List.find (hand_input_matches (hand ci)) (inputs d)) as [n|] eqn:Hfind.
    + apply find_hand_input_some in Hfind as [Hi' _]. split; [reflexivity | congruence].
    + exfalso. exact (find_hand_input_none _ _ _ Hfind Hi Hin).
  - intros Hno. unfold hand_role, GET_XDEV_BY_ROLE in Hno.
    match goal with
    | |- context [match ?x with
                  | Some d => if hand_tracking_supported d then _ else None
                  | None => None
                  end] => destruct x as [d|] eqn:Hr; [|reflexivity]
    end.
    destruct (hand_tracking_supported d) eqn:Hs; [|reflexivity].
    destruct (List.find (hand_input_matches (hand ci)) (inputs d)) as [n|] eqn:Hfind;
      [|reflexivity].
    apply find_hand_input_some in Hfind as [Hi Hin].
    exfalso. exact (Hno d n eq_refl Hs Hi Hin).
Qed.

End HandBinding.

(** X20.  The tracker that [xrCreateHandTrackerEXT] returns carries the
    session, the hand and the joint set of the request.  It is bound to the
    device of the hand's role, with the generic hand-tracking input of that
    hand as its input, when this device supports hand tracking and lists
    that input; it is bound to no device when no device has these
    properties. *)
Theorem hand_tracker_binds_the_matching_input `{B : oxr_backend}
    (st st' : oxr_state) (session : Z) (createInfo : XrHandTrackerCreateInfoEXT)
    (out out' : option Z) (r : XrResult) :
  oxr_xrCreateHandTrackerEXT session (Some createInfo) st out = Next r st' out' ->
  exists a t,
    out' = Some a /\ heap st' !! a = Some (ObjHandTracker t) /\
    ht_sess t = session /\ ht_hand t = hand createInfo /\
    ht_hand_joint_set t = handJointSet createInfo /\
    (forall d name,
       hand_role (system (inst st)) (hand createInfo) = Some d ->
       hand_tracking_supported d = true ->
       hand_input (hand createInfo) = Some name -> In name (inputs d) ->
       ht_xdev t = Some d /\ ht_input_name t = name) /\
    ((forall d name,
        hand_role (system (inst st)) (hand createInfo) = Some d ->
        hand_tracking_supported d = true ->
        hand_input (hand createInfo) = Some name -> ~ In name (inputs d)) ->
     ht_xdev t = None).
Proof.
  unfold oxr_xrCreateHandTrackerEXT. intros H.
  apply quiet_bind_inv in H as (sess & Hv & H); [|auto with oxr].
  apply verify_session_inv in Hv as (-> & _).
  apply quiet_bind_inv in H as (? & _ & H); [|auto with oxr].
  apply quiet_bind_inv in H as (ci & Hci & H); [|auto with oxr].
  apply arg_type_inv in Hci as [[= <-] _].
  do 4 (apply quiet_bind_inv in H as (? & _ & H); [|solve [disciplined]]).
  apply bind_inv in H as (a & st1 & o1 & Hc & H).
  apply hand_tracker_create_binding in Hc as (t & Ht).
  unfold bind, put_out, ret in H. injection H as <- <- <-.
  exists a, t. split; [reflexivity | exact Ht].
Qed.

(** X20, witness: a right-hand tracker on the system that serves the
    right hand. *)
Lemma hand_tracker_binds_the_matching_input_witness :
  exists st' a t,
    @oxr_xrCreateHandTrackerEXT sample_backend 1 (Some right_hand_info)
      right_hand_only_state (Some 0)
    = Next XR_SUCCESS st' (Some a) /\
    heap st' !! a = Some (ObjHandTracker t) /\
    ht_xdev t = Some (sample_device true) /\
    ht_input_name t = XRT_INPUT_GENERIC_HAND_TRACKING_RIGHT.
Proof.
  destruct (@oxr_xrCreateHandTrackerEXT sample_backend 1 (Some right_hand_info)
              right_hand_only_state (Some 0))
    as [r st' out'| |] eqn:E; try (vm_compute in E; discriminate).
  assert (r = XR_SUCCESS) as -> by (vm_compute in E; congruence).
  destruct (@hand_tracker_binds_the_matching_input sample_backend right_hand_only_state st'
              1 right_hand_info (Some 0) out' XR_SUCCESS E)
    as (a & t & -> & Ht & _ & _ & _ & Hbind & _).
  exists st', a, t. split; [reflexivity|]. split; [exact Ht|].
  apply (Hbind (sample_device true) XRT_INPUT_GENERIC_HAND_TRACKING_RIGHT);
    [reflexivity | reflexivity | reflexivity | simpl; auto].
Defined.

Section FacialCreation.
Context `{B : oxr_backend} `{L : oxr_limits}.

Lemma facial_create_run {Out} sess ci st (o : Out) p a rest d :
  heap st !! sess = Some p ->
  free_list st = a :: rest -> a <> 0 -> heap st !! a = None ->
  (oxr_to_xrt_facial_tracking_type_htc (facialTrackingType ci)
   = XRT_FACIAL_TRACKING_TYPE_EYE_DEFAULT_HTC ->
   fst (oxr_system_get_face_tracking_htc_support (inst st)) = true) ->
  (oxr_to_xrt_facial_tracking_type_htc (facialTrackingType ci)
   = XRT_FACIAL_TRACKING_TYPE_LIP_DEFAULT_HTC ->
   snd (oxr_system_get_face_tracking_htc_support (inst st)) = true) ->
  role_face (system (inst st)) = Some d ->
  face_tracking_supported d = true ->
  exists st',
    oxr_facial_tracker_htc_create sess ci st o = Next a st' o /\
    heap st' !! a
    = Some (ObjFaceTracker
              {| ft_handle := live_base sess []; ft_sess := sess; ft_xdev := Some d;
                 facial_tracking_type :=
                   oxr_to_xrt_facial_tracking_type_htc (facialTrackingType ci) |}).
Proof.
  intros Hp Hf Ha Hn He Hlip Hd Hs.
  unfold oxr_facial_tracker_htc_create.
  unfold bind at 1. unfold get_state.
  destruct (oxr_system_get_face_tracking_htc_support (inst st)) as [eye lip].
  cbn [fst snd] in He, Hlip.
  set (ftt := oxr_to_xrt_facial_tracking_type_htc (facialTrackingType ci)) in *.
  assert (H1 : negb (is_eye ftt && negb eye) = true).
  { destruct ftt; try reflexivity. rewrite He by reflexivity. reflexivity. }
  assert (H2 : negb (is_lip ftt && negb lip) = true).
  { destruct ftt; try reflexivity. rewrite Hlip by reflexivity. reflexivity. }
  step (check_next _ XR_ERROR_FEATURE_UNSUPPORTED st o H1).
  step (check_next _ XR_ERROR_FEATURE_UNSUPPORTED st o H2).
  cbn [GET_XDEV_BY_ROLE]. rewrite Hd.
  step (check_next _ XR_ERROR_FEATURE_UNSUPPORTED st o Hs).
  step (allocate_next facial_tracker0 sess p a rest st o Hf Ha Hn Hp).
  unfold bind at 1.
  erewrite deref_facial_tracker_next by (cbn [heap]; apply lookup_insert_eq).
  unfold bind, store, get_state, put_state, ret.
  eexists. split; [reflexivity|]. cbn. apply lookup_insert_eq.
Qed.

Lemma facial_create_unsupported {Out} sess ci st (o : Out) :
  (oxr_to_xrt_facial_tracking_type_htc (facialTrackingType ci)
   = XRT_FACIAL_TRACKING_TYPE_EYE_DEFAULT_HTC /\
   fst (oxr_system_get_face_tracking_htc_support (inst st)) = false) \/
  (oxr_to_xrt_facial_tracking_type_htc (facialTrackingType ci)
   = XRT_FACIAL_TRACKING_TYPE_LIP_DEFAULT_HTC /\
   snd (oxr_system_get_face_tracking_htc_support (inst st)) = false) \/
  role_face (system (inst st)) = None \/
  (exists d, role_face (system (inst st)) = Some d /\ face_tracking_supported d = false) ->
  oxr_facial_tracker_htc_create sess ci st o = Error XR_ERROR_FEATURE_UNSUPPORTED st o.
Proof.
  intros Hbad.
  unfold oxr_facial_tracker_htc_create. unfold bind at 1. unfold get_state.
  destruct (oxr_system_get_face_tracking_htc_support (inst st)) as [eye lip].
  cbn [fst snd] in Hbad.
  set (ftt := oxr_to_xrt_facial_tracking_type_htc (facialTrackingType ci)) in *.
  unfold bind, check, oxr_error, ret. cbn [GET_XDEV_BY_ROLE].
  destruct Hbad as [[Ht He]|[[Ht Hl]|[Hr|(d & Hr & Hs)]]].
  - rewrite Ht, He. reflexivity.
  - rewrite Ht, Hl. reflexivity.
  - rewrite Hr.
    destruct (is_eye ftt && negb eye), (is_lip ftt && negb lip); reflexivity.
  - rewrite Hr, Hs.
    destruct (is_eye ftt && negb eye), (is_lip ftt && negb lip); reflexivity.
Qed.

End FacialCreation.

Section CreationRuns.
Context `{B : oxr_backend} `{L : oxr_limits}.

Lemma facial_entry_prefix st session s ci out :
  live_session st session s -> is_lost s = false ->
  ftci_type ci = XR_TYPE_FACIAL_TRACKER_CREATE_INFO_HTC ->
  extensions (inst st) HTC_facial_tracking = true ->
  oxr_xrCreateFacialTrackerHTC session (Some ci) st out
  = (do facial_tracker_htc <- oxr_facial_tracker_htc_create session ci;
     do _ <- OXR_VERIFY_ARG_NOT_NULL (nonnull facial_tracker_htc);
     do facialTracker <- get_out;
     do _ <- deref facialTracker;
     do _ <- put_out (Some (to_openxr facial_tracker_htc));
     ret XR_SUCCESS) st out.
Proof.
  intros Hs Hl Hty Hext. unfold oxr_xrCreateFacialTrackerHTC.
  rewrite (live_session_prefix _ _ _ _ _ Hs Hl).
  step (arg_type_next ci _ _ st out Hty).
  step (extension_next _ _ out Hext). reflexivity.
Qed.

(** The body creation up to the checks on the system and the device. *)
Lemma body_entry_prefix st session s ci out :
  live_session st session s -> is_lost s = false ->
  btci_type ci = XR_TYPE_BODY_TRACKER_CREATE_INFO_FB ->
  extensions (inst st) FB_body_tracking = true ->
  (bodyJointSet ci = XR_BODY_JOINT_SET_FULL_BODY_META ->
   extensions (inst st) META_body_tracking_full_body = true) ->
  oxr_xrCreateBodyTrackerFB session (Some ci) st out
  = (let jst := oxr_to_xrt_body_joint_set_type_fb (bodyJointSet ci) in
     do _ <- check (oxr_system_get_body_tracking_fb_support (inst st))
               XR_ERROR_FEATURE_UNSUPPORTED;
     do _ <- check (match jst with XRT_BODY_JOINT_SET_UNKNOWN => false | _ => true end)
               XR_ERROR_FEATURE_UNSUPPORTED;
     do _ <- (if is_full_body jst
              then check (oxr_system_get_full_body_tracking_meta_support (inst st))
                     XR_ERROR_FEATURE_UNSUPPORTED
              else ret tt);
     let xdev := GET_XDEV_BY_ROLE (system (inst st)) body in
     do _ <- check (supports_body xdev) XR_ERROR_FEATURE_UNSUPPORTED;
     do body_tracker_fb <- OXR_ALLOCATE_HANDLE_OR_RETURN body_tracker0 session;
     do t <- deref_body_tracker body_tracker_fb;
     do _ <- store body_tracker_fb
               (ObjBodyTracker {| bt_handle := bt_handle t; bt_sess := session;
                                  bt_xdev := xdev; joint_set_type := jst |});
     do _ <- OXR_VERIFY_ARG_NOT_NULL (nonnull body_tracker_fb);
     do bodyTracker <- get_out;
     do _ <- deref bodyTracker;
     do _ <- put_out (Some (to_openxr body_tracker_fb));
     ret XR_SUCCESS) st out.
Proof.
  intros Hs Hl Hty Hext Hfull. unfold oxr_xrCreateBodyTrackerFB.
  rewrite (live_session_prefix _ _ _ _ _ Hs Hl).
  step (arg_type_next ci _ _ st out Hty).
  step (extension_next _ _ out Hext).
  assert (H : match bodyJointSet ci with
              | XR_BODY_JOINT_SET_FULL_BODY_META =>
                  OXR_VERIFY_EXTENSION META_body_tracking_full_body
              | _ => ret tt
              end st out = Next tt st out).
  { destruct (bodyJointSet ci); try reflexivity.
    apply extension_next, Hfull. reflexivity. }
  step H. reflexivity.
Qed.

(** The same from the allocation on, when those checks pass. *)
Lemma body_entry_run st session s ci out d a rest :
  live_session st session s -> is_lost s = false ->
  btci_type ci = XR_TYPE_BODY_TRACKER_CREATE_INFO_FB ->
  extensions (inst st) FB_body_tracking = true ->
  (bodyJointSet ci = XR_BODY_JOINT_SET_FULL_BODY_META ->
   extensions (inst st) META_body_tracking_full_body = true) ->
  oxr_system_get_body_tracking_fb_support (inst st) = true ->
  (forall v, bodyJointSet ci <> XR_BODY_JOINT_SET_OTHER v) ->
  (bodyJointSet ci = XR_BODY_JOINT_SET_FULL_BODY_META ->
   oxr_system_get_full_body_tracking_meta_support (inst st) = true) ->
  role_body (system (inst st)) = Some d ->
  body_tracking_supported d = true ->
  free_list st = a :: rest -> a <> 0 -> heap st !! a = None ->
  exists st',
    heap st' !! a
    = Some (ObjBodyTracker
              {| bt_handle := live_base session []; bt_sess := session; bt_xdev := Some d;
                 joint_set_type := oxr_to_xrt_body_joint_set_type_fb (bodyJointSet ci) |}) /\
    oxr_xrCreateBodyTrackerFB session (Some ci) st out
    = match out with
      | Some _ => Next XR_SUCCESS st' (Some a)
      | None => Undefined
      end.
Proof.
  intros Hs Hl Hty Hext Hfull Hsys Hknown Hmeta Hd Hsup Hf Ha Hn.
  rewrite (body_entry_prefix _ _ _ _ out Hs Hl Hty Hext Hfull). cbv zeta.
  step (check_next _ XR_ERROR_FEATURE_UNSUPPORTED st out Hsys).
  assert (H1 : match oxr_to_xrt_body_joint_set_type_fb (bodyJointSet ci) with
               | XRT_BODY_JOINT_SET_UNKNOWN => false
               | _ => true
               end = true).
  { destruct (bodyJointSet ci) eqn:E; try reflexivity. exfalso. eapply Hknown. reflexivity. }
  step (check_next _ XR_ERROR_FEATURE_UNSUPPORTED st out H1).
  assert (H2 : (if is_full_body (oxr_to_xrt_body_joint_set_type_fb (bodyJointSet ci))
                then check (oxr_system_get_full_body_tracking_meta_support (inst st))
                       XR_ERROR_FEATURE_UNSUPPORTED
                else ret tt) st out = Next tt st out).
  { destruct (bodyJointSet ci) eqn:E; try reflexivity.
    cbn. rewrite Hmeta by reflexivity. reflexivity. }
  step H2. cbn [GET_XDEV_BY_ROLE]. rewrite Hd. cbn [supports_body].
  step (check_next _ XR_ERROR_FEATURE_UNSUPPORTED st out Hsup).
  destruct Hs as (_ & Hh & _).
  step (allocate_next body_tracker0 session _ a rest st out Hf Ha Hn Hh).
  unfold bind at 1.
  erewrite deref_body_tracker_next by (cbn [heap]; apply lookup_insert_eq).
  unfold bind at 1. unfold store at 1. unfold bind at 1. unfold get_state.
  unfold put_state. unfold nonnull. rewrite bool_decide_false by exact Ha.
  eexists. split; [|destruct out; reflexivity].
  cbn. apply lookup_insert_eq.
Qed.

End CreationRuns.

(** X21.  [xrCreateFacialTrackerHTC] on a live session that is not lost,
    with a well-typed create info and the extension enabled, fails with
    [XR_ERROR_FEATURE_UNSUPPORTED] and creates nothing when the system does
    not support the eye or lip tracking asked for, when no device is bound
    to the face role, or when that device does not support face tracking.
    Otherwise, as soon as the allocation succeeds, it returns [XR_SUCCESS]
    and a live tracker of the session bound to the face device, with the
    converted tracking type of the request. *)
Theorem facial_tracker_creation_needs_the_face_device `{B : oxr_backend}
    (st : oxr_state) (session : Z) (s : oxr_session)
    (createInfo : XrFacialTrackerCreateInfoHTC) :
  let ftt := oxr_to_xrt_facial_tracking_type_htc (facialTrackingType createInfo) in
  let supports_eye := fst (oxr_system_get_face_tracking_htc_support (inst st)) in
  let supports_lip := snd (oxr_system_get_face_tracking_htc_support (inst st)) in
  live_session st session s ->
  is_lost s = false ->
  ftci_type createInfo = XR_TYPE_FACIAL_TRACKER_CREATE_INFO_HTC ->
  extensions (inst st) HTC_facial_tracking = true ->
  ((ftt = XRT_FACIAL_TRACKING_TYPE_EYE_DEFAULT_HTC /\ supports_eye = false) \/
   (ftt = XRT_FACIAL_TRACKING_TYPE_LIP_DEFAULT_HTC /\ supports_lip = false) \/
   role_face (system (inst st)) = None \/
   (exists d, role_face (system (inst st)) = Some d /\ face_tracking_supported d = false) ->
   forall out,
     oxr_xrCreateFacialTrackerHTC session (Some createInfo) st out
     = Error XR_ERROR_FEATURE_UNSUPPORTED st out) /\
  (forall d a rest slot,
     (ftt = XRT_FACIAL_TRACKING_TYPE_EYE_DEFAULT_HTC -> supports_eye = true) ->
     (ftt = XRT_FACIAL_TRACKING_TYPE_LIP_DEFAULT_HTC -> supports_lip = true) ->
     role_face (system (inst st)) = Some d ->
     face_tracking_supported d = true ->
     free_list st = a :: rest -> a <> 0 -> heap st !! a = None ->
     exists st',
       oxr_xrCreateFacialTrackerHTC session (Some createInfo) st (Some slot)
       = Next XR_SUCCESS st' (Some a) /\
       heap st' !! a
       = Some (ObjFaceTracker
                 {| ft_handle := live_base session []; ft_sess := session;
                    ft_xdev := Some d; facial_tracking_type := ftt |})).
Proof.
  intros ftt supports_eye supports_lip Hs Hl Hty Hext.
  split.
  - intros Hbad out. rewrite (facial_entry_prefix _ _ _ _ out Hs Hl Hty Hext).
    apply bind_error. apply facial_create_unsupported. exact Hbad.
  - intros d a rest slot He Hlip Hd Hsup Hf Ha Hn.
    rewrite (facial_entry_prefix _ _ _ _ (Some slot) Hs Hl Hty Hext).
    destruct Hs as (_ & Hh & _).
    destruct (facial_create_run session createInfo st (Some slot) _ a rest d
                Hh Hf Ha Hn He Hlip Hd Hsup) as (st' & Hc & Hobj).
    exists st'. split; [|exact Hobj].
    step Hc. unfold nonnull. rewrite bool_decide_false by exact Ha. reflexivity.
Qed.

(** X21, witness: an eye tracker on a system without a face device. *)
Lemma facial_tracker_creation_needs_the_face_device_witness :
  @oxr_xrCreateFacialTrackerHTC sample_backend 1 (Some eye_info)
    (sample_state faceless_system XR_SESSION_STATE_FOCUSED true) (Some 0)
  = Error XR_ERROR_FEATURE_UNSUPPORTED
      (sample_state faceless_system XR_SESSION_STATE_FOCUSED true) (Some 0).
Proof.
  refine (proj1 (@facial_tracker_creation_needs_the_face_device sample_backend
                   (sample_state faceless_system XR_SESSION_STATE_FOCUSED true) 1
                   (sample_session XR_SESSION_STATE_FOCUSED true) eye_info _ _ _ _)
            _ (Some 0)).
  - split; [lia | split; reflexivity].
  - reflexivity.
  - reflexivity.
  - reflexivity.
  - right. right. left. reflexivity.
Defined.

(** X22.  [xrCreateBodyTrackerFB] on a live session that is not lost,
    with a well-typed create info and XR_FB_body_tracking enabled: the
    full-body joint set without XR_META_body_tracking_full_body gives
    [XR_ERROR_FUNCTION_UNSUPPORTED]; a system without body tracking, an
    unknown joint set, the full-body set on a system without full-body
    support, or a body role without a supporting device give
    [XR_ERROR_FEATURE_UNSUPPORTED]; nothing is created in these cases.
    Otherwise, as soon as the allocation succeeds, the call returns
    [XR_SUCCESS] and a live tracker of the session bound to the body device,
    with the joint set of the request. *)
Theorem body_tracker_creation_needs_the_body_device `{B : oxr_backend}
    (st : oxr_state) (session : Z) (s : oxr_session)
    (createInfo : XrBodyTrackerCreateInfoFB) :
  let jst := oxr_to_xrt_body_joint_set_type_fb (bodyJointSet createInfo) in
  let full := bodyJointSet createInfo = XR_BODY_JOINT_SET_FULL_BODY_META in
  live_session st session s ->
  is_lost s = false ->
  btci_type createInfo = XR_TYPE_BODY_TRACKER_CREATE_INFO_FB ->
  extensions (inst st) FB_body_tracking = true ->
  (full -> extensions (inst st) META_body_tracking_full_body = false ->
   forall out,
     oxr_xrCreateBodyTrackerFB session (Some createInfo) st out
     = Error XR_ERROR_FUNCTION_UNSUPPORTED st out) /\
  ((full -> extensions (inst st) META_body_tracking_full_body = true) ->
   oxr_system_get_body_tracking_fb_support (inst st) = false \/
   jst = XRT_BODY_JOINT_SET_UNKNOWN \/
   (full /\ oxr_system_get_full_body_tracking_meta_support (inst st) = false) \/
   supports_body (role_body (system (inst st))) = false ->
   forall out,
     oxr_xrCreateBodyTrackerFB session (Some createInfo) st out
     = Error XR_ERROR_FEATURE_UNSUPPORTED st out) /\
  (forall d a rest slot,
     (full -> extensions (inst st) META_body_tracking_full_body = true) ->
     oxr_system_get_body_tracking_fb_support (inst st) = true ->
     jst <> XRT_BODY_JOINT_SET_UNKNOWN ->
     (full -> oxr_system_get_full_body_tracking_meta_support (inst st) = true) ->
     role_body (system (inst st)) = Some d ->
     body_tracking_supported d = true ->
     free_list st = a :: rest -> a <> 0 -> heap st !! a = None ->
     exists st',
       oxr_xrCreateBodyTrackerFB session (Some createInfo) st (Some slot)
       = Next XR_SUCCESS st' (Some a) /\
       heap st' !! a
       = Some (ObjBodyTracker
                 {| bt_handle := live_base session []; bt_sess := session;
                    bt_xdev := Some d; joint_set_type := jst |})).
Proof.
  intros jst full Hs Hl Hty Hext. split; [|split].
  - intros Hfull Hno out. unfold oxr_xrCreateBodyTrackerFB.
    rewrite (live_session_prefix _ _ _ _ _ Hs Hl).
    step (arg_type_next createInfo _ _ st out Hty).
    step (extension_next _ _ out Hext).
    apply bind_error. unfold full in Hfull. rewrite Hfull.
    unfold OXR_VERIFY_EXTENSION, bind, get_state. rewrite Hno. reflexivity.
  - intros Hfull Hbad out.
    rewrite (body_entry_prefix _ _ _ _ out Hs Hl Hty Hext Hfull). cbv zeta.
    fold jst. unfold bind, check, oxr_error, ret. cbn [GET_XDEV_BY_ROLE].
    destruct (oxr_system_get_body_tracking_fb_support (inst st)) eqn:E1; [|reflexivity].
    destruct Hbad as [Hb|[Hb|[[Hb1 Hb2]|Hb]]].
    + discriminate.
    + rewrite Hb. reflexivity.
    + unfold jst, full in *. rewrite Hb1. cbn. rewrite Hb2. reflexivity.
    + rewrite Hb.
      destruct jst; [reflexivity| |]; cbn;
        destruct (oxr_system_get_full_body_tracking_meta_support (inst st)); reflexivity.
  - intros d a rest slot Hfull Hsys Hknown Hmeta Hd Hsup Hf Ha Hn.
    destruct (body_entry_run st session s createInfo (Some slot) d a rest
                Hs Hl Hty Hext Hfull Hsys) as (st' & Hobj & Hrun); try assumption.
    + intros v Hv. apply Hknown. unfold jst. rewrite Hv. reflexivity.
    + exists st'. split; [exact Hrun | exact Hobj].
Qed.

(** X22, witness: the full-body set without its extension. *)
Lemma body_tracker_creation_needs_the_body_device_witness :
  @oxr_xrCreateBodyTrackerFB sample_backend 1 (Some full_body_info)
    (without_extension META_body_tracking_full_body focused_state) (Some 0)
  = Error XR_ERROR_FUNCTION_UNSUPPORTED
      (without_extension META_body_tracking_full_body focused_state) (Some 0).
Proof.
  refine (proj1 (@body_tracker_creation_needs_the_body_device sample_backend
                   (without_extension META_body_tracking_full_body focused_state) 1
                   (sample_session XR_SESSION_STATE_FOCUSED true) full_body_info _ _ _ _)
            _ _ (Some 0)).
  - split; [lia | split; reflexivity].
  - reflexivity.
  - reflexivity.
  - reflexivity.
  - reflexivity.
  - reflexivity.
Defined.

(** X23.  Of the three creation calls only [xrCreateHandTrackerEXT]
    checks its output pointer: with a NULL [handTracker] it fails with
    [XR_ERROR_VALIDATION_FAILURE] before anything is created.
    [xrCreateFacialTrackerHTC] and [xrCreateBodyTrackerFB] test the tracker
    they have just made instead, and then write through the output: with a
    NULL output pointer and a request that is otherwise served, they
    dereference NULL after the tracker has been allocated. *)
Theorem only_the_hand_tracker_output_is_checked `{B : oxr_backend}
    (st : oxr_state) (session : Z) (s : oxr_session) :
  live_session st session s ->
  is_lost s = false ->
  (forall createInfo,
     htci_type createInfo = XR_TYPE_HAND_TRACKER_CREATE_INFO_EXT ->
     oxr_xrCreateHandTrackerEXT session (Some createInfo) st None
     = Error XR_ERROR_VALIDATION_FAILURE st None) /\
  (forall createInfo d a rest,
     let ftt := oxr_to_xrt_facial_tracking_type_htc (facialTrackingType createInfo) in
     ftci_type createInfo = XR_TYPE_FACIAL_TRACKER_CREATE_INFO_HTC ->
     extensions (inst st) HTC_facial_tracking = true ->
     (ftt = XRT_FACIAL_TRACKING_TYPE_EYE_DEFAULT_HTC ->
      fst (oxr_system_get_face_tracking_htc_support (inst st)) = true) ->
     (ftt = XRT_FACIAL_TRACKING_TYPE_LIP_DEFAULT_HTC ->
      snd (oxr_system_get_face_tracking_htc_support (inst st)) = true) ->
     role_face (system (inst st)) = Some d ->
     face_tracking_supported d = true ->
     free_list st = a :: rest -> a <> 0 -> heap st !! a = None ->
     oxr_xrCreateFacialTrackerHTC session (Some createInfo) st None = Undefined) /\
  (forall createInfo d a rest,
     btci_type createInfo = XR_TYPE_BODY_TRACKER_CREATE_INFO_FB ->
     extensions (inst st) FB_body_tracking = true ->
     (bodyJointSet createInfo = XR_BODY_JOINT_SET_FULL_BODY_META ->
      extensions (inst st) META_body_tracking_full_body = true) ->
     oxr_system_get_body_tracking_fb_support (inst st) = true ->
     (forall v, bodyJointSet createInfo <> XR_BODY_JOINT_SET_OTHER v) ->
     (bodyJointSet createInfo = XR_BODY_JOINT_SET_FULL_BODY_META ->
      oxr_system_get_full_body_tracking_meta_support (inst st) = true) ->
     role_body (system (inst st)) = Some d ->
     body_tracking_supported d = true ->
     free_list st = a :: rest -> a <> 0 -> heap st !! a = None ->
     oxr_xrCreateBodyTrackerFB session (Some createInfo) st None = Undefined).
Proof.
  intros Hs Hl. split; [|split].
  - intros ci Hty. unfold oxr_xrCreateHandTrackerEXT.
    rewrite (live_session_prefix _ _ _ _ _ Hs Hl).
    step (arg_type_next ci _ _ st (@None Z) Hty). reflexivity.
  - intros ci d a rest ftt Hty Hext He Hlip Hd Hsup Hf Ha Hn.
    rewrite (facial_entry_prefix _ _ _ _ None Hs Hl Hty Hext).
    pose proof Hs as (_ & Hh & _).
    destruct (facial_create_run session ci st (@None Z) _ a rest d
                Hh Hf Ha Hn He Hlip Hd Hsup) as (st' & Hc & _).
    step Hc. unfold nonnull. rewrite bool_decide_false by exact Ha. reflexivity.
  - intros ci d a rest Hty Hext Hfull Hsys Hknown Hmeta Hd Hsup Hf Ha Hn.
    destruct (body_entry_run st session s ci None d a rest
                Hs Hl Hty Hext Hfull Hsys Hknown Hmeta Hd Hsup Hf Ha Hn)
      as (st' & _ & Hrun).
    exact Hrun.
Qed.

(** X23, witness: a body tracker asked for with a NULL output. *)
Lemma only_the_hand_tracker_output_is_checked_witness :
  @oxr_xrCreateBodyTrackerFB sample_backend 1 (Some default_body_info) focused_state None
  = Undefined.
Proof.
  refine (proj2 (proj2 (@only_the_hand_tracker_output_is_checked sample_backend
                          focused_state 1 (sample_session XR_SESSION_STATE_FOCUSED true)
                          _ _))
            default_body_info (sample_device false) 16 [17] _ _ _ _ _ _ _ _ _ _ _).
  - split; [lia | split; reflexivity].
  - reflexivity.
  - reflexivity.
  - reflexivity.
  - discriminate.
  - reflexivity.
  - discriminate.
  - discriminate.
  - reflexivity.
  - reflexivity.
  - reflexivity.
  - lia.
  - reflexivity.
Defined.

(** ** What the queries write *)

(** X24.  For a tracker of the default joint set, [xrLocateHandJointsEXT]
    passes the query on to [oxr_session_hand_joints] exactly when
    [jointCount] equals [XR_HAND_JOINT_COUNT_EXT] and so does the joint
    count of a chained velocities structure, if there is one; any other
    count, a larger one included, gives [XR_ERROR_VALIDATION_FAILURE] and
    writes nothing. *)
Theorem hand_joint_query_wants_exact_counts `{B : oxr_backend} `{L : oxr_limits}
    (st : oxr_state) (handTracker : Z) (t : oxr_hand_tracker) (s : oxr_session)
    (locateInfo : XrHandJointsLocateInfoEXT) (locations : XrHandJointLocationsEXT) :
  live_hand_tracker st handTracker t ->
  heap st !! ht_sess t = Some (ObjSession s) ->
  is_lost s = false ->
  hjli_type locateInfo = XR_TYPE_HAND_JOINTS_LOCATE_INFO_EXT ->
  hjl_type locations = XR_TYPE_HAND_JOINT_LOCATIONS_EXT ->
  is_Some (hjl_jointLocations locations) ->
  live_space st (hjli_baseSpace locateInfo) ->
  0 < hjli_time locateInfo ->
  ht_hand_joint_set t = XR_HAND_JOINT_SET_DEFAULT_EXT ->
  0 < XR_HAND_JOINT_COUNT_EXT ->
  (hjl_jointCount locations = XR_HAND_JOINT_COUNT_EXT ->
   (forall vel, hjl_velocities locations = Some vel ->
                hjv_jointCount vel = XR_HAND_JOINT_COUNT_EXT) ->
   oxr_xrLocateHandJointsEXT handTracker (Some locateInfo) st (Some locations)
   = let '(r, st', l') := oxr_session_hand_joints handTracker locateInfo st locations in
     Next r st' (Some l')) /\
  (hjl_jointCount locations <> XR_HAND_JOINT_COUNT_EXT \/
   (exists vel, hjl_velocities locations = Some vel /\
                hjv_jointCount vel <> XR_HAND_JOINT_COUNT_EXT) ->
   oxr_xrLocateHandJointsEXT handTracker (Some locateInfo) st (Some locations)
   = Error XR_ERROR_VALIDATION_FAILURE st (Some locations)).
Proof.
  intros Ht Hs Hl Hli Hloc Hjl Hsp Htime Hset Hpos.
  assert (Hpre : oxr_xrLocateHandJointsEXT handTracker (Some locateInfo) st (Some locations)
                 = (do _ <- check (hjl_jointCount locations =? XR_HAND_JOINT_COUNT_EXT)
                              XR_ERROR_VALIDATION_FAILURE;
                    do _ <- match hjl_velocities locations with
                            | Some vel =>
                                do _ <- check (negb (hjv_jointCount vel <=? 0))
                                          XR_ERROR_VALIDATION_FAILURE;
                                check (hjv_jointCount vel =? XR_HAND_JOINT_COUNT_EXT)
                                  XR_ERROR_VALIDATION_FAILURE
                            | None => ret tt
                            end;
                    call_on locations (oxr_session_hand_joints handTracker locateInfo))
                     st (Some locations)).
  { unfold oxr_xrLocateHandJointsEXT.
    step (verify_hand_tracker_next _ _ _ (Some locations) Ht).
    destruct Ht as (_ & Hh & _).
    step (deref_hand_tracker_next _ _ _ (Some locations) Hh).
    step (not_lost_next _ _ _ (Some locations) Hs Hl).
    step (arg_type_next locateInfo _ _ st (Some locations) Hli).
    unfold bind at 1. unfold get_out.
    step (arg_type_next locations _ _ st (Some locations) Hloc).
    step (arg_not_null_some _ st (Some locations) Hjl).
    step (verify_space_next _ _ (Some locations) Hsp).
    assert (Hp : negb (hjli_time locateInfo <=? 0) = true)
      by (apply negb_true_iff, Z.leb_gt; exact Htime).
    step (check_next _ XR_ERROR_TIME_INVALID st (Some locations) Hp).
    rewrite Hset. cbn [is_default_joint_set]. reflexivity. }
  rewrite Hpre. clear Hpre. split.
  - intros Hc Hv.
    step (check_next _ XR_ERROR_VALIDATION_FAILURE st (Some locations)
            (proj2 (Z.eqb_eq _ _) Hc)).
    destruct (hjl_velocities locations) as [vel|].
    + specialize (Hv vel eq_refl).
      unfold bind at 1. unfold bind at 1.
      rewrite (check_next (negb (hjv_jointCount vel <=? 0)) _ st (Some locations))
        by (apply negb_true_iff, Z.leb_gt; lia).
      rewrite (check_next _ XR_ERROR_VALIDATION_FAILURE st (Some locations)
                 (proj2 (Z.eqb_eq _ _) Hv)).
      reflexivity.
    + reflexivity.
  - intros [Hc | (vel & Hvel & Hc)].
    + apply bind_error, check_error, Z.eqb_neq. exact Hc.
    + destruct (hjl_jointCount locations =? XR_HAND_JOINT_COUNT_EXT) eqn:E.
      * step (check_next true XR_ERROR_VALIDATION_FAILURE st (Some locations) eq_refl).
        rewrite Hvel. apply bind_error.
        destruct (hjv_jointCount vel <=? 0) eqn:E0.
        -- apply bind_error. reflexivity.
        -- unfold bind. cbn [negb check ret].
           apply check_error, Z.eqb_neq. exact Hc.
      * apply bind_error. reflexivity.
Qed.

(** X24, witness: 26 joints with a velocities structure for 27. *)
Lemma hand_joint_query_wants_exact_counts_witness :
  @oxr_xrLocateHandJointsEXT sample_backend openxr_limits 2 (Some hand_locate_info)
    focused_state (Some (hand_locations_with_velocities 27))
  = Error XR_ERROR_VALIDATION_FAILURE focused_state
      (Some (hand_locations_with_velocities 27)).
Proof.
  refine (proj2 (@hand_joint_query_wants_exact_counts sample_backend openxr_limits
                   focused_state 2 _ (sample_session XR_SESSION_STATE_FOCUSED true)
                   hand_locate_info (hand_locations_with_velocities 27)
                   _ _ _ _ _ _ _ _ _ _) _).
  - split; [lia | split; reflexivity].
  - reflexivity.
  - reflexivity.
  - reflexivity.
  - reflexivity.
  - eexists. reflexivity.
  - split; [simpl; lia | eexists; split; reflexivity].
  - simpl. lia.
  - reflexivity.
  - simpl. lia.
  - right. exists (hand_velocities 27). split; [reflexivity | simpl; lia].
Defined.

Lemma written_range_length {A} (g : nat -> A) n : forall i a,
  length (written_range g i n a) = length a.
Proof.
  induction n as [|n IH]; intros i a; simpl; [reflexivity|].
  destruct (a !! i); [|reflexivity]. rewrite IH. apply length_insert.
Qed.

Lemma written_range_outside {A} (g : nat -> A) n : forall i a k,
  (k < i \/ i + n <= k)%nat -> written_range g i n a !! k = a !! k.
Proof.
  induction n as [|n IH]; intros i a k Hk; simpl; [reflexivity|].
  destruct (a !! i) as [x|]; [|reflexivity].
  rewrite IH by lia. apply list_lookup_insert_ne. lia.
Qed.

Lemma written_range_inside {A} (g : nat -> A) n : forall i a k,
  (i + n <= length a)%nat -> (i <= k < i + n)%nat ->
  written_range g i n a !! k = Some (g k).
Proof.
  induction n as [|n IH]; intros i a k Hlen Hk; simpl; [lia|].
  destruct (a !! i) as [x|] eqn:Hx.
  2: { apply lookup_ge_None in Hx. lia. }
  destruct (decide (k = i)) as [->|Hne].
  - rewrite written_range_outside by lia.
    apply list_lookup_insert_eq. apply lookup_lt_Some in Hx. exact Hx.
  - apply IH; [rewrite length_insert; lia | lia].
Qed.

(** X25.  [xrGetFacialExpressionsHTC] never returns [XR_SUCCESS] and never
    writes.  Its handle check and its type check read the same bytes, at
    [facialExpressions]: a call that finds a live facial tracker there
    fails with [XR_ERROR_SESSION_LOST] when the session of the tracker is
    lost and with [XR_ERROR_VALIDATION_FAILURE] otherwise, state and
    output as before; and no call, whatever the state and the arguments,
    gets past its checks. *)
Theorem facial_expressions_query_never_succeeds `{B : oxr_backend} `{L : oxr_limits}
    (facialTracker facialExpressions : Z) (st : oxr_state) (out : XrFacialExpressionsHTC) :
  (forall t s,
     live_facial_tracker st facialExpressions t ->
     heap st !! ft_sess t = Some (ObjSession s) ->
     oxr_xrGetFacialExpressionsHTC facialTracker facialExpressions st out
     = Error (if is_lost s then XR_ERROR_SESSION_LOST else XR_ERROR_VALIDATION_FAILURE)
         st out) /\
  (forall r st' out',
     oxr_xrGetFacialExpressionsHTC facialTracker facialExpressions st out
     <> Next r st' out').
Proof.
  split.
  - intros t s Ht Hs. unfold oxr_xrGetFacialExpressionsHTC.
    step (verify_facial_tracker_next _ _ _ out Ht).
    destruct Ht as (Hnz & Hh & _).
    step (deref_facial_tracker_next _ _ _ out Hh).
    destruct (is_lost s) eqn:Hl.
    + apply bind_error. exact (not_lost_error _ _ _ out Hs Hl).
    + step (not_lost_next _ _ _ out Hs Hl).
      destruct (ft_xdev t) as [xdev|]; [|reflexivity].
      step (arg_not_null_next xdev st out).
      unfold bind at 1. unfold get_out.
      rewrite bool_decide_false by exact Hnz.
      reflexivity.
  - intros r st' out' H. unfold oxr_xrGetFacialExpressionsHTC in H.
    do 4 (apply quiet_bind_inv in H as (? & _ & H); [|solve [disciplined]]).
    unfold bind at 1 in H. unfold get_out in H.
    apply quiet_bind_inv in H as (fe & Hfe & _); [|solve [disciplined]].
    apply arg_type_inv in Hfe as [Hsome Hty].
    case_bool_decide; [discriminate|].
    injection Hsome as <-. discriminate Hty.
Qed.

(** X25, witness: the eye tracker 4 with a well-typed buffer of 16
    weights as the output component. *)
Lemma facial_expressions_query_never_succeeds_witness :
  @oxr_xrGetFacialExpressionsHTC sample_backend openxr_limits 0 4 tracked_state
    (expression_buffer 16)
  = Error XR_ERROR_VALIDATION_FAILURE tracked_state (expression_buffer 16).
Proof.
  refine (proj1 (@facial_expressions_query_never_succeeds sample_backend openxr_limits
                   0 4 tracked_state (expression_buffer 16))
            _ (sample_session XR_SESSION_STATE_FOCUSED true) _ _).
  - split; [lia | split; reflexivity].
  - reflexivity.
Defined.

Lemma write_skeleton_joint_loop (g : nat -> XrBodySkeletonJointFB) n : forall i js k st,
  bsk_joints k = Some js ->
  (i + n <= length js)%nat ->
  for_each i n (fun j => write_skeleton_joint j (g j)) st (Some k)
  = Next tt st (Some (set_bsk_joints (written_range g i n js) k)).
Proof.
  induction n as [|n IH]; intros i js k st Hjs Hlen; simpl.
  - unfold ret. destruct k. simpl in Hjs. subst. reflexivity.
  - destruct (js !! i) as [x|] eqn:Hx.
    2: { apply lookup_ge_None in Hx. lia. }
    unfold bind at 1. unfold write_skeleton_joint at 1.
    unfold bind, get_out, deref, put_out, ret, update_at. rewrite Hjs, Hx.
    fold (@bind (option XrBodySkeletonFB) unit unit).
    change (for_each (S i) n (fun j => write_skeleton_joint j (g j)) st
              (Some (set_bsk_joints (<[i:=g i]> js) k))
            = Next () st (Some (set_bsk_joints
                                  (written_range g (S i) n (<[i:=g i]> js)) k))).
    rewrite (IH (S i) (<[i:=g i]> js) (set_bsk_joints (<[i:=g i]> js) k) st);
      [reflexivity | reflexivity | rewrite length_insert; lia].
Qed.

(** X26.  Once its checks have passed, [xrGetBodySkeletonFB] fails with
    [XR_ERROR_RUNTIME_FAILURE], writing nothing, when the device fails, and
    otherwise returns [XR_SUCCESS] with the first joints of the caller's
    buffer, as many as the tracker's joint set has (the full-body count for
    a full-body tracker), set to the joint, parent and pose the device
    gave; the joints after them, [jointCount] and the state are as
    before. *)
Theorem body_skeleton_copies_the_variant_joints `{L : oxr_limits}
    (st : oxr_state) (bodyTracker : Z) (t : oxr_body_tracker_fb) (s : oxr_session)
    (xdev : xrt_device) (skeleton : XrBodySkeletonFB) :
  let n := Z.to_nat (body_joint_count_of t) in
  live_body_tracker st bodyTracker t ->
  heap st !! bt_sess t = Some (ObjSession s) ->
  is_lost s = false ->
  bt_xdev t = Some xdev ->
  body_tracking_supported xdev = true ->
  bsk_type skeleton = XR_TYPE_BODY_SKELETON_FB ->
  body_joint_count_of t <= bsk_jointCount skeleton ->
  (forall code result,
     get_body_skeleton xdev (body_input_name_of t) = (XRT_ERROR code, result) ->
     oxr_xrGetBodySkeletonFB bodyTracker st (Some skeleton)
     = Error XR_ERROR_RUNTIME_FAILURE st (Some skeleton)) /\
  (forall result js,
     get_body_skeleton xdev (body_input_name_of t) = (XRT_SUCCESS, result) ->
     bsk_joints skeleton = Some js ->
     (n <= length js)%nat ->
     exists js',
       oxr_xrGetBodySkeletonFB bodyTracker st (Some skeleton)
       = Next XR_SUCCESS st (Some (set_bsk_joints js' skeleton)) /\
       length js' = length js /\
       (forall k, (k < n)%nat ->
          js' !! k = Some (skeleton_joint_of (nth k (skeleton_joints result)
                                                skeleton_joint0))) /\
       (forall k, (n <= k)%nat -> js' !! k = js !! k)).
Proof.
  intros n Ht Hs Hl Hx Hsup Hty Hcount.
  assert (Hpre : oxr_xrGetBodySkeletonFB bodyTracker st (Some skeleton)
                 = (let '(xret, body_skeleton_result) :=
                      get_body_skeleton xdev (body_input_name_of t) in
                    do _ <- check (xrt_is_success xret) XR_ERROR_RUNTIME_FAILURE;
                    do _ <- for_each 0 n
                              (fun joint_index =>
                                 write_skeleton_joint joint_index
                                   (skeleton_joint_of
                                      (nth joint_index
                                         (skeleton_joints body_skeleton_result)
                                         skeleton_joint0)));
                    ret XR_SUCCESS) st (Some skeleton)).
  { unfold oxr_xrGetBodySkeletonFB.
    step (verify_body_tracker_next _ _ _ (Some skeleton) Ht).
    destruct Ht as (_ & Hh & _).
    step (deref_body_tracker_next _ _ _ (Some skeleton) Hh).
    step (not_lost_next _ _ _ (Some skeleton) Hs Hl).
    rewrite Hx.
    step (arg_not_null_next xdev st (Some skeleton)).
    unfold bind at 1. unfold get_out.
    step (arg_type_next skeleton _ _ st (Some skeleton) Hty).
    cbn [supports_body]. rewrite Hsup.
    step (check_next true XR_ERROR_FUNCTION_UNSUPPORTED st (Some skeleton) eq_refl).
    cbv zeta.
    assert (Hc : negb (bsk_jointCount skeleton <? body_joint_count_of t) = true)
      by (apply negb_true_iff, Z.ltb_ge; exact Hcount).
    step (check_next _ XR_ERROR_VALIDATION_FAILURE st (Some skeleton) Hc).
    unfold bind at 1. cbn [deref ret]. reflexivity. }
  rewrite Hpre. clear Hpre. split.
  - intros code result Hget. rewrite Hget. reflexivity.
  - intros result js Hget Hjs Hlen. rewrite Hget.
    step (check_next (xrt_is_success XRT_SUCCESS) XR_ERROR_RUNTIME_FAILURE st
            (Some skeleton) eq_refl).
    set (g := fun k => skeleton_joint_of (nth k (skeleton_joints result) skeleton_joint0)).
    exists (written_range g 0 n js). split; [|split; [|split]].
    + rewrite (bind_next _ _ _ _ _ _ _
                 (write_skeleton_joint_loop g n 0 js skeleton st Hjs Hlen)).
      reflexivity.
    + apply written_range_length.
    + intros k Hk. exact (written_range_inside g n 0 js k Hlen (conj (Nat.le_0_l k) Hk)).
    + intros k Hk. apply written_range_outside. lia.
Qed.

(** X26, witness: a full-body tracker and a buffer of 85 joints; joints
    0 and 83 are written, joint 84 is not. *)
Lemma body_skeleton_copies_the_variant_joints_witness :
  exists js',
    @oxr_xrGetBodySkeletonFB openxr_limits 3 tracked_state
      (Some (skeleton_buffer 85))
    = Next XR_SUCCESS tracked_state (Some (set_bsk_joints js' (skeleton_buffer 85))) /\
    js' !! 0%nat = Some {| joint := 0; parentJoint := -1; sj_pose := pose0 |} /\
    js' !! 83%nat = Some {| joint := 0; parentJoint := 0; sj_pose := pose0 |} /\
    js' !! 84%nat = Some {| joint := 9; parentJoint := 9; sj_pose := pose0 |}.
Proof.
  destruct (proj2 (@body_skeleton_copies_the_variant_joints openxr_limits
                     tracked_state 3
                     {| bt_handle := live_base 1 []; bt_sess := 1;
                        bt_xdev := Some tracking_device;
                        joint_set_type := XRT_BODY_JOINT_SET_FULL_BODY_META |}
                     (sample_session XR_SESSION_STATE_FOCUSED true) tracking_device
                     (skeleton_buffer 85)
                     ltac:(split; [lia | split; reflexivity])
                     eq_refl eq_refl eq_refl eq_refl eq_refl
                     ltac:(vm_compute; discriminate))
              (snd (get_body_skeleton tracking_device XRT_INPUT_META_FULL_BODY_TRACKING))
              (repeat {| joint := 9; parentJoint := 9; sj_pose := pose0 |} 85)
              eq_refl eq_refl ltac:(vm_compute; lia))
    as (js' & Hrun & _ & Hin & Hout).
  exists js'. split; [exact Hrun|]. split; [|split].
  - rewrite Hin by (vm_compute; lia). reflexivity.
  - rewrite Hin by (vm_compute; lia). reflexivity.
  - rewrite Hout by (vm_compute; lia). reflexivity.
Defined.

Lemma write_body_joint_loop (g : nat -> XrBodyJointLocationFB) n : forall i js l st,
  bjl_jointLocations l = Some js ->
  (i + n <= length js)%nat ->
  for_each i n (fun j => update_body_joint j (fun _ => g j)) st (Some l)
  = Next tt st (Some (set_bjl_jointLocations (written_range g i n js) l)).
Proof.
  induction n as [|n IH]; intros i js l st Hjs Hlen; simpl.
  - unfold ret. destruct l. simpl in Hjs. subst. reflexivity.
  - destruct (js !! i) as [x|] eqn:Hx.
    2: { apply lookup_ge_None in Hx. lia. }
    unfold bind at 1. unfold update_body_joint at 1.
    unfold bind, get_out, deref, put_out, ret, update_at. rewrite Hjs, Hx.
    fold (@bind (option XrBodyJointLocationsFB) unit unit).
    change (for_each (S i) n (fun j => update_body_joint j (fun _ => g j)) st
              (Some (set_bjl_jointLocations (<[i:=g i]> js) l))
            = Next () st (Some (set_bjl_jointLocations
                                  (written_range g (S i) n (<[i:=g i]> js)) l))).
    rewrite (IH (S i) (<[i:=g i]> js) (set_bjl_jointLocations (<[i:=g i]> js) l) st);
      [reflexivity | reflexivity | rewrite length_insert; lia].
Qed.

Section BodyJointRuns.
Context `{B : oxr_backend} `{L : oxr_limits}.
Context (st : oxr_state) (bodyTracker : Z) (t : oxr_body_tracker_fb) (s : oxr_session)
        (xdev : xrt_device) (locateInfo : XrBodyJointsLocateInfoFB)
        (locations : XrBodyJointLocationsFB) (js : list XrBodyJointLocationFB)
        (body_joint_set_result : xrt_body_joint_set).

Context (Ht : live_body_tracker st bodyTracker t)
        (Hs : heap st !! bt_sess t = Some (ObjSession s))
        (Hl : is_lost s = false)
        (Hx : bt_xdev t = Some xdev)
        (Hsup : body_tracking_supported xdev = true)
        (Hli : bjli_type locateInfo = XR_TYPE_BODY_JOINTS_LOCATE_INFO_FB)
        (Hloc : bjl_type locations = XR_TYPE_BODY_JOINT_LOCATIONS_FB)
        (Hjs : bjl_jointLocations locations = Some js)
        (Hsp : live_space st (bjli_baseSpace locateInfo))
        (Hcount : body_joint_count_of t <= bjl_jointCount locations)
        (Htime : 0 < bjli_time locateInfo)
        (Hget : get_body_joints xdev (body_input_name_of t)
                  (time_state_ts_to_monotonic_ns (bjli_time locateInfo))
                = (XRT_SUCCESS, body_joint_set_result)).

(** The query up to the call of [oxr_get_base_body_pose]. *)
Lemma body_joints_prefix :
  oxr_xrLocateBodyJointsFB bodyTracker (Some locateInfo) st (Some locations)
  = (let '(r, T_base_body) :=
       oxr_get_base_body_pose st body_joint_set_result (bjli_baseSpace locateInfo) xdev
         (bjli_time locateInfo) in
     if negb (is_success r) then
       do _ <- modify_out (set_bjl_isActive false);
       ret r
     else
     do _ <- modify_out (set_bjl_isActive (is_active body_joint_set_result));
     if negb (is_active body_joint_set_result) || (relation_flags T_base_body =? 0) then
       do _ <- modify_out (set_bjl_isActive false);
       do _ <- for_each 0 (Z.to_nat XRT_BODY_JOINT_COUNT_FB)
                 (fun joint_index =>
                    update_body_joint joint_index
                      (set_locationFlags XRT_SPACE_RELATION_BITMASK_NONE));
       ret XR_SUCCESS
     else
     do _ <- modify_out
               (set_bjl_sample
                  (time_state_monotonic_to_ts_ns (sample_time_ns body_joint_set_result))
                  (bjs_confidence body_joint_set_result)
                  (skeleton_changed_count body_joint_set_result));
     do _ <- for_each 0 (Z.to_nat (body_joint_count_of t))
               (fun joint_index =>
                  update_body_joint joint_index
                    (fun _ =>
                       body_joint_of T_base_body
                         (nth joint_index (joint_locations body_joint_set_result)
                            {| relation := relation0 |})));
     do _ <- match bjl_fidelity locations with
             | Some _ =>
                 do _ <- OXR_VERIFY_EXTENSION META_body_tracking_fidelity;
                 do _ <- check (body_tracking_fidelity_supported xdev)
                           XR_ERROR_FEATURE_UNSUPPORTED;
                 modify_out (set_bjl_fidelity (fidelity_status body_joint_set_result))
             | None => ret tt
             end;
     ret XR_SUCCESS) st (Some locations).
Proof.
  unfold oxr_xrLocateBodyJointsFB.
  step (verify_body_tracker_next _ _ _ (Some locations) Ht).
  destruct Ht as (_ & Hh & _).
  step (arg_type_next locateInfo _ _ st (Some locations) Hli).
  unfold bind at 1. unfold get_out.
  step (arg_type_next locations _ _ st (Some locations) Hloc).
  step (deref_body_tracker_next _ _ _ (Some locations) Hh).
  step (not_lost_next _ _ _ (Some locations) Hs Hl).
  rewrite Hx.
  step (arg_not_null_some (Some xdev) st (Some locations) (ex_intro _ xdev eq_refl)).
  step (arg_not_null_some (bjl_jointLocations locations) st (Some locations)
          (ex_intro _ js Hjs)).
  step (verify_space_next _ _ (Some locations) Hsp).
  cbn [supports_body]. rewrite Hsup.
  step (check_next true XR_ERROR_FUNCTION_UNSUPPORTED st (Some locations) eq_refl).
  cbv zeta.
  assert (Hc : negb (bjl_jointCount locations <? body_joint_count_of t) = true)
    by (apply negb_true_iff, Z.ltb_ge; exact Hcount).
  step (check_next _ XR_ERROR_VALIDATION_FAILURE st (Some locations) Hc).
  assert (Hpos : negb (bjli_time locateInfo <=? 0) = true)
    by (apply negb_true_iff, Z.leb_gt; exact Htime).
  step (check_next _ XR_ERROR_TIME_INVALID st (Some locations) Hpos).
  unfold bind at 1. cbn [deref ret]. rewrite Hget.
  step (check_next (xrt_is_success XRT_SUCCESS) XR_ERROR_RUNTIME_FAILURE st
          (Some locations) eq_refl).
  unfold bind at 1. unfold get_state. reflexivity.
Qed.

(** The same up to the end of the joint loop of a tracked body. *)
Lemma body_joints_active_run T_base_body :
  oxr_get_base_body_pose st body_joint_set_result (bjli_baseSpace locateInfo) xdev
    (bjli_time locateInfo)
  = (XR_SUCCESS, T_base_body) ->
  is_active body_joint_set_result = true ->
  relation_flags T_base_body <> 0 ->
  (Z.to_nat (body_joint_count_of t) <= length js)%nat ->
  oxr_xrLocateBodyJointsFB bodyTracker (Some locateInfo) st (Some locations)
  = (do _ <- match bjl_fidelity locations with
             | Some _ =>
                 do _ <- OXR_VERIFY_EXTENSION META_body_tracking_fidelity;
                 do _ <- check (body_tracking_fidelity_supported xdev)
                           XR_ERROR_FEATURE_UNSUPPORTED;
                 modify_out (set_bjl_fidelity (fidelity_status body_joint_set_result))
             | None => ret tt
             end;
     ret XR_SUCCESS) st
      (Some (located t body_joint_set_result T_base_body js locations)).
Proof.
  intros Hpose Hact Hflags Hlen. rewrite body_joints_prefix, Hpose.
  change (is_success XR_SUCCESS) with true. cbn [negb].
  rewrite Hact. cbn [negb orb].
  replace (relation_flags T_base_body =? 0) with false
    by (symmetry; apply Z.eqb_neq; exact Hflags).
  unfold bind at 1. unfold modify_out at 1.
  unfold bind at 1. unfold bind at 1. unfold get_out. cbn [deref ret put_out].
  unfold bind at 1. unfold modify_out at 1.
  unfold bind at 1. unfold bind at 1. unfold get_out. cbn [deref ret put_out].
  unfold bind at 1.
  rewrite (write_body_joint_loop _ (Z.to_nat (body_joint_count_of t)) 0 js _ st);
    [reflexivity | exact Hjs | simpl; exact Hlen].
Qed.

End BodyJointRuns.

(** X27.  When the device reports the body as tracked and the pose of
    the body in the base space is valid, [xrLocateBodyJointsFB] returns
    [XR_SUCCESS] with [isActive] true, the time, confidence and
    skeleton-changed count of the device, and every joint of the tracker's
    joint set, all those of the full-body set for a full-body tracker,
    located: flags converted from the device's, pose resolved against the
    body pose.  The joints after them are as the caller left them.  With a
    fidelity-status structure on the chain, the extension enabled and a
    supporting device, the fidelity is written as well. *)
Theorem tracked_body_query_locates_the_whole_variant `{B : oxr_backend} `{L : oxr_limits}
    (st : oxr_state) (bodyTracker : Z) (t : oxr_body_tracker_fb) (s : oxr_session)
    (xdev : xrt_device) (locateInfo : XrBodyJointsLocateInfoFB)
    (locations : XrBodyJointLocationsFB) (js : list XrBodyJointLocationFB)
    (body_joint_set_result : xrt_body_joint_set) (T_base_body : xrt_space_relation) :
  let n := Z.to_nat (body_joint_count_of t) in
  live_body_tracker st bodyTracker t ->
  heap st !! bt_sess t = Some (ObjSession s) ->
  is_lost s = false ->
  bt_xdev t = Some xdev ->
  body_tracking_supported xdev = true ->
  bjli_type locateInfo = XR_TYPE_BODY_JOINTS_LOCATE_INFO_FB ->
  bjl_type locations = XR_TYPE_BODY_JOINT_LOCATIONS_FB ->
  bjl_jointLocations locations = Some js ->
  live_space st (bjli_baseSpace locateInfo) ->
  body_joint_count_of t <= bjl_jointCount locations ->
  0 < bjli_time locateInfo ->
  get_body_joints xdev (body_input_name_of t)
    (time_state_ts_to_monotonic_ns (bjli_time locateInfo))
  = (XRT_SUCCESS, body_joint_set_result) ->
  oxr_get_base_body_pose st body_joint_set_result (bjli_baseSpace locateInfo) xdev
    (bjli_time locateInfo)
  = (XR_SUCCESS, T_base_body) ->
  is_active body_joint_set_result = true ->
  relation_flags T_base_body <> 0 ->
  (n <= length js)%nat ->
  exists js',
    let written :=
      set_bjl_jointLocations js'
        (set_bjl_sample
           (time_state_monotonic_to_ts_ns (sample_time_ns body_joint_set_result))
           (bjs_confidence body_joint_set_result)
           (skeleton_changed_count body_joint_set_result)
           (set_bjl_isActive true locations)) in
    (bjl_fidelity locations = None ->
     oxr_xrLocateBodyJointsFB bodyTracker (Some locateInfo) st (Some locations)
     = Next XR_SUCCESS st (Some written)) /\
    (is_Some (bjl_fidelity locations) ->
     extensions (inst st) META_body_tracking_fidelity = true ->
     body_tracking_fidelity_supported xdev = true ->
     oxr_xrLocateBodyJointsFB bodyTracker (Some locateInfo) st (Some locations)
     = Next XR_SUCCESS st
         (Some (set_bjl_fidelity (fidelity_status body_joint_set_result) written))) /\
    (forall k, (k < n)%nat ->
       js' !! k
       = Some {| locationFlags :=
                   xrt_to_xr_space_location_flags
                     (relation_flags
                        (relation (nth k (joint_locations body_joint_set_result)
                                     {| relation := relation0 |})));
                 bj_pose :=
                   pose (m_relation_chain_resolve
                           [relation (nth k (joint_locations body_joint_set_result)
                                        {| relation := relation0 |});
                            T_base_body]) |}) /\
    (forall k, (n <= k)%nat -> js' !! k = js !! k).
Proof.
  intros n Ht Hs Hl Hx Hsup Hli Hloc Hjs Hsp Hcount Htime Hget Hpose Hact Hflags Hlen.
  pose proof (body_joints_active_run st bodyTracker t s xdev locateInfo locations js
                body_joint_set_result Ht Hs Hl Hx Hsup Hli Hloc Hjs Hsp Hcount Htime Hget
                T_base_body Hpose Hact Hflags Hlen) as Hrun.
  set (g := fun k => body_joint_of T_base_body
                       (nth k (joint_locations body_joint_set_result)
                          {| relation := relation0 |})).
  exists (written_range g 0 n js). cbv zeta. split; [|split; [|split]].
  - intros Hf. rewrite Hrun, Hf. reflexivity.
  - intros [f Hf] Hext Hfs. rewrite Hrun, Hf.
    unfold bind at 1. unfold bind at 1.
    rewrite (extension_next _ _ _ Hext).
    unfold bind at 1. rewrite Hfs. reflexivity.
  - intros k Hk. exact (written_range_inside g n 0 js k Hlen (conj (Nat.le_0_l k) Hk)).
  - intros k Hk. apply written_range_outside. lia.
Qed.

(** X27, witness: a full-body tracker and a buffer of 85 joints; joints
    0 and 83 are written, joint 84 is not. *)
Lemma tracked_body_query_locates_the_whole_variant_witness :
  exists js',
    @oxr_xrLocateBodyJointsFB sample_backend openxr_limits 3 (Some body_locate_info)
      tracked_state (Some (body_locations 85))
    = Next XR_SUCCESS tracked_state
        (Some (set_bjl_jointLocations js'
                 (set_bjl_sample 7 (F32.of_Z 1) 2
                    (set_bjl_isActive true (body_locations 85))))) /\
    js' !! 0%nat = Some {| locationFlags := 1; bj_pose := pose0 |} /\
    js' !! 83%nat = Some {| locationFlags := 0; bj_pose := pose0 |} /\
    js' !! 84%nat = Some {| locationFlags := 3; bj_pose := pose0 |}.
Proof.
  destruct (@tracked_body_query_locates_the_whole_variant sample_backend openxr_limits
              tracked_state 3
              {| bt_handle := live_base 1 []; bt_sess := 1;
                 bt_xdev := Some tracking_device;
                 joint_set_type := XRT_BODY_JOINT_SET_FULL_BODY_META |}
              (sample_session XR_SESSION_STATE_FOCUSED true) tracking_device
              body_locate_info (body_locations 85)
              (repeat {| locationFlags := 3; bj_pose := pose0 |} 85)
              (snd (get_body_joints tracking_device XRT_INPUT_META_FULL_BODY_TRACKING 1))
              {| relation_flags := 3; pose := pose0 |})
    as (js' & Hnone & _ & Hin & Hout).
  - split; [lia | split; reflexivity].
  - reflexivity.
  - reflexivity.
  - reflexivity.
  - reflexivity.
  - reflexivity.
  - reflexivity.
  - reflexivity.
  - split; [simpl; lia | eexists; split; reflexivity].
  - vm_compute. discriminate.
  - reflexivity.
  - reflexivity.
  - reflexivity.
  - reflexivity.
  - discriminate.
  - vm_compute. lia.
  - exists js'. split; [exact (Hnone eq_refl)|]. split; [|split].
    + rewrite Hin by (vm_compute; lia). reflexivity.
    + rewrite Hin by (vm_compute; lia). reflexivity.
    + rewrite Hout by (vm_compute; lia). reflexivity.
Defined.

(** X28.  When [oxr_get_base_body_pose] fails, [xrLocateBodyJointsFB]
    returns the code it failed with, sets [isActive] to false and leaves
    every joint, and the state, as they were. *)
Theorem body_query_returns_the_base_pose_failure `{B : oxr_backend} `{L : oxr_limits}
    (st : oxr_state) (bodyTracker : Z) (t : oxr_body_tracker_fb) (s : oxr_session)
    (xdev : xrt_device) (locateInfo : XrBodyJointsLocateInfoFB)
    (locations : XrBodyJointLocationsFB) (js : list XrBodyJointLocationFB)
    (body_joint_set_result : xrt_body_joint_set) (T_base_body : xrt_space_relation)
    (r : XrResult) :
  live_body_tracker st bodyTracker t ->
  heap st !! bt_sess t = Some (ObjSession s) ->
  is_lost s = false ->
  bt_xdev t = Some xdev ->
  body_tracking_supported xdev = true ->
  bjli_type locateInfo = XR_TYPE_BODY_JOINTS_LOCATE_INFO_FB ->
  bjl_type locations = XR_TYPE_BODY_JOINT_LOCATIONS_FB ->
  bjl_jointLocations locations = Some js ->
  live_space st (bjli_baseSpace locateInfo) ->
  body_joint_count_of t <= bjl_jointCount locations ->
  0 < bjli_time locateInfo ->
  get_body_joints xdev (body_input_name_of t)
    (time_state_ts_to_monotonic_ns (bjli_time locateInfo))
  = (XRT_SUCCESS, body_joint_set_result) ->
  oxr_get_base_body_pose st body_joint_set_result (bjli_baseSpace locateInfo) xdev
    (bjli_time locateInfo)
  = (r, T_base_body) ->
  r <> XR_SUCCESS ->
  oxr_xrLocateBodyJointsFB bodyTracker (Some locateInfo) st (Some locations)
  = Next r st (Some (set_bjl_isActive false locations)).
Proof.
  intros Ht Hs Hl Hx Hsup Hli Hloc Hjs Hsp Hcount Htime Hget Hpose Hr.
  rewrite (body_joints_prefix st bodyTracker t s xdev locateInfo locations js
             body_joint_set_result Ht Hs Hl Hx Hsup Hli Hloc Hjs Hsp Hcount Htime Hget).
  rewrite Hpose. unfold is_success. rewrite bool_decide_false by exact Hr. reflexivity.
Qed.

(** X28, witness: a runtime in which the base pose cannot be found. *)
Lemma body_query_returns_the_base_pose_failure_witness :
  @oxr_xrLocateBodyJointsFB poseless_backend openxr_limits 3 (Some body_locate_info)
    tracked_state (Some (body_locations 84))
  = Next XR_ERROR_RUNTIME_FAILURE tracked_state
      (Some (set_bjl_isActive false (body_locations 84))).
Proof.
  apply (@body_query_returns_the_base_pose_failure poseless_backend openxr_limits
           tracked_state 3
           {| bt_handle := live_base 1 []; bt_sess := 1;
              bt_xdev := Some tracking_device;
              joint_set_type := XRT_BODY_JOINT_SET_FULL_BODY_META |}
           (sample_session XR_SESSION_STATE_FOCUSED true) tracking_device
           body_locate_info (body_locations 84)
           (repeat {| locationFlags := 3; bj_pose := pose0 |} 84)
           (snd (get_body_joints tracking_device XRT_INPUT_META_FULL_BODY_TRACKING 1))
           relation0).
  - split; [lia | split; reflexivity].
  - reflexivity.
  - reflexivity.
  - reflexivity.
  - reflexivity.
  - reflexivity.
  - reflexivity.
  - reflexivity.
  - split; [simpl; lia | eexists; split; reflexivity].
  - vm_compute. discriminate.
  - reflexivity.
  - reflexivity.
  - reflexivity.
  - discriminate.
Defined.

(** X29.  With a fidelity-status structure chained to [locations],
    [xrLocateBodyJointsFB] checks the fidelity extension and the device's
    fidelity support only after it has located the joints: for a tracked
    body it fails with [XR_ERROR_FUNCTION_UNSUPPORTED] when the extension is
    disabled and with [XR_ERROR_FEATURE_UNSUPPORTED] when the device lacks
    the support, and the caller's structure then already holds [isActive]
    true, the sample data and the located joints. *)
Theorem fidelity_is_checked_after_the_joints_are_written `{B : oxr_backend}
    `{L : oxr_limits}
    (st : oxr_state) (bodyTracker : Z) (t : oxr_body_tracker_fb) (s : oxr_session)
    (xdev : xrt_device) (locateInfo : XrBodyJointsLocateInfoFB)
    (locations : XrBodyJointLocationsFB) (js : list XrBodyJointLocationFB)
    (body_joint_set_result : xrt_body_joint_set) (T_base_body : xrt_space_relation) :
  let n := Z.to_nat (body_joint_count_of t) in
  live_body_tracker st bodyTracker t ->
  heap st !! bt_sess t = Some (ObjSession s) ->
  is_lost s = false ->
  bt_xdev t = Some xdev ->
  body_tracking_supported xdev = true ->
  bjli_type locateInfo = XR_TYPE_BODY_JOINTS_LOCATE_INFO_FB ->
  bjl_type locations = XR_TYPE_BODY_JOINT_LOCATIONS_FB ->
  bjl_jointLocations locations = Some js ->
  live_space st (bjli_baseSpace locateInfo) ->
  body_joint_count_of t <= bjl_jointCount locations ->
  0 < bjli_time locateInfo ->
  get_body_joints xdev (body_input_name_of t)
    (time_state_ts_to_monotonic_ns (bjli_time locateInfo))
  = (XRT_SUCCESS, body_joint_set_result) ->
  oxr_get_base_body_pose st body_joint_set_result (bjli_baseSpace locateInfo) xdev
    (bjli_time locateInfo)
  = (XR_SUCCESS, T_base_body) ->
  is_active body_joint_set_result = true ->
  relation_flags T_base_body <> 0 ->
  (n <= length js)%nat ->
  is_Some (bjl_fidelity locations) ->
  exists js',
    let written :=
      set_bjl_jointLocations js'
        (set_bjl_sample
           (time_state_monotonic_to_ts_ns (sample_time_ns body_joint_set_result))
           (bjs_confidence body_joint_set_result)
           (skeleton_changed_count body_joint_set_result)
           (set_bjl_isActive true locations)) in
    (extensions (inst st) META_body_tracking_fidelity = false ->
     oxr_xrLocateBodyJointsFB bodyTracker (Some locateInfo) st (Some locations)
     = Error XR_ERROR_FUNCTION_UNSUPPORTED st (Some written)) /\
    (extensions (inst st) META_body_tracking_fidelity = true ->
     body_tracking_fidelity_supported xdev = false ->
     oxr_xrLocateBodyJointsFB bodyTracker (Some locateInfo) st (Some locations)
     = Error XR_ERROR_FEATURE_UNSUPPORTED st (Some written)) /\
    (forall k, (k < n)%nat ->
       option_map locationFlags (js' !! k)
       = Some (xrt_to_xr_space_location_flags
                 (relation_flags
                    (relation (nth k (joint_locations body_joint_set_result)
                                 {| relation := relation0 |}))))).
Proof.
  intros n Ht Hs Hl Hx Hsup Hli Hloc Hjs Hsp Hcount Htime Hget Hpose Hact Hflags Hlen
    [f Hf].
  pose proof (body_joints_active_run st bodyTracker t s xdev locateInfo locations js
                body_joint_set_result Ht Hs Hl Hx Hsup Hli Hloc Hjs Hsp Hcount Htime Hget
                T_base_body Hpose Hact Hflags Hlen) as Hrun.
  set (g := fun k => body_joint_of T_base_body
                       (nth k (joint_locations body_joint_set_result)
                          {| relation := relation0 |})).
  exists (written_range g 0 n js). cbv zeta. split; [|split].
  - intros Hext. rewrite Hrun, Hf. apply bind_error, bind_error.
    unfold OXR_VERIFY_EXTENSION, bind, get_state. rewrite Hext. reflexivity.
  - intros Hext Hfs. rewrite Hrun, Hf. apply bind_error.
    rewrite (bind_next _ _ _ _ _ _ _ (extension_next _ _ _ Hext)).
    apply bind_error. rewrite Hfs. reflexivity.
  - intros k Hk.
    rewrite (written_range_inside g n 0 js k Hlen (conj (Nat.le_0_l k) Hk)).
    reflexivity.
Qed.

(** X29, witness: a device without fidelity support; joint 0 has been
    located although the call failed. *)
Lemma fidelity_is_checked_after_the_joints_are_written_witness :
  exists js',
    @oxr_xrLocateBodyJointsFB sample_backend openxr_limits 3 (Some body_locate_info)
      tracked_state (Some (body_locations_with_fidelity 84))
    = Error XR_ERROR_FEATURE_UNSUPPORTED tracked_state
        (Some (set_bjl_jointLocations js'
                 (set_bjl_sample 7 (F32.of_Z 1) 2
                    (set_bjl_isActive true (body_locations_with_fidelity 84))))) /\
    option_map locationFlags (js' !! 0%nat) = Some 1.
Proof.
  destruct (@fidelity_is_checked_after_the_joints_are_written sample_backend openxr_limits
              tracked_state 3
              {| bt_handle := live_base 1 []; bt_sess := 1;
                 bt_xdev := Some tracking_device;
                 joint_set_type := XRT_BODY_JOINT_SET_FULL_BODY_META |}
              (sample_session XR_SESSION_STATE_FOCUSED true) tracking_device
              body_locate_info (body_locations_with_fidelity 84)
              (repeat {| locationFlags := 3; bj_pose := pose0 |} 84)
              (snd (get_body_joints tracking_device XRT_INPUT_META_FULL_BODY_TRACKING 1))
              {| relation_flags := 3; pose := pose0 |})
    as (js' & _ & Hdev & Hin).
  - split; [lia | split; reflexivity].
  - reflexivity.
  - reflexivity.
  - reflexivity.
  - reflexivity.
  - reflexivity.
  - reflexivity.
  - reflexivity.
  - split; [simpl; lia | eexists; split; reflexivity].
  - vm_compute. discriminate.
  - reflexivity.
  - reflexivity.
  - reflexivity.
  - reflexivity.
  - discriminate.
  - vm_compute. lia.
  - eexists. reflexivity.
  - exists js'. split; [exact (Hdev eq_refl eq_refl)|].
    rewrite Hin by (vm_compute; lia). reflexivity.
Defined.
